(** * cloudmodular: the storage consistency engine

    A shallow embedding of [apps/storage/utils/managers.py] and
    [apps/storage/utils/queries/data_db_query.py].

    The [datainfo] table is a list of rows, the physical store is a finite
    map from paths to objects, and every manager method is a computation in
    a small state-and-exception monad over the [World] record: an exception
    leaves the side effects that happened before it, exactly as in Python,
    and [try_except] is the [try: ... except Exception as e: ...] block.
    A [session.commit()] may fail; the world carries the schedule of such
    failures, so that the compensation paths can be exercised.

    The first part holds the model, the vocabulary of the statements and
    the sample data; the second part holds the properties. *)

From Stdlib Require Import ZArith String Ascii List Bool Lia.

From stdpp Require Import base option gmap strings pretty.

Import ListNotations.

Local Open Scope Z_scope.

(** ** Exceptions *)

Inductive exn : Type :=
| PermissionError            (* builtin, raised by the policy check *)
| UserNotFound               (* core.exc *)
| DataNotFound               (* core.exc *)
| DataAlreadyExists          (* core.exc *)
| ValidationError            (* pydantic, raised by the request schemas *)
| MultipleResultsFound       (* sqlalchemy, raised by [Query.scalar] *)
| AttributeError             (* attribute access on [None] *)
| OSError                    (* filesystem call on a missing path *)
| CollisionError             (* physical rename onto an occupied name *)
| InvalidCredential          (* token decoding *)
| DBError (msg : string).    (* a failing [session.commit()] *)

Inductive Result (A : Type) : Type :=
| Ok (a : A)
| Raise (e : exn).

Arguments Ok {A} a.

Arguments Raise {A} e.

(** ** Data model *)

(** A row of the [datainfo] table ([apps/storage/models.py]). *)
Record DataInfo : Type := mkDataInfo {
  id : Z;
  root : string;
  name : string;
  is_dir : bool;
  created : Z;
  is_favorite : bool;
  size : Z;
  user_id : Z
}.

(** The request schema [DataInfoCreate] as the managers fill it. *)
Record DataInfoCreate : Type := mkDataInfoCreate {
  c_name : string;
  c_root : string;
  c_user_id : Z;
  c_is_dir : bool;
  c_size : Z
}.

(** The fields of a [User] row the managers read. *)
Record User : Type := mkUser {
  u_id : Z;
  u_email : string;
  u_is_admin : bool
}.

(** [fastapi.UploadFile]: a client-supplied filename and the byte stream. *)
Record UploadFile : Type := mkUploadFile {
  filename : string;
  content : list Byte.byte
}.

(** An entry of the filesystem under the storage root. *)
Inductive PhysObj : Type :=
| PFile (bytes : list Byte.byte)
| PDir.

(** Everything a request can observe or change.  [faults] schedules the
    outcome of the coming [session.commit()] calls: [Some msg] makes the
    commit raise, [None] (or nothing scheduled) lets it through. *)
Record World : Type := mkWorld {
  datainfo : list DataInfo;
  next_id : Z;
  now : Z;
  users : list User;
  storage : gmap string PhysObj;
  faults : list (option string)
}.

Definition set_datainfo (t : list DataInfo) (w : World) : World :=
  mkWorld t (next_id w) (now w) (users w) (storage w) (faults w).

Definition set_next_id (n : Z) (w : World) : World :=
  mkWorld (datainfo w) n (now w) (users w) (storage w) (faults w).

Definition set_storage (s : gmap string PhysObj) (w : World) : World :=
  mkWorld (datainfo w) (next_id w) (now w) (users w) s (faults w).

Definition set_faults (f : list (option string)) (w : World) : World :=
  mkWorld (datainfo w) (next_id w) (now w) (users w) (storage w) f.

(** ** The state-and-exception monad *)

Definition M (A : Type) : Type := World -> Result A * World.

Definition ret {A} (a : A) : M A := fun w => (Ok a, w).

Definition raise {A} (e : exn) : M A := fun w => (Raise e, w).

Definition bind {A B} (m : M A) (k : A -> M B) : M B :=
  fun w => match m w with
           | (Ok a, w') => k a w'
           | (Raise e, w') => (Raise e, w')
           end.

Definition try_except {A} (m : M A) (handler : exn -> M A) : M A :=
  fun w => match m w with
           | (Ok a, w') => (Ok a, w')
           | (Raise e, w') => handler e w'
           end.

Definition gets {A} (f : World -> A) : M A := fun w => (Ok (f w), w).

Definition modify (f : World -> World) : M unit := fun w => (Ok tt, f w).

Notation "x <- m ;; k" := (bind m (fun x => k))
  (at level 100, m at next level, right associativity).

Notation "m ;;; k" := (bind m (fun _ => k))
  (at level 100, right associativity).

(** ** Python helpers *)

(** Truthiness of an [Optional[int]] argument: [None] and [0] are false. *)
Definition truthy_int (o : option Z) : bool :=
  match o with
  | Some n => negb (n =? 0)
  | None => false
  end.

(** Truthiness of an [Optional[str]]: [None] and the empty string are false. *)
Definition truthy_str (o : option string) : bool :=
  match o with
  | Some s => negb (String.eqb s "")
  | None => false
  end.

(** The SQL comparison [column == arg] for an [Optional[int]] argument. *)
Definition sql_eq_int (col : Z) (arg : option Z) : bool :=
  match arg with
  | Some v => col =? v
  | None => false
  end.

(** [str(n)] for an integer. *)
Definition str_of_int (n : Z) : string := pretty n.

(** [s.split('/')]: never empty, one more piece than there are slashes. *)
Fixpoint split_slash (s : string) : list string :=
  match s with
  | EmptyString => [EmptyString]
  | String c s' =>
      if Ascii.eqb c "/"%char then EmptyString :: split_slash s'
      else match split_slash s' with
           | piece :: rest => String c piece :: rest
           | [] => [String c EmptyString]
           end
  end.

(** [l[-1]] on the pieces of a split. *)
Definition last_piece (l : list string) : string := List.last l EmptyString.

(** SQL [s LIKE pat] with no [ESCAPE] clause: in the pattern a percent sign
    stands for any run of characters, the empty one included, an underscore
    for any one character, and every other character for itself. *)
Fixpoint sql_like (pat s : string) : bool :=
  match pat with
  | EmptyString =>
      match s with
      | EmptyString => true
      | String _ _ => false
      end
  | String c pat' =>
      if Ascii.eqb c "%"%char then
        (fix skip (s : string) : bool :=
           sql_like pat' s
           || match s with
              | EmptyString => false
              | String _ s' => skip s'
              end) s
      else
        match s with
        | EmptyString => false
        | String c' s' =>
            (Ascii.eqb c "_"%char || Ascii.eqb c c') && sql_like pat' s'
        end
  end.

(** [DataInfo.root.startswith(prefix)]: SQLAlchemy renders it as
    [root LIKE prefix || '%'] and escapes nothing, so an underscore or a
    percent sign inside [prefix] is a wildcard.  How two ordinary
    characters compare is the engine's: they compare by code here, and the
    statements on what a cascade leaves alone are made for the rows that
    the pattern does not select even when the case of letters is ignored. *)
Definition startswith (s pre : string) : bool := sql_like (pre +:+ "%") s.

(** SQL [REPLACE(s, src, dst)]: every non-overlapping occurrence of [src]
    in [s], scanned from the left, becomes [dst].  [skip] counts the
    characters of an occurrence that are still to be dropped. *)
Fixpoint sql_replace_from (skip : nat) (src dst s : string) : string :=
  match s with
  | EmptyString => EmptyString
  | String c s' =>
      match skip with
      | S k => sql_replace_from k src dst s'
      | O =>
          if String.prefix src s
          then dst +:+ sql_replace_from (String.length src - 1) src dst s'
          else String c (sql_replace_from O src dst s')
      end
  end.

Definition sql_replace (s src dst : string) : string :=
  match src with
  | EmptyString => s
  | _ => sql_replace_from O src dst s
  end.

(** ** The filesystem *)

(** The physical store maps a path, taken as it is written, to the object
    it holds.  This is the filesystem for paths in normal form, with no
    empty, [.] or [..] component after the first: there a path names one
    object and lies below another path exactly when it extends it by a
    slash and more.  A statement about which paths an operation leaves
    alone is made for such paths. *)

(** [k] lies below the directory [p]. *)
Definition is_under (p k : string) : bool := String.prefix (p +:+ "/") k.

Fixpoint has_slash (s : string) : bool :=
  match s with
  | EmptyString => false
  | String c s' => Ascii.eqb c "/"%char || has_slash s'
  end.

Fixpoint string_drop (n : nat) (s : string) : string :=
  match n, s with
  | O, _ => s
  | S k, String _ s' => string_drop k s'
  | S _, EmptyString => EmptyString
  end.

(** The path up to and including its last slash. *)
Fixpoint dirname (s : string) : string :=
  match s with
  | EmptyString => EmptyString
  | String c s' => if has_slash s then String c (dirname s') else EmptyString
  end.

(** [os.path.getsize]: the byte length of a regular file.  The size of a
    directory entry is platform-defined and is taken as 0; the managers call
    this only on a path just probed as a regular file. *)
Definition os_path_getsize (path : string) : M Z :=
  s <- gets storage ;;
  match s !! path with
  | Some (PFile bytes) => ret (Z.of_nat (List.length bytes))
  | Some PDir => ret 0
  | None => raise OSError
  end.

(** [len(os.listdir(path))]: the number of direct children. *)
Definition os_listdir_len (path : string) : M Z :=
  s <- gets storage ;;
  match s !! path with
  | Some PDir =>
      ret (Z.of_nat (base.size (filter (fun kv : string * PhysObj =>
             is_under path kv.1
             && negb (has_slash (string_drop (String.length path + 1) kv.1))
             = true) s)))
  | _ => raise OSError
  end.

(** ** The metadata store: [data_db_query.py] *)

Definition with_name (n : string) (d : DataInfo) : DataInfo :=
  mkDataInfo (id d) (root d) n (is_dir d) (created d) (is_favorite d)
             (size d) (user_id d).

Definition with_root (r : string) (d : DataInfo) : DataInfo :=
  mkDataInfo (id d) r (name d) (is_dir d) (created d) (is_favorite d)
             (size d) (user_id d).

Definition with_size (s : Z) (d : DataInfo) : DataInfo :=
  mkDataInfo (id d) (root d) (name d) (is_dir d) (created d) (is_favorite d)
             s (user_id d).

(** [Query.scalar()]: no row gives [None], one row gives the row, several
    rows raise. *)
Definition scalar {A} (rows : list A) : M (option A) :=
  match rows with
  | [] => ret None
  | [r] => ret (Some r)
  | _ :: _ :: _ => raise MultipleResultsFound
  end.

(** [session.commit()] inside [try: ... except: session.rollback(); raise]:
    the schedule advances by one; the pending change [upd] reaches the
    table, or the scheduled fault is raised and the table stays as it was. *)
Definition session_commit (upd : World -> World) : M unit :=
  fun w =>
    let rest := List.tl (faults w) in
    match List.head (faults w) with
    | Some (Some msg) => (Raise (DBError msg), set_faults rest w)
    | _ => (Ok tt, set_faults rest (upd w))
    end.

(** The row with primary key [i], rewritten by [f]. *)
Definition update_row (i : Z) (f : DataInfo -> DataInfo)
    (t : list DataInfo) : list DataInfo :=
  List.map (fun r => if id r =? i then f r else r) t.

(** [session.refresh(row)]: the row as the table now has it. *)
Definition session_refresh (row : DataInfo) : M DataInfo :=
  t <- gets datainfo ;;
  ret (match List.find (fun r => id r =? id row) t with
       | Some r => r
       | None => row
       end).

(** [DataDBQueryCreator.__call__]. *)
Definition DataDBQueryCreator (data_format : DataInfoCreate) : M DataInfo :=
  q <- gets datainfo ;;
  same <- scalar (List.filter (fun d =>
            String.eqb (name d) (c_name data_format)
            && String.eqb (root d) (c_root data_format)
            && (user_id d =? c_user_id data_format)
            && Bool.eqb (is_dir d) (c_is_dir data_format)) q) ;;
  match same with
  | Some _ => raise DataAlreadyExists
  | None =>
      new_id <- gets next_id ;;
      stamp <- gets now ;;
      let data := mkDataInfo new_id (c_root data_format) (c_name data_format)
                    (c_is_dir data_format) stamp false (c_size data_format)
                    (c_user_id data_format) in
      session_commit (fun w =>
        set_next_id (next_id w + 1) (set_datainfo (datainfo w ++ [data]) w)) ;;;
      session_refresh data
  end.

(** [DataDBQueryDestroyer.__call__].  The tag rows it also deletes live in
    other tables and do not touch [datainfo]. *)
Definition DataDBQueryDestroyer (data_id : Z) : M (string * string) :=
  q <- gets datainfo ;;
  found <- scalar (List.filter (fun d => id d =? data_id) q) ;;
  match found with
  | None => raise AttributeError
  | Some data =>
      let below := root data +:+ name data +:+ "/" in
      let t1 := if is_dir data
                then List.filter (fun d =>
                       negb ((user_id d =? user_id data)
                             && startswith (root d) below)) q
                else q in
      let t2 := List.filter (fun d => negb (id d =? data_id)) t1 in
      session_commit (set_datainfo t2) ;;;
      ret (root data, name data)
  end.

(** [DataDBQueryReader.__call__].  [Query.filter] returns a new query and
    leaves its receiver alone; the two [query.filter(DataInfo.user_id ==
    user_id)] statements drop that new query, so [scalar] runs on the query
    built before them.  [if is_dir:] is a truth test of the argument. *)
Definition DataDBQueryReader (user_id_arg : option Z) (is_dir_arg : option bool)
    (data_id : option Z) (full_root : option (string * string))
    : M (option DataInfo) :=
  q <- gets datainfo ;;
  data <-
    (if truthy_int data_id then
       let query := List.filter (fun d => sql_eq_int (id d) data_id) q in
       let _dropped :=
         if truthy_int user_id_arg
         then List.filter (fun d => sql_eq_int (user_id d) user_id_arg) query
         else query in
       scalar query
     else match full_root with
          | Some (r, n) =>
              let query := List.filter (fun d =>
                             String.eqb (root d) r && String.eqb (name d) n) q in
              let _dropped :=
                if truthy_int user_id_arg
                then List.filter (fun d => sql_eq_int (user_id d) user_id_arg) query
                else query in
              scalar query
          | None => ret None
          end) ;;
  match is_dir_arg with
  | Some true =>
      match data with
      | Some d => if negb (Bool.eqb (is_dir d) true) then ret None else ret data
      | None => ret data
      end
  | Some false | None => ret data
  end.

(** [DataDBQueryUpdator.__call__].  The source names the old prefix
    [dst_root] and the new one [src_root]. *)
Definition DataDBQueryUpdator (new_name : string) (user_id_arg data_id : Z)
    : M DataInfo :=
  q <- gets datainfo ;;
  found <- scalar (List.filter (fun d =>
             (user_id d =? user_id_arg) && (id d =? data_id)) q) ;;
  match found with
  | None => raise DataNotFound
  | Some data_info =>
      let prev_name := name data_info in
      let renamed := update_row (id data_info) (with_name new_name) q in
      let t :=
        if is_dir data_info then
          let dst_root := root data_info +:+ prev_name +:+ "/" in
          let src_root := root data_info +:+ new_name +:+ "/" in
          List.map (fun r =>
            if (user_id r =? user_id_arg) && startswith (root r) dst_root
            then with_root (sql_replace (root r) dst_root src_root) r
            else r) renamed
        else renamed in
      session_commit (set_datainfo t) ;;;
      session_refresh (with_name new_name data_info)
  end.

(** [DataDBQuery.update_file_automatic]. *)
Definition update_file_automatic (data_id : Z) (data_format : DataInfoCreate)
    : M DataInfo :=
  q <- gets datainfo ;;
  found <- scalar (List.filter (fun d => id d =? data_id) q) ;;
  match found with
  | None => raise DataNotFound
  | Some data_info =>
      let sized := with_size (c_size data_format) in
      session_commit (fun w =>
        set_datainfo (update_row (id data_info) sized (datainfo w)) w) ;;;
      session_refresh (sized data_info)
  end.

(** [DataDBQuery.sync_file_size]. *)
Definition sync_file_size (data_id : Z) (full_root : string) : M DataInfo :=
  q <- gets datainfo ;;
  found <- scalar (List.filter (fun d => id d =? data_id) q) ;;
  match found with
  | None => raise DataNotFound
  | Some data_info =>
      real_size <- os_path_getsize full_root ;;
      let db_size := size data_info in
      if negb (real_size =? db_size) then
        session_commit (fun w =>
          set_datainfo (update_row (id data_info) (with_size real_size)
                          (datainfo w)) w) ;;;
        session_refresh (with_size real_size data_info)
      else ret data_info
  end.

(** ** The physical store: [data_storage_query.py] *)

(** Modelled from the spec: [DataStorageQuery.read] of
    [apps/storage/utils/queries/data_storage_query.py], which is not part of
    the sources.  An existence probe: a presence signal for a directory, and
    likewise for a file. *)
Definition DataStorageQuery_read (path : string) (is_dir_arg : bool) : M bool :=
  s <- gets storage ;;
  ret (match s !! path with
       | Some PDir => is_dir_arg
       | Some (PFile _) => negb is_dir_arg
       | None => false
       end).

(** Modelled from the spec: [DataStorageQuery.create].  For a directory it
    makes the directory; for a file it writes the byte stream and returns the
    resulting byte size. *)
Definition DataStorageQuery_create (path : string) (is_dir_arg : bool)
    (file : option UploadFile) : M Z :=
  if is_dir_arg then
    modify (fun w => set_storage (<[path := PDir]> (storage w)) w) ;;;
    ret 0
  else
    let bytes := match file with Some f => content f | None => [] end in
    modify (fun w => set_storage (<[path := PFile bytes]> (storage w)) w) ;;;
    ret (Z.of_nat (List.length bytes)).

(** Modelled from the spec: [DataStorageQuery.destroy].  A recursive delete
    that tolerates a path already absent. *)
Definition DataStorageQuery_destroy (path : string) : M unit :=
  modify (fun w =>
    set_storage (filter (fun kv : string * PhysObj =>
                   String.eqb kv.1 path || is_under path kv.1 = false)
                   (storage w)) w).

(** Modelled from the spec: [DataStorageQuery.update].  It renames the leaf
    component in place, fails when the destination name is occupied by
    another object, and returns nothing when the source does not exist. *)
Definition DataStorageQuery_update (path new_name : string)
    : M (option string) :=
  s <- gets storage ;;
  let new_path := dirname path +:+ new_name in
  if negb (String.eqb new_path path) && bool_decide (is_Some (s !! new_path))
  then raise CollisionError
  else match s !! path with
       | None => ret None
       | Some _ =>
           let move (kv : string * PhysObj) :=
             if String.eqb kv.1 path then (new_path, kv.2)
             else if is_under path kv.1
                  then (new_path +:+ string_drop (String.length path) kv.1, kv.2)
                  else kv in
           modify (set_storage (list_to_map (List.map move (map_to_list s)))) ;;;
           ret (Some new_path)
       end.

(** ** Collaborators of the managers *)

(** The characters a name may not contain: slash, backslash, colon, star,
    double quote (code 34), single quote, angle brackets and the bar. *)
Definition forbidden_chars : list ascii :=
  ["/"; "\"; ":"; "*"; "034"; "'"; "<"; ">"; "|"]%char.

Fixpoint has_forbidden (s : string) : bool :=
  match s with
  | EmptyString => false
  | String c s' =>
      List.existsb (Ascii.eqb c) forbidden_chars || has_forbidden s'
  end.

(** Modelled from the spec: the name validation of the request schemas in
    [apps/storage/schemas.py], which is not part of the sources.  It rejects
    empty names and names containing a forbidden character. *)
Definition valid_name (n : string) : bool :=
  negb (String.eqb n "") && negb (has_forbidden n).

(** Modelled from the spec: building a [DataInfoCreate] of
    [apps/storage/schemas.py] validates the name, then gives the filled
    schema. *)
Definition DataInfoCreate_new (n : string) (uid : Z) (r : string)
    (dir : bool) (sz : Z) : M DataInfoCreate :=
  if valid_name n then ret (mkDataInfoCreate n r uid dir sz)
  else raise ValidationError.

(** Modelled from the spec: building a [DataInfoUpdate] of
    [apps/storage/schemas.py], done only for its validation of the name. *)
Definition DataInfoUpdate_new (n r : string) (uid : Z) : M unit :=
  if valid_name n then ret tt else raise ValidationError.

Definition with_c_size (sz : Z) (f : DataInfoCreate) : DataInfoCreate :=
  mkDataInfoCreate (c_name f) (c_root f) (c_user_id f) (c_is_dir f) sz.

(** Modelled from the spec: [UserDBQuery.read] of
    [apps/user/utils/queries/user_db_query.py], which is not part of the
    sources.  A lookup by user id or by e-mail that yields the user or
    nothing. *)
Definition UserDBQuery_read_id (uid : Z) : M (option User) :=
  us <- gets users ;;
  ret (List.find (fun u => u_id u =? uid) us).

(** Modelled from the spec: the same [UserDBQuery.read], called with
    [user_email]. *)
Definition UserDBQuery_read_email (email : string) : M (option User) :=
  us <- gets users ;;
  ret (List.find (fun u => String.eqb (u_email u) email) us).

(** Modelled from the spec: the permission checkers of [core/permissions.py]
    and [architecture/query/permission.py], which are not part of the
    sources.  Three atomic checks, combined with [&], [|] and [~] and read
    off with [bool(...)].  [is_login] tells whether an issue kind is the one
    of a login credential. *)
Inductive Permission : Type :=
| LoginedOnly (issue : string)
| AdminOnly (flag : bool)
| OnlyMine (actor target : Z)
| PAnd (a b : Permission)
| POr (a b : Permission)
| PNot (a : Permission).

(** Modelled from the spec: [bool(...)] of a combined checker, the truth
    value of the boolean expression it stands for. *)
Fixpoint permission_bool (is_login : string -> bool) (p : Permission) : bool :=
  match p with
  | LoginedOnly issue => is_login issue
  | AdminOnly flag => flag
  | OnlyMine actor target => actor =? target
  | PAnd a b => permission_bool is_login a && permission_bool is_login b
  | POr a b => permission_bool is_login a || permission_bool is_login b
  | PNot a => negb (permission_bool is_login a)
  end.

(** The composite every entry point of [DataManager] builds. *)
Definition data_permission (issue : string) (operator : User) (uid : Z)
    : Permission :=
  PAnd (LoginedOnly issue)
       (POr (AdminOnly (u_is_admin operator))
            (PAnd (PNot (AdminOnly (u_is_admin operator)))
                  (OnlyMine (u_id operator) uid))).

(** What [DataManager.read] returns: the [info] dictionary and, in download
    mode, the path under [file]. *)
Record ReadInfo : Type := mkReadInfo {
  ri_created : Z;
  ri_root : string;
  ri_is_dir : bool;
  ri_name : string;
  ri_size : Z
}.

Record ReadResult : Type := mkReadResult {
  rr_info : ReadInfo;
  rr_file : option string
}.

(** What [DataManager.update] returns. *)
Record UpdateResult : Type := mkUpdateResult {
  ur_created : Z;
  ur_data_id : Z;
  ur_root : string;
  ur_name : string;
  ur_is_dir : bool
}.

Inductive Mode : Type := ModeInfo | ModeDownload | ModeOther (m : string).

Definition lift {A} (r : Result A) : M A := fun w => (r, w).

(** ** The managers: [managers.py] *)

Section Managers.

(** [settings.base.SERVER["storage"]], the configured storage root. *)
Variable SERVER_storage : string.

(** [core.token_generators.decode_token] at [LoginTokenGenerator]: the
    e-mail and the issue kind carried by a credential, or a failure. *)
Variable decode_token : string -> Result (string * string).

(** The test behind [PermissionIssueLoginChecker]: the issue kind of the
    credential is the login kind. *)
Variable is_login : string -> bool.

(** [f'{SERVER["storage"]}/storage/{user_id}/root{root}{name}']. *)
Definition raw_path (uid : Z) (r n : string) : string :=
  SERVER_storage +:+ "/storage/" +:+ str_of_int uid +:+ "/root" +:+ r +:+ n.

(** [DataStorageQuery().read(root, True) or DataStorageQuery().read(root,
    False)], the test at lines 79-80 and 206-207: the second probe runs only
    when the first is false. *)
Definition storage_occupied (path : string) : M bool :=
  as_dir <- DataStorageQuery_read path true ;;
  if as_dir then ret true else DataStorageQuery_read path false.

(** Lines 54-64 of [DataFileCRUDManager.create], and the same statements
    at lines 183-193 of [DataDirectoryCRUDManager.create]: the parent path
    is [/] for id 0, else that of the record read with [is_dir=True]. *)
Definition parent_dir_root (root_id uid : Z) : M string :=
  if negb (root_id =? 0) then
    directory_info <-
      DataDBQueryReader (Some uid) (Some true) (Some root_id) None ;;
    match directory_info with
    | None => raise DataNotFound
    | Some d => ret (root d +:+ name d +:+ "/")
    end
  else ret "/".

(** [DataFileCRUDManager.create]. *)
Definition DataFileCRUDManager_create (root_id uid : Z) (file : UploadFile)
    : M DataInfo :=
  user <- UserDBQuery_read_id uid ;;
  match user with
  | None => raise UserNotFound
  | Some _ =>
      dir_root <- parent_dir_root root_id uid ;;
      let fname := last_piece (split_slash (filename file)) in
      let file_root := raw_path uid dir_root fname in
      db_already_info <-
        DataDBQueryReader (Some uid) None None (Some (dir_root, fname)) ;;
      let db_already_id :=
        match db_already_info with Some d => id d | None => 0 end in
      (if negb (db_already_id =? 0)
          && match db_already_info with Some d => is_dir d | None => false end
       then raise DataAlreadyExists
       else
         occupied <- storage_occupied file_root ;;
         if occupied then DataStorageQuery_destroy file_root else ret tt) ;;;
      input_format <- DataInfoCreate_new fname uid dir_root false 0 ;;
      data_size <- DataStorageQuery_create file_root false (Some file) ;;
      let input_format := with_c_size data_size input_format in
      try_except
        (if negb (db_already_id =? 0)
         then update_file_automatic db_already_id input_format
         else DataDBQueryCreator input_format)
        (fun e => DataStorageQuery_destroy file_root ;;; raise e)
  end.

(** [DataFileCRUDManager.read]. *)
Definition DataFileCRUDManager_read (raw_root : string) : M string :=
  ret raw_root.

(** [DataFileCRUDManager.update]. *)
Definition DataFileCRUDManager_update (uid data_id : Z) (new_name : string)
    : M DataInfo :=
  user <- UserDBQuery_read_id uid ;;
  match user with
  | None => raise UserNotFound
  | Some _ =>
      data <- DataDBQueryReader (Some uid) (Some false) (Some data_id) None ;;
      match data with
      | None => raise DataNotFound
      | Some data =>
          DataInfoUpdate_new new_name (root data) uid ;;;
          let prev_name := name data in
          let directory_root := raw_path uid (root data) "" in
          let raw_root := directory_root +:+ prev_name in
          new_root <-
            try_except (DataStorageQuery_update raw_root new_name)
                       (fun _ => raise DataAlreadyExists) ;;
          match new_root with
          | None =>
              DataDBQueryDestroyer data_id ;;;
              raise DataNotFound
          | Some _ =>
              try_except
                (DataDBQueryUpdator new_name uid (id data))
                (fun e =>
                   DataStorageQuery_update (directory_root +:+ new_name)
                     (name data) ;;;
                   raise e)
          end
      end
  end.

(** [DataFileCRUDManager.destroy]. *)
Definition DataFileCRUDManager_destroy (uid data_id : Z) : M unit :=
  rn <- DataDBQueryDestroyer data_id ;;
  let raw_root := raw_path uid rn.1 rn.2 in
  DataStorageQuery_destroy raw_root.

(** [DataDirectoryCRUDManager.create]. *)
Definition DataDirectoryCRUDManager_create (root_id uid : Z) (dirname : string)
    : M DataInfo :=
  user <- UserDBQuery_read_id uid ;;
  match user with
  | None => raise UserNotFound
  | Some _ =>
      dir_root <- parent_dir_root root_id uid ;;
      let path := raw_path uid dir_root dirname in
      db_already_info <-
        DataDBQueryReader (Some uid) None None (Some (dir_root, dirname)) ;;
      let db_already_id :=
        match db_already_info with Some d => id d | None => 0 end in
      if negb (db_already_id =? 0) then raise DataAlreadyExists
      else
        occupied <- storage_occupied path ;;
        (if occupied then DataStorageQuery_destroy path else ret tt) ;;;
        input_format <- DataInfoCreate_new dirname uid dir_root true 0 ;;
        DataStorageQuery_create path true None ;;;
        try_except
          (DataDBQueryCreator input_format)
          (fun e => DataStorageQuery_destroy path ;;; raise e)
  end.

(** [DataDirectoryCRUDManager.update]. *)
Definition DataDirectoryCRUDManager_update (uid data_id : Z)
    (new_name : string) : M DataInfo :=
  user <- UserDBQuery_read_id uid ;;
  match user with
  | None => raise UserNotFound
  | Some _ =>
      data <- DataDBQueryReader (Some uid) None (Some data_id) None ;;
      match data with
      | None => raise DataNotFound
      | Some data =>
          DataInfoUpdate_new new_name (root data) uid ;;;
          let prev_name := name data in
          let directory_root := raw_path uid (root data) "" in
          let raw_root := directory_root +:+ prev_name in
          new_root <-
            try_except (DataStorageQuery_update raw_root new_name)
                       (fun _ => raise DataAlreadyExists) ;;
          match new_root with
          | None =>
              DataDBQueryDestroyer data_id ;;;
              raise DataNotFound
          | Some _ =>
              try_except
                (DataDBQueryUpdator new_name uid (id data))
                (fun e =>
                   DataStorageQuery_update (directory_root +:+ new_name)
                     prev_name ;;;
                   raise e)
          end
      end
  end.

(** [DataDirectoryCRUDManager.destroy]. *)
Definition DataDirectoryCRUDManager_destroy (uid data_id : Z) : M unit :=
  rn <- DataDBQueryDestroyer data_id ;;
  let raw_root := raw_path uid rn.1 rn.2 in
  DataStorageQuery_destroy raw_root.

(** [DataDirectoryCRUDManager.read]: [shutil.make_archive] writes the
    archive outside the storage tree, where the world holds nothing, and
    gives its path, made of the time of the call.  The string returned
    here stands for that path; the statements say that a path is returned
    and leave open which. *)
Definition DataDirectoryCRUDManager_read (raw_root : string) : M string :=
  stamp <- gets now ;;
  ret ("download-" +:+ str_of_int stamp +:+ ".zip").

(** The opening of every [DataManager] method (lines 310-322, 346-356,
    414-426 and 456-469, the same statements): decode the token, load the
    operator, evaluate the composite. *)
Definition check_permission (token : string) (uid : Z) : M unit :=
  decoded <- lift (decode_token token) ;;
  let op_email := decoded.1 in
  let issue := decoded.2 in
  operator <- UserDBQuery_read_email op_email ;;
  match operator with
  | None => raise PermissionError
  | Some operator =>
      if negb (permission_bool is_login (data_permission issue operator uid))
      then raise PermissionError
      else ret tt
  end.

(** [DataManager.create]. *)
Definition DataManager_create (token : string) (uid data_id : Z)
    (req_file : option UploadFile) (req_dirname : option string)
    : M (option DataInfo) :=
  check_permission token uid ;;;
  match req_file with
  | Some file =>
      d <- DataFileCRUDManager_create data_id uid file ;;
      ret (Some d)
  | None =>
      if truthy_str req_dirname then
        d <- DataDirectoryCRUDManager_create data_id uid
               (default EmptyString req_dirname) ;;
        ret (Some d)
      else ret None
  end.

(** [DataManager.read]. *)
Definition DataManager_read (token : string) (uid data_id : Z) (mode : Mode)
    : M ReadResult :=
  check_permission token uid ;;;
  target_user <- UserDBQuery_read_id uid ;;
  match target_user with
  | None => raise UserNotFound
  | Some _ =>
      found <- DataDBQueryReader (Some uid) None (Some data_id) None ;;
      match found with
      | None => raise DataNotFound
      | Some data_info =>
          let raw_root := raw_path uid (root data_info) (name data_info) in
          storage_info <- DataStorageQuery_read raw_root (is_dir data_info) ;;
          if negb storage_info then
            DataDBQueryDestroyer (id data_info) ;;;
            raise DataNotFound
          else
            data_info <-
              (if negb (is_dir data_info)
               then sync_file_size data_id raw_root
               else ret data_info) ;;
            sz <- (if is_dir data_info then os_listdir_len raw_root
                   else ret (size data_info)) ;;
            let info := mkReadInfo (created data_info) (root data_info)
                          (is_dir data_info) (name data_info) sz in
            match mode with
            | ModeDownload =>
                file <- (if negb (is_dir data_info)
                         then DataFileCRUDManager_read raw_root
                         else DataDirectoryCRUDManager_read raw_root) ;;
                ret (mkReadResult info (Some file))
            | _ => ret (mkReadResult info None)
            end
      end
  end.

(** [DataManager.update]. *)
Definition DataManager_update (token : string) (uid data_id : Z)
    (new_name : string) : M UpdateResult :=
  check_permission token uid ;;;
  target <- DataDBQueryReader (Some uid) None (Some data_id) None ;;
  match target with
  | None => raise DataNotFound
  | Some target =>
      res <- (if is_dir target
              then DataDirectoryCRUDManager_update uid data_id new_name
              else DataFileCRUDManager_update uid data_id new_name) ;;
      ret (mkUpdateResult (created res) (id res) (root res) (name res)
             (is_dir res))
  end.

(** [DataManager.destroy]. *)
Definition DataManager_destroy (token : string) (uid data_id : Z) : M unit :=
  check_permission token uid ;;;
  target <- DataDBQueryReader (Some uid) None (Some data_id) None ;;
  match target with
  | None => raise DataNotFound
  | Some target =>
      if is_dir target
      then DataDirectoryCRUDManager_destroy uid data_id
      else DataFileCRUDManager_destroy uid data_id
  end.

End Managers.

(** ** Vocabulary of the statements *)

(** The composite as the specification words it. *)
Definition policy (authenticated is_admin is_owner : bool) : bool :=
  authenticated && (is_admin || (negb is_admin && is_owner)).

Definition identity_permitted (is_login : string -> bool) (issue : string)
    (operator : User) (uid : Z) : bool :=
  policy (is_login issue) (u_is_admin operator) (u_id operator =? uid).

(** The part of a string after its last slash, the whole string when it
    has none. *)
Fixpoint after_last_slash (s : string) : string :=
  match s with
  | EmptyString => EmptyString
  | String c s' => if has_slash s then after_last_slash s' else s
  end.

(** The next [session.commit()] is not scheduled to fail. *)
Definition commit_succeeds (w : World) : bool :=
  match List.head (faults w) with
  | Some (Some _) => false
  | _ => true
  end.

(** The table a successful destroy of row [data] leaves. *)
Definition table_without (data : DataInfo) (t : list DataInfo) : list DataInfo :=
  List.filter (fun r => negb (id r =? id data))
    (if is_dir data
     then List.filter (fun r =>
            negb ((user_id r =? user_id data)
                  && startswith (root r) (root data +:+ name data +:+ "/"))) t
     else t).

(** The name a create targets: the last component of the uploaded
    filename, or the directory name. *)
Definition create_target_name (req_file : option UploadFile)
    (req_dirname : option string) : string :=
  match req_file with
  | Some file => last_piece (split_slash (filename file))
  | None => default EmptyString req_dirname
  end.

(** [never_denied m]: whatever the world, [m] does not raise
    [PermissionError]. *)
Definition never_denied {A} (m : M A) : Prop :=
  forall w, fst (m w) <> Raise PermissionError.

(** [quiet m]: [m] does not look at the scheduled faults and changes
    nothing but the physical store. *)
Definition quiet {A} (m : M A) : Prop :=
  forall w f,
    m (set_faults f w) = (fst (m w), set_faults f (snd (m w)))
    /\ exists s, snd (m w) = set_storage s w.

(** ** Sample data *)

Definition world_of (t : list DataInfo) (n : Z) (us : list User)
    (s : gmap string PhysObj) (f : list (option string)) : World :=
  mkWorld t n 0 us s f.

Definition alice : User := mkUser 1 "alice@example.com" false.

Definition bob : User := mkUser 2 "bob@example.com" false.

Definition login_kind (issue : string) : bool := String.eqb issue "login".

Definition login_tokens (token : string) : Result (string * string) :=
  if String.eqb token "token-of-alice" then Ok ("alice@example.com", "login")
  else if String.eqb token "token-of-bob" then Ok ("bob@example.com", "login")
  else Raise InvalidCredential.

Definition a_directory : DataInfo := mkDataInfo 1 "/" "mydir" true 0 false 0 1.

Definition bobs_directory : DataInfo :=
  mkDataInfo 5 "/" "theirs" true 0 false 0 2.

Definition nested_tree : list DataInfo :=
  [ mkDataInfo 1 "/" "a" true 0 false 0 1;
    mkDataInfo 2 "/a/" "b" true 0 false 0 1;
    mkDataInfo 3 "/a/b/" "a" true 0 false 0 1;
    mkDataInfo 4 "/a/b/a/" "f.txt" false 0 false 7 1 ].

Definition alices_file : DataInfo := mkDataInfo 1 "/" "a.txt" false 0 false 3 1.

Definition bobs_file : DataInfo := mkDataInfo 2 "/" "a.txt" false 0 false 5 2.

Definition hi_txt : UploadFile :=
  mkUploadFile "apps/storage/tests/example/hi.txt" [Byte.x68; Byte.x69].

Definition a_txt : UploadFile :=
  mkUploadFile "a.txt" [Byte.x64; Byte.x61; Byte.x74; Byte.x61].

Definition stale_world : World :=
  world_of [alices_file] 2 [alice; bob] ∅ [].

Definition corrupted_world : World :=
  world_of [mkDataInfo 1 "/" "a.txt" false 0 false 999 1] 2 [alice; bob]
    {[ "/srv/storage/1/root/a.txt" := PFile [Byte.x68; Byte.x69; Byte.x0a] ]} [].

Definition failing_commit_world : World :=
  world_of [] 1 [alice; bob] ∅ [Some "commit failed"].

Definition reupload_world : World :=
  world_of [alices_file] 2 [alice; bob]
    {[ "/srv/storage/1/root/a.txt" := PFile [Byte.x6f; Byte.x6c; Byte.x64] ]}
    [Some "commit failed"].

Definition carol : User := mkUser 3 "carol@example.com" true.

Definition login_tokens3 (token : string) : Result (string * string) :=
  if String.eqb token "token-of-carol" then Ok ("carol@example.com", "login")
  else login_tokens token.

Definition empty_world : World := world_of [] 1 [alice; bob; carol] ∅ [].

Definition after_mydir : World :=
  snd (DataManager_create "/srv" login_tokens3 login_kind "token-of-alice" 1 0
         None (Some "mydir") empty_world).

Definition b_txt : UploadFile := mkUploadFile "b.txt" [Byte.x62].

(** Two uploads and a rename: user 1 uploads [a.txt], user 2 uploads
    [b.txt] and renames it to [a.txt]. *)
Definition two_owners_one_slot : World :=
  let dm_create := DataManager_create "/srv" login_tokens login_kind in
  let dm_update := DataManager_update "/srv" login_tokens login_kind in
  let w1 := snd (dm_create "token-of-alice" 1 0 (Some a_txt) None
                   (world_of [] 1 [alice; bob] ∅ [])) in
  let w2 := snd (dm_create "token-of-bob" 2 0 (Some b_txt) None w1) in
  snd (dm_update "token-of-bob" 2 2 "a.txt" w2).

(** ** Further vocabulary *)

(** The primary key and the auto-increment of the [datainfo] table: ids are
    positive, pairwise different and below the next id to hand out. *)
Definition table_ok (w : World) : Prop :=
  List.NoDup (List.map id (datainfo w))
  /\ 0 < next_id w
  /\ Forall (fun r => 0 < id r < next_id w) (datainfo w).

(** [keeps_table_ok m]: [m] keeps the table well-formed, whatever its
    outcome. *)
Definition keeps_table_ok {A} (m : M A) : Prop :=
  forall w, table_ok w -> table_ok (snd (m w)).


(** [touches_only p m]: whatever its outcome, [m] changes the physical
    store at most at the path [p] and below it. *)
Definition touches_only {A} (p : string) (m : M A) : Prop :=
  forall w k,
    k <> p -> is_under p k = false ->
    storage (snd (m w)) !! k = storage w !! k.

(** What every column but [root] and [name] holds, row by row. *)
Definition fixed_columns (t : list DataInfo)
    : list (Z * Z * bool * Z * Z * bool) :=
  List.map (fun r => (id r, user_id r, is_dir r, size r, created r,
                      is_favorite r)) t.

(** Two worlds with the same table, the same next id and the same physical
    store. *)
Definition same_stores (w w' : World) : Prop :=
  datainfo w' = datainfo w /\ next_id w' = next_id w /\ storage w' = storage w.

(** [keeps_storage m]: whatever its outcome, [m] leaves the physical store
    as it was. *)
Definition keeps_storage {A} (m : M A) : Prop :=
  forall w, storage (snd (m w)) = storage w.

(** ** Further sample data *)

Definition two_files_world : World :=
  world_of [alices_file] 2 [alice; bob]
    {[ "/srv/storage/1/root/a.txt" := PFile [Byte.x6f; Byte.x6c; Byte.x64];
       "/srv/storage/1/root/keep.txt" := PFile [Byte.x6b] ]} [].

(** A physical directory [mydir] holding a file, with no row for either. *)
Definition orphan_world : World :=
  world_of [] 1 [alice; bob]
    {[ "/srv/storage/1/root/mydir" := PDir;
       "/srv/storage/1/root/mydir/old.txt" := PFile [Byte.x6f] ]} [].

(** The object a create is asked to write. *)
Definition create_target_object (req_file : option UploadFile) : PhysObj :=
  match req_file with
  | Some file => PFile (content file)
  | None => PDir
  end.

(** The physical path [update] builds for the row [d] of user [uid], and
    the path the rename to [new_name] would give it. *)
Definition rename_source (srv : string) (uid : Z) (d : DataInfo) : string :=
  raw_path srv uid (root d) "" +:+ name d.

Definition rename_target (srv : string) (uid : Z) (d : DataInfo)
    (new_name : string) : string :=
  dirname (rename_source srv uid d) +:+ new_name.

(** A file row whose physical file is gone, next to a tracked file. *)
Definition half_stale_world : World :=
  world_of [alices_file; mkDataInfo 2 "/" "keep.txt" false 0 false 1 1] 3
    [alice; bob]
    {[ "/srv/storage/1/root/keep.txt" := PFile [Byte.x6b] ]} [].


(** The object [o] is what the row [d] describes: a directory for a
    directory row, a file of the recorded size for a file row. *)
Definition agrees_with (d : DataInfo) (o : PhysObj) : bool :=
  match o with
  | PDir => is_dir d
  | PFile bytes =>
      negb (is_dir d) && (size d =? Z.of_nat (List.length bytes))
  end.

(** A row without its physical object, and a commit that is going to
    fail. *)
Definition failing_repair_world : World :=
  world_of [alices_file] 2 [alice; bob] ∅ [Some "commit failed"].





(** The number of slashes of a string. *)
Fixpoint slashes (s : string) : nat :=
  match s with
  | EmptyString => O
  | String c s' => ((if Ascii.eqb c "/"%char then 1 else 0) + slashes s')%nat
  end.



(** A component that names an entry of its directory: not empty, not [.]
    and not [..]. *)
Definition proper_component (c : string) : bool :=
  negb (String.eqb c "") && negb (String.eqb c ".")
  && negb (String.eqb c "..").

(** A path in normal form: after its first component, which is empty for
    an absolute path, every component is proper.  Two such paths name the
    same object only when they are the same string, and one lies below the
    other only when it extends it by a slash and more. *)
Definition proper_path (p : string) : bool :=
  match split_slash p with
  | [] => false
  | first :: rest =>
      negb (String.eqb first ".") && negb (String.eqb first "..")
      && forallb proper_component rest
  end.

(** * Properties *)

(** ** The scenarios of the test suite, replayed *)

(** [test_success_directory] and [test_create_same_directory]. *)
Example create_directory_then_again :
  DataManager_create "/srv" login_tokens3 login_kind "token-of-alice" 1 0
    None (Some "mydir") empty_world
  = (Ok (Some (mkDataInfo 1 "/" "mydir" true 0 false 0 1)),
     world_of [mkDataInfo 1 "/" "mydir" true 0 false 0 1] 2 [alice; bob; carol]
       {[ "/srv/storage/1/root/mydir" := PDir ]} [])
  /\ fst (DataManager_create "/srv" login_tokens3 login_kind "token-of-alice"
            1 0 None (Some "mydir") after_mydir)
     = Raise DataAlreadyExists.
Proof. split; vm_compute; reflexivity. Qed.

(** [test_other_access_failed] and [test_admin_can_search_client_repo]. *)
Example read_by_other_owner_and_admin :
  fst (DataManager_read "/srv" login_tokens3 login_kind "token-of-bob" 1 1
         ModeInfo after_mydir)
  = Raise PermissionError
  /\ fst (DataManager_read "/srv" login_tokens3 login_kind "token-of-carol" 1 1
            ModeInfo after_mydir)
     = fst (DataManager_read "/srv" login_tokens3 login_kind "token-of-alice"
              1 1 ModeInfo after_mydir)
  /\ fst (DataManager_read "/srv" login_tokens3 login_kind "token-of-alice" 1 1
            ModeInfo after_mydir)
     = Ok (mkReadResult (mkReadInfo 0 "/" true "mydir" 0) None).
Proof. repeat split; vm_compute; reflexivity. Qed.

(** [test_directory_validation], [test_try_create_on_file] and
    [test_fileupload_in_no_exists_root]. *)
Example create_rejections :
  fst (DataManager_create "/srv" login_tokens3 login_kind "token-of-alice" 1 0
         None (Some "abce/sbc") empty_world)
  = Raise ValidationError
  /\ fst (DataManager_create "/srv" login_tokens3 login_kind "token-of-alice"
            1 1 (Some hi_txt) None
            (world_of [alices_file] 2 [alice] ∅ []))
     = Raise DataNotFound
  /\ fst (DataManager_create "/srv" login_tokens3 login_kind "token-of-alice"
            1 999 None (Some "mydir") empty_world)
     = Raise DataNotFound.
Proof. repeat split; vm_compute; reflexivity. Qed.

(** ** Running a computation *)

Lemma bind_ok {A B} (m : M A) (k : A -> M B) w a w' :
  m w = (Ok a, w') -> bind m k w = k a w'.
Proof. intros H. unfold bind. now rewrite H. Qed.

Lemma bind_raise {A B} (m : M A) (k : A -> M B) w e w' :
  m w = (Raise e, w') -> bind m k w = (Raise e, w').
Proof. intros H. unfold bind. now rewrite H. Qed.

Lemma try_except_ok {A} (m : M A) h w a w' :
  m w = (Ok a, w') -> try_except m h w = (Ok a, w').
Proof. intros H. unfold try_except. now rewrite H. Qed.

Lemma try_except_raise {A} (m : M A) h w e w' :
  m w = (Raise e, w') -> try_except m h w = h e w'.
Proof. intros H. unfold try_except. now rewrite H. Qed.

(** ** The reader *)

(** The [user_id] argument never reaches the executed query. *)
Lemma DataDBQueryReader_ignores_user_id u1 u2 flt data_id full_root w :
  DataDBQueryReader u1 flt data_id full_root w
  = DataDBQueryReader u2 flt data_id full_root w.
Proof. unfold DataDBQueryReader. reflexivity. Qed.

(** [is_dir=False] behaves as no filter at all. *)
Lemma DataDBQueryReader_false_is_no_filter u data_id full_root w :
  DataDBQueryReader u (Some false) data_id full_root w
  = DataDBQueryReader u None data_id full_root w.
Proof. reflexivity. Qed.

(** [is_dir=True] hides a file found at the target. *)
Lemma DataDBQueryReader_true_hides_file u i d w :
  i <> 0 ->
  List.filter (fun r => id r =? i) (datainfo w) = [d] ->
  is_dir d = false ->
  DataDBQueryReader u (Some true) (Some i) None w = (Ok None, w).
Proof.
  intros Hi Hrows Hkind. unfold DataDBQueryReader.
  rewrite (bind_ok _ _ w (datainfo w) w) by reflexivity.
  assert (Ht : truthy_int (Some i) = true)
    by (simpl; apply negb_true_iff, Z.eqb_neq, Hi).
  rewrite Ht. cbn [sql_eq_int]. rewrite Hrows.
  unfold bind, scalar, ret. now rewrite Hkind.
Qed.

(** C8, at the failing input: a read by id 1 with [is_dir=False] finds the
    row with id 1, which is a directory, and returns it; the specification
    asks for an absent result. *)
Theorem C8_reader_false_filter_returns_directory :
  fst (DataDBQueryReader (Some 1) (Some false) (Some 1) None
         (world_of [a_directory] 2 [] ∅ []))
  = Ok (Some a_directory)
  /\ is_dir a_directory <> false.
Proof. split; [reflexivity | discriminate]. Qed.

(** ** Parent resolution on create *)

(** C7, at the failing input: user 1 creates under parent id 5, a directory
    row owned by user 2.  The read of the parent, called with [user_id=1]
    and [is_dir=True], returns the row of user 2, so both creates resolve
    the parent to [/theirs/] and go on to succeed; the specification asks
    for [DataNotFound]. *)
Theorem C7_create_resolves_foreign_parent :
  let w := world_of [bobs_directory] 6 [alice; bob] ∅ [] in
  user_id bobs_directory <> u_id alice
  /\ DataDBQueryReader (Some 1) (Some true) (Some 5) None w
     = (Ok (Some bobs_directory), w)
  /\ parent_dir_root 5 1 w = (Ok "/theirs/", w)
  /\ fst (DataDirectoryCRUDManager_create "/srv" 5 1 "sub" w)
     = Ok (mkDataInfo 6 "/theirs/" "sub" true 0 false 0 1)
  /\ fst (DataFileCRUDManager_create "/srv" 5 1
            (mkUploadFile "note.txt" [Byte.x68; Byte.x69]) w)
     = Ok (mkDataInfo 6 "/theirs/" "note.txt" false 0 false 2 1).
Proof. repeat split; [discriminate | vm_compute; reflexivity ..]. Qed.

(** The kind half of the parent check does hold: an id that names a file
    does not resolve. *)
Lemma parent_dir_root_rejects_file root_id uid d w :
  root_id <> 0 ->
  List.filter (fun r => id r =? root_id) (datainfo w) = [d] ->
  is_dir d = false ->
  parent_dir_root root_id uid w = (Raise DataNotFound, w).
Proof.
  intros Hi Hrows Hkind. unfold parent_dir_root.
  apply Z.eqb_neq in Hi. rewrite Hi. cbn [negb].
  apply Z.eqb_neq in Hi.
  rewrite (bind_ok _ _ _ _ _
             (DataDBQueryReader_true_hides_file _ _ _ _ Hi Hrows Hkind)).
  reflexivity.
Qed.

(** ** Two properties of computations, proved by composition *)

Lemma bind_inv_ok {A B} (m : M A) (k : A -> M B) w b w' :
  bind m k w = (Ok b, w') ->
  exists a w1, m w = (Ok a, w1) /\ k a w1 = (Ok b, w').
Proof.
  unfold bind. destruct (m w) as [[a | e] w1]; intros H.
  - now exists a, w1.
  - discriminate.
Qed.

Lemma nd_ret {A} (a : A) : never_denied (ret a).
Proof. intros w. discriminate. Qed.

Lemma nd_raise {A} e : e <> PermissionError -> never_denied (@raise A e).
Proof. intros He w. simpl. congruence. Qed.

Lemma nd_gets {A} (f : World -> A) : never_denied (gets f).
Proof. intros w. discriminate. Qed.

Lemma nd_modify f : never_denied (modify f).
Proof. intros w. discriminate. Qed.

Lemma nd_bind {A B} (m : M A) (k : A -> M B) :
  never_denied m -> (forall a, never_denied (k a)) -> never_denied (bind m k).
Proof.
  intros Hm Hk w. unfold bind. specialize (Hm w).
  destruct (m w) as [[a | e] w1]; [apply Hk |].
  simpl in *. congruence.
Qed.

Lemma nd_try_except {A} (m : M A) h :
  never_denied m ->
  (forall e, e <> PermissionError -> never_denied (h e)) ->
  never_denied (try_except m h).
Proof.
  intros Hm Hh w. unfold try_except. specialize (Hm w).
  destruct (m w) as [[a | e] w1]; [discriminate |].
  apply Hh. simpl in Hm. congruence.
Qed.

Lemma nd_scalar {A} (rows : list A) : never_denied (scalar rows).
Proof.
  destruct rows as [| r [| r' rows]]; intros w; discriminate.
Qed.

Lemma nd_session_commit upd : never_denied (session_commit upd).
Proof.
  intros w. unfold session_commit.
  destruct (List.head (faults w)) as [[msg |] |]; discriminate.
Qed.

Create HintDb nd.

#[local] Hint Resolve nd_ret nd_gets nd_modify nd_scalar nd_session_commit : nd.

Ltac nd_step :=
  first
    [ assumption
    | solve [auto with nd]
    | apply nd_raise; first [discriminate | assumption]
    | apply nd_bind; [| intros ?]
    | apply nd_try_except; [| intros ? ?]
    | match goal with
      | |- never_denied (match ?x with _ => _ end) => destruct x
      | |- never_denied (if ?b then _ else _) => destruct b
      end ].

Ltac nd_solve := repeat nd_step.

Lemma set_storage_same w : set_storage (storage w) w = w.
Proof. destruct w; reflexivity. Qed.

Lemma set_faults_same w : set_faults (faults w) w = w.
Proof. destruct w; reflexivity. Qed.

Lemma quiet_ret {A} (a : A) : quiet (ret a).
Proof.
  intros w f. split; [reflexivity |].
  exists (storage w). symmetry. apply set_storage_same.
Qed.

Lemma quiet_raise {A} e : quiet (@raise A e).
Proof.
  intros w f. split; [reflexivity |].
  exists (storage w). symmetry. apply set_storage_same.
Qed.

Lemma quiet_gets {A} (g : World -> A) :
  (forall w f, g (set_faults f w) = g w) -> quiet (gets g).
Proof.
  intros Hg w f. unfold gets. simpl. rewrite Hg. split; [reflexivity |].
  exists (storage w). symmetry. apply set_storage_same.
Qed.

Lemma quiet_modify_storage (h : gmap string PhysObj -> gmap string PhysObj) :
  quiet (modify (fun w => set_storage (h (storage w)) w)).
Proof. intros w f. split; [reflexivity |]. now exists (h (storage w)). Qed.

Lemma quiet_bind {A B} (m : M A) (k : A -> M B) :
  quiet m -> (forall a, quiet (k a)) -> quiet (bind m k).
Proof.
  intros Hm Hk w f. destruct (Hm w f) as [Hrun [s Hs]]. unfold bind.
  rewrite Hrun. destruct (m w) as [[a | e] w1]; simpl in *.
  - destruct (Hk a w1 f) as [Hrun' [s' Hs']]. split; [exact Hrun' |].
    exists s'. rewrite Hs', Hs. reflexivity.
  - split; [reflexivity | now exists s].
Qed.

Lemma quiet_scalar {A} (rows : list A) : quiet (scalar rows).
Proof.
  destruct rows as [| r [| r' rows]]; first [apply quiet_ret | apply quiet_raise].
Qed.

(** One step back through a run that returned. *)
Lemma quiet_inv {A B} (m : M A) (k : A -> M B) w b w0 :
  quiet m ->
  bind m k w = (Ok b, w0) ->
  exists a s, m w = (Ok a, set_storage s w)
              /\ k a (set_storage s w) = (Ok b, w0).
Proof.
  intros Hq Hrun. apply bind_inv_ok in Hrun as (a & w1 & Hm & Hk).
  destruct (Hq w (faults w)) as [_ [s Hs]].
  rewrite Hm in Hs. simpl in Hs. subst w1. now exists a, s.
Qed.

(** The same step when the run was observed under another fault
    schedule. *)
Lemma quiet_step {A B} (m : M A) (k : A -> M B) w f b w0 :
  quiet m ->
  bind m k (set_faults f w) = (Ok b, w0) ->
  exists a s,
    m w = (Ok a, set_storage s w)
    /\ k a (set_faults f (set_storage s w)) = (Ok b, w0).
Proof.
  intros Hq Hrun. apply bind_inv_ok in Hrun as (a & w1' & Hm & Hk).
  destruct (Hq w f) as [Hf [s Hs]].
  destruct (m w) as [r w1] eqn:Hmw; simpl in *.
  rewrite Hf in Hm. injection Hm as -> <-. subst w1.
  now exists a, s.
Qed.

Create HintDb quiet.

#[local] Hint Resolve quiet_ret quiet_raise quiet_scalar
  quiet_modify_storage : quiet.

Ltac quiet_step_tac :=
  first
    [ assumption
    | solve [auto with quiet]
    | apply quiet_gets; reflexivity
    | apply quiet_bind; [| intros ?]
    | match goal with
      | |- quiet (match ?x with _ => _ end) => destruct x
      | |- quiet (if ?b then _ else _) => destruct b
      end ].

Ltac quiet_solve := repeat quiet_step_tac.

(** ** Operations that only touch the physical store *)

Lemma quiet_UserDBQuery_read_id u : quiet (UserDBQuery_read_id u).
Proof. unfold UserDBQuery_read_id. quiet_solve. Qed.

Lemma quiet_DataDBQueryReader u k i fr : quiet (DataDBQueryReader u k i fr).
Proof. unfold DataDBQueryReader. cbv zeta. quiet_solve. Qed.

Lemma quiet_DataStorageQuery_read p k : quiet (DataStorageQuery_read p k).
Proof. unfold DataStorageQuery_read. quiet_solve. Qed.

Lemma quiet_DataStorageQuery_destroy p : quiet (DataStorageQuery_destroy p).
Proof.
  unfold DataStorageQuery_destroy.
  apply (quiet_modify_storage
           (filter (fun kv : string * PhysObj =>
              String.eqb kv.1 p || is_under p kv.1 = false))).
Qed.

Lemma quiet_DataStorageQuery_create p k f : quiet (DataStorageQuery_create p k f).
Proof.
  unfold DataStorageQuery_create. destruct k.
  - apply quiet_bind; [| intros; apply quiet_ret].
    apply (quiet_modify_storage (insert p PDir)).
  - apply quiet_bind; [| intros; apply quiet_ret].
    apply (quiet_modify_storage (insert p (PFile _))).
Qed.

Lemma quiet_DataInfoCreate_new n u r k z : quiet (DataInfoCreate_new n u r k z).
Proof. unfold DataInfoCreate_new. quiet_solve. Qed.

#[local] Hint Resolve quiet_UserDBQuery_read_id quiet_DataDBQueryReader
  quiet_DataStorageQuery_read quiet_DataStorageQuery_destroy
  quiet_DataStorageQuery_create quiet_DataInfoCreate_new : quiet.

Lemma quiet_storage_occupied p : quiet (storage_occupied p).
Proof. unfold storage_occupied. quiet_solve. Qed.

Lemma quiet_parent_dir_root i u : quiet (parent_dir_root i u).
Proof. unfold parent_dir_root. quiet_solve. Qed.

#[local] Hint Resolve quiet_storage_occupied quiet_parent_dir_root : quiet.

Lemma scalar_run {A} (rows : list A) w :
  scalar rows w
  = (match rows with
     | [] => Ok None
     | [r] => Ok (Some r)
     | _ :: _ :: _ => Raise MultipleResultsFound
     end, w).
Proof. destruct rows as [| r [| r' rows]]; reflexivity. Qed.

(** A read-only operation returns the world it was given. *)
Lemma DataDBQueryReader_world u k i fr w r w' :
  DataDBQueryReader u k i fr w = (r, w') -> w' = w.
Proof.
  unfold DataDBQueryReader. cbv zeta. unfold bind, gets.
  assert (Hk : forall data r w',
    match k with
    | Some true =>
        match data with
        | Some d => if negb (Bool.eqb (is_dir d) true) then ret None else ret data
        | None => ret data
        end
    | _ => ret data
    end w = (r, w') -> w' = w).
  { intros data r0 w0. destruct k as [[|] |]; try destruct data as [d |];
      try destruct (negb (Bool.eqb (is_dir d) true));
      unfold ret; congruence. }
  destruct (truthy_int i).
  - rewrite scalar_run.
    destruct (List.filter _ (datainfo w)) as [| x [| y l]];
      [apply (Hk None) | apply (Hk (Some x)) | congruence].
  - destruct fr as [[rt n] |]; [| apply (Hk None)].
    rewrite scalar_run.
    destruct (List.filter _ (datainfo w)) as [| x [| y l]];
      [apply (Hk None) | apply (Hk (Some x)) | congruence].
Qed.

Lemma parent_dir_root_world i u w r w' :
  parent_dir_root i u w = (r, w') -> w' = w.
Proof.
  unfold parent_dir_root. destruct (negb (i =? 0)).
  - unfold bind.
    destruct (DataDBQueryReader (Some u) (Some true) (Some i) None w)
      as [[[d |] | e] w1] eqn:Hr;
      apply DataDBQueryReader_world in Hr; subst w1;
      unfold ret, raise; congruence.
  - unfold ret. congruence.
Qed.

(** ** Rows and queries *)

Lemma find_head_filter {A} (f : A -> bool) l :
  List.find f l = List.head (List.filter f l).
Proof.
  induction l as [| x l IH]; [reflexivity |].
  simpl. destruct (f x); [reflexivity | exact IH].
Qed.

Lemma filter_singleton_In {A} (f : A -> bool) l x :
  List.filter f l = [x] -> In x l /\ f x = true.
Proof.
  intros H. apply List.filter_In. rewrite H. now left.
Qed.

Lemma filter_singleton_unique {A} (f : A -> bool) l x y :
  List.filter f l = [x] -> In y l -> f y = true -> y = x.
Proof.
  intros H Hy Hf.
  assert (Hin : In y (List.filter f l)) by (apply List.filter_In; auto).
  rewrite H in Hin. destruct Hin as [-> | []]. reflexivity.
Qed.

Lemma filter_update_row i g t :
  (forall r, id (g r) = id r) ->
  forall j, List.filter (fun r => id r =? j) (update_row i g t)
            = List.map (fun r => if id r =? i then g r else r)
                (List.filter (fun r => id r =? j) t).
Proof.
  intros Hg j. unfold update_row.
  induction t as [| r t IH]; [reflexivity |].
  simpl. destruct (id r =? i) eqn:Hi.
  - rewrite Hg. destruct (id r =? j); simpl; [rewrite Hi |]; now rewrite IH.
  - destruct (id r =? j); simpl; [rewrite Hi |]; now rewrite IH.
Qed.

Lemma filter_filter_negb {A} (f : A -> bool) l :
  List.filter f (List.filter (fun x => negb (f x)) l) = [].
Proof.
  induction l as [| x l IH]; [reflexivity |].
  simpl. destruct (f x) eqn:Hf; simpl; [| rewrite Hf]; exact IH.
Qed.

Lemma with_size_same d : with_size (size d) d = d.
Proof. destruct d; reflexivity. Qed.

(** ** No store operation raises [PermissionError] *)

Ltac nd_unfold H := unfold H; cbv zeta; nd_solve.

Lemma nd_session_refresh row : never_denied (session_refresh row).
Proof. nd_unfold session_refresh. Qed.

#[local] Hint Resolve nd_session_refresh : nd.

Lemma nd_DataDBQueryCreator fmt : never_denied (DataDBQueryCreator fmt).
Proof. nd_unfold DataDBQueryCreator. Qed.

Lemma nd_DataDBQueryDestroyer i : never_denied (DataDBQueryDestroyer i).
Proof. nd_unfold DataDBQueryDestroyer. Qed.

Lemma nd_DataDBQueryReader u k i fr : never_denied (DataDBQueryReader u k i fr).
Proof. nd_unfold DataDBQueryReader. Qed.

Lemma nd_DataDBQueryUpdator n u i : never_denied (DataDBQueryUpdator n u i).
Proof. nd_unfold DataDBQueryUpdator. Qed.

Lemma nd_update_file_automatic i fmt : never_denied (update_file_automatic i fmt).
Proof. nd_unfold update_file_automatic. Qed.

Lemma nd_os_path_getsize p : never_denied (os_path_getsize p).
Proof. nd_unfold os_path_getsize. Qed.

Lemma nd_os_listdir_len p : never_denied (os_listdir_len p).
Proof. nd_unfold os_listdir_len. Qed.

#[local] Hint Resolve nd_os_path_getsize nd_os_listdir_len : nd.

Lemma nd_sync_file_size i p : never_denied (sync_file_size i p).
Proof. nd_unfold sync_file_size. Qed.

Lemma nd_DataStorageQuery_read p k : never_denied (DataStorageQuery_read p k).
Proof. nd_unfold DataStorageQuery_read. Qed.

Lemma nd_DataStorageQuery_create p k f : never_denied (DataStorageQuery_create p k f).
Proof. nd_unfold DataStorageQuery_create. Qed.

Lemma nd_DataStorageQuery_destroy p : never_denied (DataStorageQuery_destroy p).
Proof. nd_unfold DataStorageQuery_destroy. Qed.

Lemma nd_DataStorageQuery_update p n : never_denied (DataStorageQuery_update p n).
Proof. nd_unfold DataStorageQuery_update. Qed.

Lemma nd_DataInfoCreate_new n u r k s : never_denied (DataInfoCreate_new n u r k s).
Proof. nd_unfold DataInfoCreate_new. Qed.

Lemma nd_DataInfoUpdate_new n r u : never_denied (DataInfoUpdate_new n r u).
Proof. nd_unfold DataInfoUpdate_new. Qed.

Lemma nd_UserDBQuery_read_id u : never_denied (UserDBQuery_read_id u).
Proof. nd_unfold UserDBQuery_read_id. Qed.

#[local] Hint Resolve nd_DataDBQueryCreator nd_DataDBQueryDestroyer
  nd_DataDBQueryReader nd_DataDBQueryUpdator nd_update_file_automatic
  nd_sync_file_size nd_DataStorageQuery_read nd_DataStorageQuery_create
  nd_DataStorageQuery_destroy nd_DataStorageQuery_update
  nd_DataInfoCreate_new nd_DataInfoUpdate_new nd_UserDBQuery_read_id : nd.

Lemma nd_storage_occupied p : never_denied (storage_occupied p).
Proof. nd_unfold storage_occupied. Qed.

Lemma nd_parent_dir_root i u : never_denied (parent_dir_root i u).
Proof. nd_unfold parent_dir_root. Qed.

#[local] Hint Resolve nd_storage_occupied nd_parent_dir_root : nd.

Lemma nd_DataFileCRUDManager_create srv i u f :
  never_denied (DataFileCRUDManager_create srv i u f).
Proof. nd_unfold DataFileCRUDManager_create. Qed.

Lemma nd_DataDirectoryCRUDManager_create srv i u n :
  never_denied (DataDirectoryCRUDManager_create srv i u n).
Proof. nd_unfold DataDirectoryCRUDManager_create. Qed.

Lemma nd_DataFileCRUDManager_update srv u i n :
  never_denied (DataFileCRUDManager_update srv u i n).
Proof. nd_unfold DataFileCRUDManager_update. Qed.

Lemma nd_DataDirectoryCRUDManager_update srv u i n :
  never_denied (DataDirectoryCRUDManager_update srv u i n).
Proof. nd_unfold DataDirectoryCRUDManager_update. Qed.

Lemma nd_DataFileCRUDManager_destroy srv u i :
  never_denied (DataFileCRUDManager_destroy srv u i).
Proof. nd_unfold DataFileCRUDManager_destroy. Qed.

Lemma nd_DataDirectoryCRUDManager_destroy srv u i :
  never_denied (DataDirectoryCRUDManager_destroy srv u i).
Proof. nd_unfold DataDirectoryCRUDManager_destroy. Qed.

Lemma nd_DataFileCRUDManager_read p : never_denied (DataFileCRUDManager_read p).
Proof. nd_unfold DataFileCRUDManager_read. Qed.

Lemma nd_DataDirectoryCRUDManager_read p :
  never_denied (DataDirectoryCRUDManager_read p).
Proof. nd_unfold DataDirectoryCRUDManager_read. Qed.

#[local] Hint Resolve nd_DataFileCRUDManager_create
  nd_DataDirectoryCRUDManager_create nd_DataFileCRUDManager_update
  nd_DataDirectoryCRUDManager_update nd_DataFileCRUDManager_destroy
  nd_DataDirectoryCRUDManager_destroy
  nd_DataFileCRUDManager_read nd_DataDirectoryCRUDManager_read : nd.

(** ** The access policy *)

Lemma data_permission_policy is_login issue operator uid :
  permission_bool is_login (data_permission issue operator uid)
  = identity_permitted is_login issue operator uid.
Proof. reflexivity. Qed.

Section Policy.

Variable decode_token : string -> Result (string * string).

Variable is_login : string -> bool.

Variables (token email issue : string) (operator : User) (uid : Z).

Hypothesis decoded : decode_token token = Ok (email, issue).

Lemma check_permission_granted w :
  List.find (fun u => String.eqb (u_email u) email) (users w) = Some operator ->
  identity_permitted is_login issue operator uid = true ->
  check_permission decode_token is_login token uid w = (Ok tt, w).
Proof.
  intros Hop Hp. unfold check_permission, UserDBQuery_read_email.
  unfold bind, lift, gets, ret. rewrite decoded. cbn [fst snd]. rewrite Hop.
  rewrite data_permission_policy, Hp. reflexivity.
Qed.

Lemma check_permission_refused w :
  List.find (fun u => String.eqb (u_email u) email) (users w) = Some operator ->
  identity_permitted is_login issue operator uid = false ->
  check_permission decode_token is_login token uid w = (Raise PermissionError, w).
Proof.
  intros Hop Hp. unfold check_permission, UserDBQuery_read_email.
  unfold bind, lift, gets, ret. rewrite decoded. cbn [fst snd]. rewrite Hop.
  rewrite data_permission_policy, Hp. reflexivity.
Qed.

(** An e-mail that names no user is refused as well. *)
Lemma check_permission_unknown_operator w :
  List.find (fun u => String.eqb (u_email u) email) (users w) = None ->
  check_permission decode_token is_login token uid w = (Raise PermissionError, w).
Proof.
  intros Hop. unfold check_permission, UserDBQuery_read_email.
  unfold bind, lift, gets, ret. rewrite decoded. cbn [fst snd]. now rewrite Hop.
Qed.

End Policy.

(** C6: with the token decoded to an existing operator, each of the four
    entry points is refused exactly when the composite
    [Authenticated AND (IsAdmin OR (NOT IsAdmin AND IsOwner))] is false.  A
    refused call raises [PermissionError] and leaves the world as it was,
    whatever the [datainfo] table and the physical store hold; a call that
    passes the composite never raises [PermissionError]. *)
Theorem C6_policy_gates_every_entry_point
    (srv token email issue : string) (operator : User) (uid : Z)
    (decode_token : string -> Result (string * string))
    (is_login : string -> bool) (w : World) :
  decode_token token = Ok (email, issue) ->
  List.find (fun u => String.eqb (u_email u) email) (users w) = Some operator ->
  (identity_permitted is_login issue operator uid = false ->
   forall (t : list DataInfo) (s : gmap string PhysObj) data_id
          req_file req_dirname mode new_name,
     let w' := set_storage s (set_datainfo t w) in
     DataManager_create srv decode_token is_login token uid data_id req_file req_dirname w'
       = (Raise PermissionError, w')
     /\ DataManager_read srv decode_token is_login token uid data_id mode w'
        = (Raise PermissionError, w')
     /\ DataManager_update srv decode_token is_login token uid data_id new_name w'
        = (Raise PermissionError, w')
     /\ DataManager_destroy srv decode_token is_login token uid data_id w'
        = (Raise PermissionError, w'))
  /\
  (identity_permitted is_login issue operator uid = true ->
   forall data_id req_file req_dirname mode new_name,
     fst (DataManager_create srv decode_token is_login token uid data_id
            req_file req_dirname w) <> Raise PermissionError
     /\ fst (DataManager_read srv decode_token is_login token uid data_id mode w)
        <> Raise PermissionError
     /\ fst (DataManager_update srv decode_token is_login token uid data_id new_name w)
        <> Raise PermissionError
     /\ fst (DataManager_destroy srv decode_token is_login token uid data_id w)
        <> Raise PermissionError).
Proof.
  intros Hdec Hop. split; intros Hp.
  - intros t s data_id req_file req_dirname mode new_name w'.
    assert (Hno : check_permission decode_token is_login token uid w'
                  = (Raise PermissionError, w'))
      by (eapply check_permission_refused; eauto).
    unfold DataManager_create, DataManager_read, DataManager_update,
      DataManager_destroy.
    rewrite !(bind_raise _ _ _ _ _ Hno). auto.
  - intros data_id req_file req_dirname mode new_name.
    assert (Hyes : check_permission decode_token is_login token uid w = (Ok tt, w))
      by (eapply check_permission_granted; eauto).
    unfold DataManager_create, DataManager_read, DataManager_update,
      DataManager_destroy.
    rewrite !(bind_ok _ _ _ _ _ Hyes).
    repeat split.
    + assert (Hnd : never_denied
        (match req_file with
         | Some file =>
             d <- DataFileCRUDManager_create srv data_id uid file ;; ret (Some d)
         | None =>
             if truthy_str req_dirname
             then d <- DataDirectoryCRUDManager_create srv data_id uid
                         (default EmptyString req_dirname) ;; ret (Some d)
             else ret None
         end)) by nd_solve.
      apply Hnd.
    + match goal with |- fst (?m w) <> _ =>
        assert (Hnd : never_denied m) by nd_solve; apply Hnd end.
    + match goal with |- fst (?m w) <> _ =>
        assert (Hnd : never_denied m) by nd_solve; apply Hnd end.
    + match goal with |- fst (?m w) <> _ =>
        assert (Hnd : never_denied m) by nd_solve; apply Hnd end.
Qed.

Lemma C6_policy_gates_every_entry_point_witness :
  let w := world_of [bobs_directory] 6 [alice; bob] ∅ [] in
  DataManager_read "/srv" login_tokens login_kind "token-of-alice" 2 5 ModeInfo w
  = (Raise PermissionError, w).
Proof.
  intros w.
  destruct (C6_policy_gates_every_entry_point "/srv" "token-of-alice"
              "alice@example.com" "login" alice 2 login_tokens login_kind w
              eq_refl eq_refl) as [Hrefused _].
  destruct (Hrefused eq_refl (datainfo w) (storage w) 5 None None ModeInfo
              EmptyString) as (_ & Hread & _).
  exact Hread.
Defined.

(** C10: a create that passes the permission check and carries neither a
    file nor a directory name (an absent or empty [req_dirname]) returns
    [None] and leaves the whole world, both stores included, as it was. *)
Theorem C10_create_without_payload_is_a_no_op
    (srv token email issue : string) (operator : User) (uid data_id : Z)
    (decode_token : string -> Result (string * string))
    (is_login : string -> bool)
    (req_dirname : option string) (w : World) :
  decode_token token = Ok (email, issue) ->
  List.find (fun u => String.eqb (u_email u) email) (users w) = Some operator ->
  identity_permitted is_login issue operator uid = true ->
  truthy_str req_dirname = false ->
  DataManager_create srv decode_token is_login token uid data_id None req_dirname w
  = (Ok None, w).
Proof.
  intros Hdec Hop Hp Hname. unfold DataManager_create.
  rewrite (bind_ok _ _ _ _ _
             (check_permission_granted _ _ _ _ _ _ _ Hdec _ Hop Hp)).
  now rewrite Hname.
Qed.

Lemma C10_create_without_payload_is_a_no_op_witness :
  let w := world_of [alices_file] 2 [alice; bob]
             {[ "/srv/storage/1/root/a.txt" := PFile [Byte.x61] ]} [] in
  DataManager_create "/srv" login_tokens login_kind "token-of-alice" 1 0 None None w
  = (Ok None, w).
Proof.
  intros w.
  apply (C10_create_without_payload_is_a_no_op "/srv" "token-of-alice"
           "alice@example.com" "login" alice 1 0 login_tokens login_kind None w);
    reflexivity.
Defined.

(** ** The uploaded name *)

Lemma split_slash_no_slash s : has_slash s = false -> split_slash s = [s].
Proof.
  induction s as [| c s IH]; [reflexivity |].
  simpl. destruct (Ascii.eqb c "/"); [discriminate |].
  simpl. intros H. now rewrite (IH H).
Qed.

Lemma split_slash_with_slash s :
  has_slash s = true -> exists p q r, split_slash s = p :: q :: r.
Proof.
  induction s as [| c s IH]; [discriminate |].
  simpl. destruct (Ascii.eqb c "/"); simpl; intros H.
  - destruct (has_slash s) eqn:Hs.
    + destruct (IH eq_refl) as (p & q & r & ->). now exists EmptyString, p, (q :: r).
    + rewrite (split_slash_no_slash _ Hs). now exists EmptyString, s, [].
  - destruct (IH H) as (p & q & r & ->). now exists (String c p), q, r.
Qed.

Lemma last_piece_split_slash s :
  last_piece (split_slash s) = after_last_slash s.
Proof.
  unfold last_piece. induction s as [| c s IH]; [reflexivity |].
  cbn [split_slash after_last_slash has_slash].
  destruct (Ascii.eqb c "/") eqn:Hc; cbn [orb].
  - rewrite <- IH. destruct (has_slash s) eqn:Hs.
    + destruct (split_slash_with_slash _ Hs) as (p & q & r & ->). reflexivity.
    + rewrite (split_slash_no_slash _ Hs). reflexivity.
  - destruct (has_slash s) eqn:Hs.
    + rewrite <- IH.
      destruct (split_slash_with_slash _ Hs) as (p & q & r & ->). reflexivity.
    + rewrite (split_slash_no_slash _ Hs). reflexivity.
Qed.

Lemma after_last_slash_no_slash s : has_slash (after_last_slash s) = false.
Proof.
  induction s as [| c s IH]; [reflexivity |].
  cbn [after_last_slash]. destruct (has_slash (String c s)) eqn:H; assumption.
Qed.

Lemma dirname_after_last_slash s : dirname s +:+ after_last_slash s = s.
Proof.
  induction s as [| c s IH]; [reflexivity |].
  cbn [dirname after_last_slash].
  destruct (has_slash (String c s)); [| reflexivity].
  change (String c (dirname s +:+ after_last_slash s) = String c s).
  now rewrite IH.
Qed.

Lemma dirname_no_slash s : has_slash s = false -> dirname s = EmptyString.
Proof. destruct s as [| c s]; [reflexivity |]. cbn [dirname]. now intros ->. Qed.

Lemma dirname_ends_with_slash s :
  has_slash s = true -> exists p, dirname s = p +:+ "/".
Proof.
  induction s as [| c s IH]; [discriminate |].
  intros H. cbn [dirname]. rewrite H.
  destruct (has_slash s) eqn:Hs.
  - destruct (IH eq_refl) as [p ->]. now exists (String c p).
  - rewrite (dirname_no_slash _ Hs). simpl in H. rewrite Hs, orb_false_r in H.
    apply Ascii.eqb_eq in H. subst c. now exists EmptyString.
Qed.

Example split_of_nested_path :
  split_slash "apps/storage/tests/example/hi.txt"
  = ["apps"; "storage"; "tests"; "example"; "hi.txt"]
  /\ split_slash "a/" = ["a"; ""] /\ split_slash "" = [""].
Proof. repeat split. Qed.

(** ** What the metadata commit of a create returns *)

Lemma DataDBQueryReader_full_root_found u r n w d w' :
  DataDBQueryReader u None None (Some (r, n)) w = (Ok (Some d), w') ->
  List.filter (fun x => String.eqb (root x) r && String.eqb (name x) n)
    (datainfo w) = [d].
Proof.
  unfold DataDBQueryReader. cbv zeta. unfold bind, gets. cbn [truthy_int].
  rewrite scalar_run.
  destruct (List.filter _ (datainfo w)) as [| x [| y l]]; unfold ret;
    intros H; try discriminate.
  congruence.
Qed.

Lemma session_refresh_run row w :
  session_refresh row w
  = (Ok (match List.find (fun r => id r =? id row) (datainfo w) with
         | Some r => r
         | None => row
         end), w).
Proof. reflexivity. Qed.

Lemma update_file_automatic_ok i fmt w d w' :
  update_file_automatic i fmt w = (Ok d, w') ->
  exists r0,
    List.filter (fun r => id r =? i) (datainfo w) = [r0]
    /\ d = with_size (c_size fmt) r0
    /\ In d (datainfo w').
Proof.
  unfold update_file_automatic. unfold bind at 1. unfold gets.
  unfold bind at 1. rewrite scalar_run.
  destruct (List.filter (fun r => id r =? i) (datainfo w))
    as [| r0 [| r1 l]] eqn:Hrows; try (unfold raise; discriminate).
  destruct (filter_singleton_In _ _ _ Hrows) as [Hin Hid].
  apply Z.eqb_eq in Hid.
  unfold bind, session_commit.
  assert (Hfind : forall t, List.filter (fun r => id r =? i) t = [r0] ->
            List.find (fun r => id r =? id (with_size (c_size fmt) r0))
              (update_row (id r0) (with_size (c_size fmt)) t)
            = Some (with_size (c_size fmt) r0)).
  { intros t Ht. rewrite find_head_filter. cbn [with_size id].
    rewrite Hid. rewrite filter_update_row by reflexivity.
    rewrite Ht. cbn [List.map List.head]. now rewrite Hid, Z.eqb_refl. }
  intros H. exists r0. split; [reflexivity |]. cbv zeta in H.
  destruct (List.head (faults w)) as [[msg |] |]; try discriminate;
    rewrite session_refresh_run in H; cbn [datainfo set_datainfo set_faults] in H;
    rewrite (Hfind _ Hrows) in H; injection H as <- <-;
    (split; [reflexivity |]);
    cbn [datainfo set_datainfo set_faults];
    apply (List.find_some _ _ (Hfind _ Hrows)).
Qed.

Lemma DataDBQueryCreator_ok fmt w d w' :
  Forall (fun r => id r <> next_id w) (datainfo w) ->
  DataDBQueryCreator fmt w = (Ok d, w') ->
  d = mkDataInfo (next_id w) (c_root fmt) (c_name fmt) (c_is_dir fmt) (now w)
        false (c_size fmt) (c_user_id fmt)
  /\ In d (datainfo w').
Proof.
  intros Hfresh. unfold DataDBQueryCreator. unfold bind at 1. unfold gets.
  unfold bind at 1. rewrite scalar_run.
  destruct (List.filter _ (datainfo w)) as [| r0 [| r1 l]];
    try (unfold raise; discriminate).
  unfold bind, session_commit.
  set (data := mkDataInfo (next_id w) (c_root fmt) (c_name fmt)
                 (c_is_dir fmt) (now w) false (c_size fmt) (c_user_id fmt)).
  assert (Hfind : List.find (fun r => id r =? id data) (datainfo w ++ [data])
                  = Some data).
  { rewrite find_head_filter, List.filter_app.
    assert (Hnone : List.filter (fun r => id r =? id data) (datainfo w) = []).
    { clear -Hfresh. induction (datainfo w) as [| r t IH]; [reflexivity |].
      inversion Hfresh as [| ? ? Hr Ht]; subst. simpl.
      destruct (id r =? next_id w) eqn:E; [apply Z.eqb_eq in E; contradiction |].
      now apply IH. }
    rewrite Hnone. simpl. now rewrite Z.eqb_refl. }
  intros H. cbv zeta in H.
  destruct (List.head (faults w)) as [[msg |] |]; try discriminate;
    rewrite session_refresh_run in H;
    cbn [datainfo set_datainfo set_faults set_next_id] in H;
    rewrite Hfind in H; injection H as <- <-;
    (split; [reflexivity |]);
    cbn [datainfo set_datainfo set_faults set_next_id];
    apply List.in_or_app; right; now left.
Qed.

Lemma create_handler_never_ok {A} p (e : exn) w (a : A) w' :
  (DataStorageQuery_destroy p ;;; raise e) w <> (Ok a, w').
Proof. unfold DataStorageQuery_destroy, bind, modify, raise. discriminate. Qed.

Lemma try_except_reraise_ok {A} (m : M A) p w a w' :
  try_except m (fun e => DataStorageQuery_destroy p ;;; raise e) w = (Ok a, w') ->
  m w = (Ok a, w').
Proof.
  unfold try_except. destruct (m w) as [[a0 | e] w1]; [trivial |].
  intros H. now apply create_handler_never_ok in H.
Qed.

Lemma DataInfoCreate_new_ok n u r k z w fmt w' :
  DataInfoCreate_new n u r k z w = (Ok fmt, w') ->
  fmt = mkDataInfoCreate n r u k z /\ valid_name n = true.
Proof.
  unfold DataInfoCreate_new. destruct (valid_name n); [| discriminate].
  unfold ret. intros H. injection H as <- _. auto.
Qed.

(** Whenever a file upload returns a record, that record is in the table
    and its name is the part of the client-supplied filename after its last
    slash: the filename is the directory part followed by the name, the
    name holds no slash, and the directory part ends with a slash when the
    filename has one.  The table is assumed to respect the auto-increment
    (no row already carries the next id). *)
Lemma upload_result_name srv root_id uid file w d w' :
  Forall (fun r => id r <> next_id w) (datainfo w) ->
  DataFileCRUDManager_create srv root_id uid file w = (Ok d, w') ->
  name d = after_last_slash (filename file)
  /\ In d (datainfo w')
  /\ has_slash (name d) = false
  /\ dirname (filename file) +:+ name d = filename file
  /\ (has_slash (filename file) = true ->
      exists p, dirname (filename file) = p +:+ "/").
Proof.
  intros Hfresh H.
  assert (Hname : name d = last_piece (split_slash (filename file))
                  /\ In d (datainfo w')).
  { unfold DataFileCRUDManager_create in H.
    apply quiet_inv in H as (user & s0 & _ & H); [| auto with quiet].
    destruct user as [user |]; [| discriminate].
    apply quiet_inv in H as (dir_root & s1 & _ & H); [| auto with quiet].
    cbv zeta in H.
    apply quiet_inv in H as (info & s2 & Hslot & H); [| auto with quiet].
    apply quiet_inv in H as (? & s3 & _ & H); [| quiet_solve].
    apply quiet_inv in H as (fmt & s4 & Hfmt & H); [| auto with quiet].
    apply quiet_inv in H as (sz & s5 & _ & H); [| auto with quiet].
    apply try_except_reraise_ok in H.
    apply DataInfoCreate_new_ok in Hfmt as [-> _].
    destruct info as [d1 |].
    - apply DataDBQueryReader_full_root_found in Hslot.
      destruct (filter_singleton_In _ _ _ Hslot) as [Hin Hmatch].
      apply andb_true_iff in Hmatch as [_ Hn]. apply String.eqb_eq in Hn.
      destruct (negb (id d1 =? 0)).
      + apply update_file_automatic_ok in H as (r0 & Hrows & -> & Hd).
        split; [| exact Hd].
        assert (d1 = r0) as <-.
        { eapply filter_singleton_unique; [exact Hrows | exact Hin |].
          apply Z.eqb_refl. }
        exact Hn.
      + apply DataDBQueryCreator_ok in H as [-> Hd]; [| exact Hfresh].
        split; [reflexivity | exact Hd].
    - cbn [negb Z.eqb] in H.
      apply DataDBQueryCreator_ok in H as [-> Hd]; [| exact Hfresh].
      split; [reflexivity | exact Hd]. }
  destruct Hname as [Hn Hin]. rewrite last_piece_split_slash in Hn.
  repeat split.
  - exact Hn.
  - exact Hin.
  - rewrite Hn. apply after_last_slash_no_slash.
  - rewrite Hn. apply dirname_after_last_slash.
  - apply dirname_ends_with_slash.
Qed.

(** ** Reads by id, and what a destroy leaves *)

Lemma DataDBQueryReader_by_id u i w d :
  i <> 0 ->
  List.filter (fun r => id r =? i) (datainfo w) = [d] ->
  DataDBQueryReader u None (Some i) None w = (Ok (Some d), w).
Proof.
  intros Hi Hrows. unfold DataDBQueryReader. cbv zeta. unfold bind, gets.
  apply Z.eqb_neq in Hi. cbn [truthy_int sql_eq_int]. rewrite Hi. cbn [negb].
  rewrite scalar_run, Hrows. reflexivity.
Qed.

Lemma DataDBQueryReader_by_id_absent u k i w :
  List.filter (fun r => id r =? i) (datainfo w) = [] ->
  DataDBQueryReader u k (Some i) None w = (Ok None, w).
Proof.
  intros Hrows. unfold DataDBQueryReader. cbv zeta. unfold bind, gets.
  cbn [truthy_int sql_eq_int].
  destruct (negb (i =? 0)); [rewrite scalar_run, Hrows |];
    destruct k as [[|] |]; reflexivity.
Qed.

Lemma session_commit_run upd w :
  commit_succeeds w = true ->
  session_commit upd w = (Ok tt, set_faults (List.tl (faults w)) (upd w)).
Proof.
  unfold commit_succeeds, session_commit.
  destruct (List.head (faults w)) as [[msg |] |]; try discriminate; reflexivity.
Qed.

Lemma DataDBQueryDestroyer_run i w d :
  List.filter (fun r => id r =? i) (datainfo w) = [d] ->
  commit_succeeds w = true ->
  DataDBQueryDestroyer i w
  = (Ok (root d, name d),
     set_faults (List.tl (faults w)) (set_datainfo (table_without d (datainfo w)) w)).
Proof.
  intros Hrows Hc. unfold DataDBQueryDestroyer. cbv zeta.
  unfold bind at 1. unfold gets. unfold bind at 1.
  rewrite scalar_run, Hrows.
  destruct (filter_singleton_In _ _ _ Hrows) as [_ Hid]. apply Z.eqb_eq in Hid.
  unfold bind. rewrite session_commit_run by exact Hc.
  unfold ret, table_without. rewrite Hid. reflexivity.
Qed.

Lemma table_without_no_row d t :
  List.filter (fun r => id r =? id d) (table_without d t) = [].
Proof. unfold table_without. apply (filter_filter_negb (fun r => id r =? id d)). Qed.

(** C2: a read, in either mode, of an id whose row exists while nothing
    lies at the path the row implies, deletes the row and raises
    [DataNotFound]; the row is gone from the table, and another read of the
    same id raises [DataNotFound] again.  The caller passes the permission
    check, the target user exists and the commit of the delete is not
    scheduled to fail. *)
Theorem C2_read_purges_stale_record
    (srv token email issue : string) (operator : User) (uid data_id : Z)
    (decode_token : string -> Result (string * string))
    (is_login : string -> bool) (mode : Mode)
    (w : World) (d : DataInfo) :
  decode_token token = Ok (email, issue) ->
  List.find (fun u => String.eqb (u_email u) email) (users w) = Some operator ->
  identity_permitted is_login issue operator uid = true ->
  List.find (fun u => u_id u =? uid) (users w) <> None ->
  data_id <> 0 ->
  List.filter (fun r => id r =? data_id) (datainfo w) = [d] ->
  storage w !! raw_path srv uid (root d) (name d) = None ->
  commit_succeeds w = true ->
  exists w1,
    DataManager_read srv decode_token is_login token uid data_id mode w
    = (Raise DataNotFound, w1)
    /\ List.filter (fun r => id r =? data_id) (datainfo w1) = []
    /\ forall mode',
         DataManager_read srv decode_token is_login token uid data_id mode' w1
         = (Raise DataNotFound, w1).
Proof.
  intros Hdec Hop Hp Huser Hid Hrows Habsent Hcommit.
  destruct (filter_singleton_In _ _ _ Hrows) as [_ Hd]. apply Z.eqb_eq in Hd.
  set (w1 := set_faults (List.tl (faults w))
               (set_datainfo (table_without d (datainfo w)) w)).
  assert (Hgone : List.filter (fun r => id r =? data_id) (datainfo w1) = []).
  { subst w1. cbn [datainfo set_faults set_datainfo]. rewrite <- Hd.
    apply table_without_no_row. }
  exists w1. split; [| split; [exact Hgone |]].
  - unfold DataManager_read.
    rewrite (bind_ok _ _ _ _ _
               (check_permission_granted _ _ _ _ _ _ _ Hdec _ Hop Hp)).
    unfold bind at 1. unfold UserDBQuery_read_id at 1. unfold bind at 1, gets, ret.
    destruct (List.find (fun u => u_id u =? uid) (users w)) as [target |];
      [| contradiction].
    rewrite (bind_ok _ _ _ _ _ (DataDBQueryReader_by_id _ _ _ _ Hid Hrows)).
    cbv zeta. unfold bind at 1. unfold DataStorageQuery_read at 1.
    unfold bind at 1, gets, ret. rewrite Habsent. cbn [negb].
    rewrite Hd.
    rewrite (bind_ok _ _ _ _ _ (DataDBQueryDestroyer_run _ _ _ Hrows Hcommit)).
    reflexivity.
  - intros mode'. unfold DataManager_read.
    assert (Hop1 : List.find (fun u => String.eqb (u_email u) email) (users w1)
                   = Some operator) by exact Hop.
    rewrite (bind_ok _ _ _ _ _
               (check_permission_granted _ _ _ _ _ _ _ Hdec _ Hop1 Hp)).
    unfold bind at 1. unfold UserDBQuery_read_id at 1. unfold bind at 1, gets, ret.
    change (users w1) with (users w).
    destruct (List.find (fun u => u_id u =? uid) (users w)) as [target |];
      [| contradiction].
    rewrite (bind_ok _ _ _ _ _ (DataDBQueryReader_by_id_absent _ _ _ _ Hgone)).
    reflexivity.
Qed.

Lemma C2_read_purges_stale_record_witness :
  exists w1,
    DataManager_read "/srv" login_tokens login_kind "token-of-alice" 1 1 ModeDownload
      stale_world = (Raise DataNotFound, w1)
    /\ List.filter (fun r => id r =? 1) (datainfo w1) = []
    /\ forall mode',
         DataManager_read "/srv" login_tokens login_kind "token-of-alice" 1 1 mode' w1
         = (Raise DataNotFound, w1).
Proof.
  apply (C2_read_purges_stale_record "/srv" "token-of-alice"
           "alice@example.com" "login" alice 1 1 login_tokens login_kind ModeDownload
           stale_world alices_file);
    try reflexivity; discriminate.
Defined.

(** ** Size reconciliation *)

Lemma sync_file_size_run i p w d bytes :
  List.filter (fun r => id r =? i) (datainfo w) = [d] ->
  storage w !! p = Some (PFile bytes) ->
  commit_succeeds w = true ->
  exists w1,
    sync_file_size i p w
    = (Ok (with_size (Z.of_nat (List.length bytes)) d), w1)
    /\ List.filter (fun r => id r =? i) (datainfo w1)
       = [with_size (Z.of_nat (List.length bytes)) d]
    /\ storage w1 = storage w.
Proof.
  intros Hrows Hfile Hc.
  destruct (filter_singleton_In _ _ _ Hrows) as [_ Hid]. apply Z.eqb_eq in Hid.
  subst i. unfold sync_file_size. unfold bind at 1. unfold gets. unfold bind at 1.
  rewrite scalar_run, Hrows. cbv zeta.
  unfold bind at 1. unfold os_path_getsize at 1. unfold bind at 1, gets.
  rewrite Hfile. unfold ret at 1.
  set (real := Z.of_nat (List.length bytes)).
  destruct (real =? size d) eqn:Hsame; cbn [negb].
  - apply Z.eqb_eq in Hsame. exists w. rewrite Hsame, with_size_same.
    now rewrite Hrows.
  - exists (set_faults (List.tl (faults w))
              (set_datainfo (update_row (id d) (with_size real) (datainfo w)) w)).
    assert (Hnew : List.filter (fun r => id r =? id d)
                     (update_row (id d) (with_size real) (datainfo w))
                   = [with_size real d]).
    { rewrite filter_update_row by reflexivity. rewrite Hrows.
      cbn [List.map]. now rewrite Z.eqb_refl. }
    split; [| split; [exact Hnew | reflexivity]].
    unfold bind. rewrite session_commit_run by exact Hc.
    rewrite session_refresh_run. cbn [datainfo set_faults set_datainfo].
    rewrite find_head_filter. cbn [with_size id]. rewrite Hnew.
    reflexivity.
Qed.

(** C4: a read in info mode of a file row whose physical file exists
    returns the byte length of the file on disk as the size, and afterwards
    the row of that id carries this length (it is rewritten when it
    differed, and already carried it otherwise).  The caller passes the
    permission check, the target user exists and the commit of the
    correction is not scheduled to fail. *)
Theorem C4_read_info_reconciles_size
    (srv token email issue : string) (operator : User) (uid data_id : Z)
    (decode_token : string -> Result (string * string))
    (is_login : string -> bool)
    (w : World) (d : DataInfo) (bytes : list Byte.byte) :
  decode_token token = Ok (email, issue) ->
  List.find (fun u => String.eqb (u_email u) email) (users w) = Some operator ->
  identity_permitted is_login issue operator uid = true ->
  List.find (fun u => u_id u =? uid) (users w) <> None ->
  data_id <> 0 ->
  List.filter (fun r => id r =? data_id) (datainfo w) = [d] ->
  is_dir d = false ->
  storage w !! raw_path srv uid (root d) (name d) = Some (PFile bytes) ->
  commit_succeeds w = true ->
  exists w1,
    DataManager_read srv decode_token is_login token uid data_id ModeInfo w
    = (Ok (mkReadResult
             (mkReadInfo (created d) (root d) false (name d)
                (Z.of_nat (List.length bytes))) None), w1)
    /\ List.filter (fun r => id r =? data_id) (datainfo w1)
       = [with_size (Z.of_nat (List.length bytes)) d]
    /\ storage w1 = storage w.
Proof.
  intros Hdec Hop Hp Huser Hid Hrows Hkind Hfile Hcommit.
  destruct (sync_file_size_run data_id _ w d bytes Hrows Hfile Hcommit)
    as (w1 & Hsync & Hnew & Hst).
  exists w1. split; [| split; assumption].
  unfold DataManager_read.
  rewrite (bind_ok _ _ _ _ _
             (check_permission_granted _ _ _ _ _ _ _ Hdec _ Hop Hp)).
  unfold bind at 1. unfold UserDBQuery_read_id at 1. unfold bind at 1, gets, ret.
  destruct (List.find (fun u => u_id u =? uid) (users w)) as [target |];
    [| contradiction].
  rewrite (bind_ok _ _ _ _ _ (DataDBQueryReader_by_id _ _ _ _ Hid Hrows)).
  cbv zeta. unfold bind at 1. unfold DataStorageQuery_read at 1.
  unfold bind at 1, gets, ret. rewrite Hfile, Hkind. cbn [negb].
  rewrite (bind_ok _ _ _ _ _ Hsync).
  cbn [with_size is_dir size created root name]. rewrite Hkind.
  reflexivity.
Qed.

Lemma C4_read_info_reconciles_size_witness :
  exists w1,
    DataManager_read "/srv" login_tokens login_kind "token-of-alice" 1 1 ModeInfo
      corrupted_world
    = (Ok (mkReadResult (mkReadInfo 0 "/" false "a.txt" 3) None), w1)
    /\ List.filter (fun r => id r =? 1) (datainfo w1)
       = [mkDataInfo 1 "/" "a.txt" false 0 false 3 1]
    /\ storage w1 = storage corrupted_world.
Proof.
  apply (C4_read_info_reconciles_size "/srv" "token-of-alice"
           "alice@example.com" "login" alice 1 1 login_tokens login_kind
           corrupted_world (mkDataInfo 1 "/" "a.txt" false 0 false 999 1)
           [Byte.x68; Byte.x69; Byte.x0a]);
    try reflexivity; try discriminate.
Defined.

(** ** Create and the failing commit *)

Lemma DataStorageQuery_destroy_run p w :
  DataStorageQuery_destroy p w
  = (Ok tt,
     set_storage (filter (fun kv : string * PhysObj =>
                    String.eqb kv.1 p || is_under p kv.1 = false)
                    (storage w)) w).
Proof. reflexivity. Qed.

Lemma destroyed_path_is_absent p (s : gmap string PhysObj) :
  filter (fun kv : string * PhysObj =>
            String.eqb kv.1 p || is_under p kv.1 = false) s !! p = None.
Proof.
  apply map_lookup_filter_None. right. intros x _. cbn [fst].
  rewrite String.eqb_refl. discriminate.
Qed.

(** The compensation of both creates: remove the path, raise again. *)
Lemma rollback_run {A} p e w :
  (DataStorageQuery_destroy p ;;; @raise A e) w
  = (Raise e,
     set_storage (filter (fun kv : string * PhysObj =>
                    String.eqb kv.1 p || is_under p kv.1 = false)
                    (storage w)) w).
Proof. reflexivity. Qed.

Lemma session_commit_fault upd w msg rest :
  faults w = Some msg :: rest ->
  session_commit upd w = (Raise (DBError msg), set_faults rest w).
Proof. intros Hf. unfold session_commit. now rewrite Hf. Qed.

Lemma update_file_automatic_eq i fmt w :
  update_file_automatic i fmt w
  = match List.filter (fun r => id r =? i) (datainfo w) with
    | [] => (Raise DataNotFound, w)
    | [data_info] =>
        (session_commit (fun w =>
           set_datainfo (update_row (id data_info) (with_size (c_size fmt))
                           (datainfo w)) w) ;;;
         session_refresh (with_size (c_size fmt) data_info)) w
    | _ :: _ :: _ => (Raise MultipleResultsFound, w)
    end.
Proof.
  unfold update_file_automatic. unfold bind at 1. unfold gets.
  unfold bind at 1. rewrite scalar_run.
  destruct (List.filter _ (datainfo w)) as [| r0 [| r1 l]]; reflexivity.
Qed.

Lemma update_file_automatic_fault i fmt w msg rest d w0 :
  faults w = Some msg :: rest ->
  update_file_automatic i fmt (set_faults (None :: rest) w) = (Ok d, w0) ->
  update_file_automatic i fmt w = (Raise (DBError msg), set_faults rest w).
Proof.
  intros Hf. rewrite !update_file_automatic_eq. cbn [datainfo set_faults].
  destruct (List.filter (fun r => id r =? i) (datainfo w)) as [| r0 [| r1 l]];
    try discriminate.
  intros _. unfold bind. now rewrite (session_commit_fault _ _ _ _ Hf).
Qed.

Lemma DataDBQueryCreator_eq fmt w :
  DataDBQueryCreator fmt w
  = match List.filter (fun d =>
            String.eqb (name d) (c_name fmt)
            && String.eqb (root d) (c_root fmt)
            && (user_id d =? c_user_id fmt)
            && Bool.eqb (is_dir d) (c_is_dir fmt)) (datainfo w) with
    | [] =>
        let data := mkDataInfo (next_id w) (c_root fmt) (c_name fmt)
                      (c_is_dir fmt) (now w) false (c_size fmt)
                      (c_user_id fmt) in
        (session_commit (fun w =>
           set_next_id (next_id w + 1) (set_datainfo (datainfo w ++ [data]) w)) ;;;
         session_refresh data) w
    | [_] => (Raise DataAlreadyExists, w)
    | _ :: _ :: _ => (Raise MultipleResultsFound, w)
    end.
Proof.
  unfold DataDBQueryCreator. unfold bind at 1. unfold gets at 1.
  unfold bind at 1. rewrite scalar_run.
  destruct (List.filter _ (datainfo w)) as [| r0 [| r1 l]]; reflexivity.
Qed.

Lemma DataDBQueryCreator_fault fmt w msg rest d w0 :
  faults w = Some msg :: rest ->
  DataDBQueryCreator fmt (set_faults (None :: rest) w) = (Ok d, w0) ->
  DataDBQueryCreator fmt w = (Raise (DBError msg), set_faults rest w).
Proof.
  intros Hf. rewrite !DataDBQueryCreator_eq. cbn [datainfo set_faults].
  destruct (List.filter _ (datainfo w)) as [| r0 [| r1 l]]; try discriminate.
  intros _. cbv zeta. unfold bind. now rewrite (session_commit_fault _ _ _ _ Hf).
Qed.

Lemma set_storage_twice s1 s2 w :
  set_storage s2 (set_storage s1 w) = set_storage s2 w.
Proof. reflexivity. Qed.

Lemma DataFileCRUDManager_create_rollback srv root_id uid file w msg rest d0 w0 :
  faults w = Some msg :: rest ->
  DataFileCRUDManager_create srv root_id uid file (set_faults (None :: rest) w)
  = (Ok d0, w0) ->
  exists dir_root w',
    parent_dir_root root_id uid w = (Ok dir_root, w)
    /\ DataFileCRUDManager_create srv root_id uid file w
       = (Raise (DBError msg), w')
    /\ storage w' !! raw_path srv uid dir_root
                       (last_piece (split_slash (filename file))) = None
    /\ datainfo w' = datainfo w.
Proof.
  intros Hf H. unfold DataFileCRUDManager_create in *.
  apply quiet_step in H as (user & s0 & Hu & H); [| auto with quiet].
  rewrite (bind_ok _ _ _ _ _ Hu).
  destruct user as [user |]; [| discriminate].
  apply quiet_step in H as (dir_root & s1 & Hp & H); [| auto with quiet].
  rewrite (bind_ok _ _ _ _ _ Hp). cbv zeta in *.
  apply quiet_step in H as (info & s2 & Hslot & H); [| auto with quiet].
  rewrite (bind_ok _ _ _ _ _ Hslot).
  apply quiet_step in H as (? & s3 & Hchk & H); [| quiet_solve].
  rewrite (bind_ok _ _ _ _ _ Hchk).
  apply quiet_step in H as (fmt & s4 & Hfmt & H); [| auto with quiet].
  rewrite (bind_ok _ _ _ _ _ Hfmt).
  apply quiet_step in H as (sz & s5 & Hc & H); [| auto with quiet].
  rewrite (bind_ok _ _ _ _ _ Hc).
  rewrite !set_storage_twice in *.
  apply try_except_reraise_ok in H.
  exists dir_root. eexists. split; [| split; [| split]].
  - clear -Hu Hp. unfold UserDBQuery_read_id, bind, gets, ret in Hu.
    injection Hu as _ Hw. rewrite <- Hw in Hp.
    pose proof (parent_dir_root_world _ _ _ _ _ Hp) as Hsame.
    rewrite Hsame in Hp. exact Hp.
  - erewrite try_except_raise; [apply rollback_run |].
    destruct (negb _).
    + eapply update_file_automatic_fault; [exact Hf | exact H].
    + eapply DataDBQueryCreator_fault; [exact Hf | exact H].
  - cbn [storage set_storage]. apply destroyed_path_is_absent.
  - reflexivity.
Qed.

Lemma DataDirectoryCRUDManager_create_rollback srv root_id uid dirname w msg
    rest d0 w0 :
  faults w = Some msg :: rest ->
  DataDirectoryCRUDManager_create srv root_id uid dirname
    (set_faults (None :: rest) w) = (Ok d0, w0) ->
  exists dir_root w',
    parent_dir_root root_id uid w = (Ok dir_root, w)
    /\ DataDirectoryCRUDManager_create srv root_id uid dirname w
       = (Raise (DBError msg), w')
    /\ storage w' !! raw_path srv uid dir_root dirname = None
    /\ datainfo w' = datainfo w.
Proof.
  intros Hf H. unfold DataDirectoryCRUDManager_create in *.
  apply quiet_step in H as (user & s0 & Hu & H); [| auto with quiet].
  rewrite (bind_ok _ _ _ _ _ Hu).
  destruct user as [user |]; [| discriminate].
  apply quiet_step in H as (dir_root & s1 & Hp & H); [| auto with quiet].
  rewrite (bind_ok _ _ _ _ _ Hp). cbv zeta in *.
  apply quiet_step in H as (info & s2 & Hslot & H); [| auto with quiet].
  rewrite (bind_ok _ _ _ _ _ Hslot).
  destruct (negb _); [discriminate |].
  apply quiet_step in H as (occupied & s3 & Hocc & H); [| auto with quiet].
  rewrite (bind_ok _ _ _ _ _ Hocc).
  apply quiet_step in H as (? & s4 & Hdel & H); [| quiet_solve].
  rewrite (bind_ok _ _ _ _ _ Hdel).
  apply quiet_step in H as (fmt & s5 & Hfmt & H); [| auto with quiet].
  rewrite (bind_ok _ _ _ _ _ Hfmt).
  apply quiet_step in H as (? & s6 & Hc & H); [| auto with quiet].
  rewrite (bind_ok _ _ _ _ _ Hc).
  rewrite !set_storage_twice in *.
  apply try_except_reraise_ok in H.
  exists dir_root. eexists. split; [| split; [| split]].
  - clear -Hu Hp. unfold UserDBQuery_read_id, bind, gets, ret in Hu.
    injection Hu as _ Hw. rewrite <- Hw in Hp.
    pose proof (parent_dir_root_world _ _ _ _ _ Hp) as Hsame.
    rewrite Hsame in Hp. exact Hp.
  - erewrite try_except_raise; [apply rollback_run |].
    eapply DataDBQueryCreator_fault; [exact Hf | exact H].
  - cbn [storage set_storage]. apply destroyed_path_is_absent.
  - reflexivity.
Qed.

Lemma quiet_check_permission dec lg token uid :
  quiet (check_permission dec lg token uid).
Proof.
  unfold check_permission, UserDBQuery_read_email.
  apply quiet_bind.
  - unfold lift. intros w f. split; [reflexivity |].
    exists (storage w). symmetry. apply set_storage_same.
  - intros ?. cbv zeta. quiet_solve.
Qed.

Lemma check_permission_world dec lg token uid w r w' :
  check_permission dec lg token uid w = (r, w') -> w' = w.
Proof.
  unfold check_permission, UserDBQuery_read_email, bind, lift, gets, ret, raise.
  destruct (dec token) as [[e i] | e]; cbn [fst snd]; [| congruence].
  destruct (List.find _ (users w)) as [op |]; [| congruence].
  destruct (negb _); congruence.
Qed.

(** C1, amended: take a create, of a file or of a directory, that would
    return a record, and let its metadata commit be scheduled to fail with
    [msg].  Then the create raises that same error, nothing is left in the
    physical store at the target path, and the [datainfo] table is exactly
    what it was before the call. *)
Theorem C1_failed_commit_removes_physical_object
    (srv token : string) (uid data_id : Z)
    (decode_token : string -> Result (string * string))
    (is_login : string -> bool)
    (req_file : option UploadFile) (req_dirname : option string)
    (w : World) (msg : string) (rest : list (option string))
    (d0 : DataInfo) (w0 : World) :
  faults w = Some msg :: rest ->
  DataManager_create srv decode_token is_login token uid data_id req_file req_dirname
    (set_faults (None :: rest) w) = (Ok (Some d0), w0) ->
  exists dir_root w',
    parent_dir_root data_id uid w = (Ok dir_root, w)
    /\ DataManager_create srv decode_token is_login token uid data_id req_file
         req_dirname w = (Raise (DBError msg), w')
    /\ storage w' !! raw_path srv uid dir_root
                       (create_target_name req_file req_dirname) = None
    /\ datainfo w' = datainfo w.
Proof.
  intros Hf H. unfold DataManager_create in *.
  apply quiet_step in H as (? & s & Hchk & H);
    [| apply quiet_check_permission].
  pose proof (check_permission_world _ _ _ _ _ _ _ Hchk) as Hsame.
  rewrite Hsame in *. rewrite (bind_ok _ _ _ _ _ Hchk).
  destruct req_file as [file |].
  - apply bind_inv_ok in H as (d & w1 & H & _).
    destruct (DataFileCRUDManager_create_rollback _ _ _ _ _ _ _ _ _ Hf H)
      as (dir_root & w' & Hp & Hrun & Hgone & Hdb).
    exists dir_root, w'. rewrite (bind_raise _ _ _ _ _ Hrun). auto.
  - destruct (truthy_str req_dirname); [| discriminate].
    apply bind_inv_ok in H as (d & w1 & H & _).
    destruct (DataDirectoryCRUDManager_create_rollback _ _ _ _ _ _ _ _ _ Hf H)
      as (dir_root & w' & Hp & Hrun & Hgone & Hdb).
    exists dir_root, w'. rewrite (bind_raise _ _ _ _ _ Hrun). auto.
Qed.

Lemma C1_failed_commit_removes_physical_object_witness :
  exists dir_root w',
    parent_dir_root 0 1 failing_commit_world = (Ok dir_root, failing_commit_world)
    /\ DataManager_create "/srv" login_tokens login_kind "token-of-alice" 1 0 None
         (Some "mydir") failing_commit_world
       = (Raise (DBError "commit failed"), w')
    /\ storage w' !! raw_path "/srv" 1 dir_root
                       (create_target_name None (Some "mydir")) = None
    /\ datainfo w' = datainfo failing_commit_world.
Proof.
  apply (C1_failed_commit_removes_physical_object "/srv" "token-of-alice" 1 0
           login_tokens login_kind None (Some "mydir") failing_commit_world
           "commit failed" []
           (mkDataInfo 1 "/" "mydir" true 0 false 0 1)
           (world_of [mkDataInfo 1 "/" "mydir" true 0 false 0 1] 2 [alice; bob]
              {[ "/srv/storage/1/root/mydir" := PDir ]} [])).
  - reflexivity.
  - vm_compute. reflexivity.
Defined.

(** C1 as stated fails for a re-upload: user 1 uploads [a.txt] over the
    file row already at that slot.  Without the fault the create returns the
    row; with the commit failing, the error is raised again and the physical
    file is gone, but the row of the slot is still in the table. *)
Lemma C1_counterexample_reupload_keeps_record :
  let create := DataManager_create "/srv" login_tokens login_kind "token-of-alice" 1 0
                  (Some a_txt) None in
  fst (create (set_faults [] reupload_world)) = Ok (Some (with_size 4 alices_file))
  /\ fst (create reupload_world) = Raise (DBError "commit failed")
  /\ storage (snd (create reupload_world)) !! "/srv/storage/1/root/a.txt" = None
  /\ ~ (List.filter (fun d => (user_id d =? 1) && String.eqb (root d) "/"
                              && String.eqb (name d) "a.txt")
          (datainfo (snd (create reupload_world))) = []).
Proof.
  cbv zeta. repeat split; try (vm_compute; reflexivity).
  vm_compute. discriminate.
Qed.

(** ** What the cascade does to a matched path *)




(** A rest that holds no slash is left alone, so the prefix rewrite is
    what happens one level below the renamed directory. *)
Lemma sql_replace_from_no_slash src dst s :
  has_slash src = true -> has_slash s = false ->
  sql_replace_from O src dst s = s.
Proof.
  intros Hsrc. induction s as [| c s IH]; [reflexivity |].
  intros Hs. cbn [sql_replace_from].
  assert (Hpre : String.prefix src (String c s) = false).
  { destruct (String.prefix src (String c s)) eqn:Hp; [| reflexivity].
    exfalso. clear IH. revert src Hsrc Hp.
    generalize (String c s) as t, Hs. clear.
    induction t as [| b t IH]; intros Ht src Hsrc Hp.
    - destruct src; discriminate.
    - destruct src as [| a src]; [discriminate |].
      simpl in Hp. destruct (ascii_dec a b) as [-> |]; [| discriminate].
      simpl in Ht, Hsrc. apply orb_false_iff in Ht as [Hb Ht].
      rewrite Hb in Hsrc. simpl in Hsrc. eapply IH; eauto. }
  rewrite Hpre. simpl in Hs. apply orb_false_iff in Hs as [_ Hs].
  now rewrite (IH Hs).
Qed.

(** C3, at the failing input: renaming the top directory [a] to [x] when
    the tree holds [/a/b/a/f.txt].  The row of [f.txt] has parent path
    [/a/b/a/]; replacing its leading [/a/] alone gives [/x/b/a/], but the
    update stores [/x/b/x/], because every occurrence of the old prefix is
    replaced. *)
Theorem C3_rename_rewrites_inner_occurrence :
  let run := DataDBQueryUpdator "x" 1 1 (world_of nested_tree 5 [alice] ∅ []) in
  fst run = Ok (mkDataInfo 1 "/" "x" true 0 false 0 1)
  /\ List.map root (datainfo (snd run)) = ["/"; "/x/"; "/x/b/"; "/x/b/x/"]
  /\ "/x/" +:+ string_drop (String.length "/a/") "/a/b/a/" = "/x/b/a/".
Proof. repeat split; vm_compute; reflexivity. Qed.

(** ** Re-upload when the slot is unique in the table *)

Lemma DataDBQueryReader_full_root_run u r n w d :
  List.filter (fun x => String.eqb (root x) r && String.eqb (name x) n)
    (datainfo w) = [d] ->
  DataDBQueryReader u None None (Some (r, n)) w = (Ok (Some d), w).
Proof.
  intros Hrows. unfold DataDBQueryReader. cbv zeta. unfold bind, gets.
  cbn [truthy_int]. rewrite scalar_run, Hrows. reflexivity.
Qed.

Lemma clear_target_run p w :
  exists s,
    (occupied <- storage_occupied p ;;
     if occupied then DataStorageQuery_destroy p else ret tt) w
    = (Ok tt, set_storage s w).
Proof.
  unfold storage_occupied, DataStorageQuery_read, bind, gets, ret. cbv beta.
  destruct (storage w !! p) as [[bytes |] |] eqn:Hlook; cbn [negb]; cbv beta;
    try rewrite Hlook; cbn [negb].
  - eexists. apply DataStorageQuery_destroy_run.
  - eexists. apply DataStorageQuery_destroy_run.
  - exists (storage w). now rewrite set_storage_same.
Qed.

(** When the slot holds one file row in the whole table, a re-upload
    rewrites the size of that row in place: same id, same number of rows,
    and the new bytes are in the physical store. *)
Lemma reupload_updates_in_place srv root_id uid file w u dir_root d :
  List.find (fun x => u_id x =? uid) (users w) = Some u ->
  parent_dir_root root_id uid w = (Ok dir_root, w) ->
  List.filter (fun x => String.eqb (root x) dir_root
                        && String.eqb (name x)
                             (last_piece (split_slash (filename file))))
    (datainfo w) = [d] ->
  is_dir d = false ->
  id d <> 0 ->
  List.filter (fun r => id r =? id d) (datainfo w) = [d] ->
  valid_name (last_piece (split_slash (filename file))) = true ->
  commit_succeeds w = true ->
  let sz := Z.of_nat (List.length (content file)) in
  exists w',
    DataFileCRUDManager_create srv root_id uid file w
    = (Ok (with_size sz d), w')
    /\ datainfo w' = update_row (id d) (with_size sz) (datainfo w)
    /\ storage w' !! raw_path srv uid dir_root
                       (last_piece (split_slash (filename file)))
       = Some (PFile (content file)).
Proof.
  intros Hu Hp Hslot Hkind Hid Hpk Hvalid Hc sz.
  unfold DataFileCRUDManager_create.
  unfold bind at 1. unfold UserDBQuery_read_id at 1. unfold bind at 1, gets, ret.
  rewrite Hu. rewrite (bind_ok _ _ _ _ _ Hp). cbv zeta.
  rewrite (bind_ok _ _ _ _ _ (DataDBQueryReader_full_root_run _ _ _ _ _ Hslot)).
  apply Z.eqb_neq in Hid. rewrite Hid, Hkind. cbn [negb andb].
  destruct (clear_target_run
              (raw_path srv uid dir_root
                 (last_piece (split_slash (filename file)))) w) as [s Hclear].
  rewrite (bind_ok _ _ _ _ _ Hclear).
  unfold bind at 1. unfold DataInfoCreate_new at 1. rewrite Hvalid. unfold ret at 1.
  unfold bind at 1. unfold DataStorageQuery_create at 1.
  unfold bind at 1, modify, ret at 1.
  cbn [set_storage storage datainfo next_id now users faults with_c_size
       c_name c_root c_user_id c_is_dir c_size content].
  eexists. split; [| split].
  - apply try_except_ok. rewrite update_file_automatic_eq.
    cbn [datainfo set_storage]. rewrite Hpk. unfold bind.
    rewrite session_commit_run by exact Hc.
    rewrite session_refresh_run. cbn [datainfo set_faults set_datainfo].
    rewrite find_head_filter. cbn [with_size id c_size].
    rewrite filter_update_row by reflexivity.
    cbn [datainfo set_storage]. rewrite Hpk.
    cbn [List.map List.head]. rewrite Z.eqb_refl. reflexivity.
  - reflexivity.
  - cbn [storage set_faults set_datainfo]. apply lookup_insert_eq.
Qed.

(** C5, at the failing input: user 1 uploads [a.txt] again while user 2
    also has an [a.txt] at the root.  The slot lookup is not narrowed to the
    owner, sees two rows and raises; the size of the owner's row, 3, is not
    updated to the 4 bytes uploaded, and nothing else changes either. *)
Theorem C5_reupload_fails_when_other_owner_has_same_slot :
  let w := world_of [alices_file; bobs_file] 3 [alice; bob] ∅ [] in
  DataFileCRUDManager_create "/srv" 0 1
    (mkUploadFile "a.txt" [Byte.x64; Byte.x61; Byte.x74; Byte.x61]) w
  = (Raise MultipleResultsFound, w)
  /\ List.filter (fun d => (user_id d =? 1) && String.eqb (root d) "/"
                           && String.eqb (name d) "a.txt") (datainfo w)
     = [alices_file].
Proof. split; vm_compute; reflexivity. Qed.

(** The state of two owners holding the same slot is reached through the
    entry points themselves, and the re-upload of user 1 then fails. *)
Example shared_slot_is_reachable :
  datainfo two_owners_one_slot
  = [mkDataInfo 1 "/" "a.txt" false 0 false 4 1;
     mkDataInfo 2 "/" "a.txt" false 0 false 1 2]
  /\ fst (DataManager_create "/srv" login_tokens login_kind "token-of-alice" 1 0
            (Some a_txt) None two_owners_one_slot)
     = Raise MultipleResultsFound.
Proof. split; vm_compute; reflexivity. Qed.

(** * Further properties of the stores and the managers *)

(** ** Unfolding the metadata operations *)

Lemma DataDBQueryDestroyer_eq i w :
  DataDBQueryDestroyer i w
  = match List.filter (fun r => id r =? i) (datainfo w) with
    | [] => (Raise AttributeError, w)
    | [data] =>
        (session_commit (set_datainfo (table_without data (datainfo w))) ;;;
         ret (root data, name data)) w
    | _ :: _ :: _ => (Raise MultipleResultsFound, w)
    end.
Proof.
  unfold DataDBQueryDestroyer. unfold bind at 1. unfold gets at 1.
  unfold bind at 1. rewrite scalar_run.
  destruct (List.filter _ (datainfo w)) as [| r0 [| r1 l]] eqn:Hrows;
    try reflexivity.
  destruct (filter_singleton_In _ _ _ Hrows) as [_ Hid]. apply Z.eqb_eq in Hid.
  cbv zeta. unfold table_without. rewrite Hid. reflexivity.
Qed.

(** The table a successful rename of row [d] to [new_name] leaves. *)
Lemma DataDBQueryUpdator_eq new_name uid i w :
  DataDBQueryUpdator new_name uid i w
  = match List.filter (fun d => (user_id d =? uid) && (id d =? i))
            (datainfo w) with
    | [] => (Raise DataNotFound, w)
    | [d] =>
        let renamed := update_row (id d) (with_name new_name) (datainfo w) in
        let t :=
          if is_dir d then
            List.map (fun r =>
              if (user_id r =? uid)
                 && startswith (root r) (root d +:+ name d +:+ "/")
              then with_root (sql_replace (root r)
                                (root d +:+ name d +:+ "/")
                                (root d +:+ new_name +:+ "/")) r
              else r) renamed
          else renamed in
        (session_commit (set_datainfo t) ;;;
         session_refresh (with_name new_name d)) w
    | _ :: _ :: _ => (Raise MultipleResultsFound, w)
    end.
Proof.
  unfold DataDBQueryUpdator. unfold bind at 1. unfold gets at 1.
  unfold bind at 1. rewrite scalar_run.
  destruct (List.filter _ (datainfo w)) as [| r0 [| r1 l]]; reflexivity.
Qed.

Lemma sync_file_size_eq i p w :
  sync_file_size i p w
  = match List.filter (fun r => id r =? i) (datainfo w) with
    | [] => (Raise DataNotFound, w)
    | [d] =>
        match storage w !! p with
        | None => (Raise OSError, w)
        | Some o =>
            let real := match o with
                        | PFile bytes => Z.of_nat (List.length bytes)
                        | PDir => 0
                        end in
            if negb (real =? size d) then
              (session_commit (fun w =>
                 set_datainfo (update_row (id d) (with_size real)
                                 (datainfo w)) w) ;;;
               session_refresh (with_size real d)) w
            else (Ok d, w)
        end
    | _ :: _ :: _ => (Raise MultipleResultsFound, w)
    end.
Proof.
  unfold sync_file_size. unfold bind at 1. unfold gets at 1.
  unfold bind at 1. rewrite scalar_run.
  destruct (List.filter _ (datainfo w)) as [| r0 [| r1 l]]; try reflexivity.
  unfold bind at 1. unfold os_path_getsize. unfold bind at 1. unfold gets at 1.
  destruct (storage w !! p) as [[bytes |] |]; unfold ret, raise; cbv zeta;
    try reflexivity; destruct (negb _); reflexivity.
Qed.

Lemma filter_andb {A} (f g : A -> bool) l :
  List.filter (fun x => f x && g x) l = List.filter f (List.filter g l).
Proof.
  induction l as [| x l IH]; [reflexivity |].
  simpl. destruct (g x); simpl; rewrite ?andb_true_r, ?andb_false_r.
  - destruct (f x); now rewrite IH.
  - exact IH.
Qed.

(** ** An id that names no row *)

(** X1: with no row of the given id, the delete raises [AttributeError]
    and the rename, the size rewrite and the size sync raise
    [DataNotFound]; none of them changes the world. *)
Theorem metadata_operations_on_a_missing_id i w :
  List.filter (fun r => id r =? i) (datainfo w) = [] ->
  DataDBQueryDestroyer i w = (Raise AttributeError, w)
  /\ (forall new_name uid,
        DataDBQueryUpdator new_name uid i w = (Raise DataNotFound, w))
  /\ (forall fmt, update_file_automatic i fmt w = (Raise DataNotFound, w))
  /\ (forall p, sync_file_size i p w = (Raise DataNotFound, w)).
Proof.
  intros Hrows. repeat split; intros.
  - now rewrite DataDBQueryDestroyer_eq, Hrows.
  - rewrite DataDBQueryUpdator_eq.
    rewrite (filter_andb (fun d => user_id d =? uid) (fun d => id d =? i)).
    now rewrite Hrows.
  - now rewrite update_file_automatic_eq, Hrows.
  - now rewrite sync_file_size_eq, Hrows.
Qed.

Lemma metadata_operations_on_a_missing_id_witness :
  DataDBQueryDestroyer 9 stale_world = (Raise AttributeError, stale_world).
Proof.
  apply (metadata_operations_on_a_missing_id 9 stale_world). reflexivity.
Defined.

(** X2: the rename is scoped to the owner: for a row that exists but
    belongs to another user it raises [DataNotFound] and changes nothing. *)
Theorem rename_of_a_foreign_row_is_refused new_name uid i w d :
  List.filter (fun r => id r =? i) (datainfo w) = [d] ->
  user_id d <> uid ->
  DataDBQueryUpdator new_name uid i w = (Raise DataNotFound, w).
Proof.
  intros Hrows Hown. rewrite DataDBQueryUpdator_eq.
  rewrite (filter_andb (fun d => user_id d =? uid) (fun d => id d =? i)).
  rewrite Hrows. cbn [List.filter].
  apply Z.eqb_neq in Hown. now rewrite Hown.
Qed.

Lemma rename_of_a_foreign_row_is_refused_witness :
  DataDBQueryUpdator "mine" 1 5 (world_of [bobs_directory] 6 [alice; bob] ∅ [])
  = (Raise DataNotFound, world_of [bobs_directory] 6 [alice; bob] ∅ []).
Proof.
  apply (rename_of_a_foreign_row_is_refused "mine" 1 5 _ bobs_directory);
    [reflexivity | discriminate].
Defined.

(** ** A commit that fails *)

Lemma commit_then_fault {A} upd (k : M A) w msg rest :
  faults w = Some msg :: rest ->
  (session_commit upd ;;; k) w = (Raise (DBError msg), set_faults rest w).
Proof. intros Hf. unfold bind. now rewrite (session_commit_fault _ _ _ _ Hf). Qed.

Lemma same_stores_refl w : same_stores w w.
Proof. now repeat split. Qed.

Lemma same_stores_set_faults f w : same_stores w (set_faults f w).
Proof. now repeat split. Qed.

(** X3: when the coming commit fails, each operation of the metadata store
    leaves the table, the next id and the physical store as they were: the
    rollback leaves no partial change behind, the cascades of the delete and
    of the rename included. *)
Theorem failing_commit_leaves_the_table_alone w msg rest :
  faults w = Some msg :: rest ->
  (forall fmt, same_stores w (snd (DataDBQueryCreator fmt w)))
  /\ (forall i, same_stores w (snd (DataDBQueryDestroyer i w)))
  /\ (forall n u i, same_stores w (snd (DataDBQueryUpdator n u i w)))
  /\ (forall i fmt, same_stores w (snd (update_file_automatic i fmt w)))
  /\ (forall i p, same_stores w (snd (sync_file_size i p w))).
Proof.
  intros Hf. split; [| split; [| split; [| split]]]; intros.
  - rewrite DataDBQueryCreator_eq.
    destruct (List.filter _ (datainfo w)) as [| r0 [| r1 l]];
      try apply same_stores_refl.
    cbv zeta. rewrite (commit_then_fault _ _ _ _ _ Hf). apply same_stores_set_faults.
  - rewrite DataDBQueryDestroyer_eq.
    destruct (List.filter _ (datainfo w)) as [| r0 [| r1 l]];
      try apply same_stores_refl.
    rewrite (commit_then_fault _ _ _ _ _ Hf). apply same_stores_set_faults.
  - rewrite DataDBQueryUpdator_eq.
    destruct (List.filter _ (datainfo w)) as [| r0 [| r1 l]];
      try apply same_stores_refl.
    cbv zeta. rewrite (commit_then_fault _ _ _ _ _ Hf). apply same_stores_set_faults.
  - rewrite update_file_automatic_eq.
    destruct (List.filter _ (datainfo w)) as [| r0 [| r1 l]];
      try apply same_stores_refl.
    rewrite (commit_then_fault _ _ _ _ _ Hf). apply same_stores_set_faults.
  - rewrite sync_file_size_eq.
    destruct (List.filter _ (datainfo w)) as [| r0 [| r1 l]];
      try apply same_stores_refl.
    destruct (storage w !! p) as [o |]; [| apply same_stores_refl].
    cbv zeta. destruct (negb _); [| apply same_stores_refl].
    rewrite (commit_then_fault _ _ _ _ _ Hf). apply same_stores_set_faults.
Qed.

Lemma failing_commit_leaves_the_table_alone_witness :
  same_stores reupload_world (snd (DataDBQueryDestroyer 1 reupload_world)).
Proof.
  destruct (failing_commit_leaves_the_table_alone reupload_world
              "commit failed" [] eq_refl) as (_ & Hdestroy & _).
  apply Hdestroy.
Defined.

(** ** What a rename never changes *)

Lemma fixed_columns_map g t :
  (forall r, (id (g r), user_id (g r), is_dir (g r), size (g r),
              created (g r), is_favorite (g r))
             = (id r, user_id r, is_dir r, size r, created r, is_favorite r)) ->
  fixed_columns (List.map g t) = fixed_columns t.
Proof.
  intros Hg. unfold fixed_columns. rewrite List.map_map.
  apply List.map_ext. exact Hg.
Qed.

Lemma session_commit_datainfo upd w :
  datainfo (snd (session_commit upd w)) = datainfo (upd w)
  \/ datainfo (snd (session_commit upd w)) = datainfo w.
Proof.
  unfold session_commit.
  destruct (List.head (faults w)) as [[msg |] |]; cbn; auto.
Qed.

(** X4: a rename, of a file or of a directory with its cascade, succeeding
    or not, changes no id, owner, kind, size, creation time or favourite
    flag, and neither adds nor removes a row: only names and parent paths
    move. *)
Theorem rename_keeps_every_other_column new_name uid i w :
  fixed_columns (datainfo (snd (DataDBQueryUpdator new_name uid i w)))
  = fixed_columns (datainfo w).
Proof.
  rewrite DataDBQueryUpdator_eq.
  destruct (List.filter _ (datainfo w)) as [| d [| r1 l]]; try reflexivity.
  cbv zeta. unfold bind.
  match goal with |- context [session_commit ?u w] =>
    destruct (session_commit_datainfo u w) as [Hd | Hd];
    destruct (session_commit u w) as [[[] | e] w1] eqn:Hc
  end; cbn [snd] in *; rewrite ?session_refresh_run; cbn [snd]; rewrite Hd;
    try reflexivity; cbn [datainfo set_datainfo].
  all: destruct (is_dir d).
  all: try (rewrite fixed_columns_map;
            [| intros r; destruct (_ && _); reflexivity]).
  all: unfold update_row; apply fixed_columns_map;
    intros r; destruct (id r =? id d); reflexivity.
Qed.

(** ** The rename cascade where the old prefix does not recur *)




(** ** The pattern test of the cascades *)

Lemma sql_like_percent pat s :
  sql_like (String "%" pat) s
  = sql_like pat s
    || match s with
       | EmptyString => false
       | String _ s' => sql_like (String "%" pat) s'
       end.
Proof. destruct s; reflexivity. Qed.

Lemma sql_like_other c pat s :
  Ascii.eqb c "%"%char = false ->
  sql_like (String c pat) s
  = match s with
    | EmptyString => false
    | String c' s' =>
        (Ascii.eqb c "_"%char || Ascii.eqb c c') && sql_like pat s'
    end.
Proof. intros H. cbn [sql_like]. now rewrite H. Qed.



Lemma slashes_append a b : slashes (a +:+ b) = (slashes a + slashes b)%nat.
Proof.
  induction a as [| c a IH]; [reflexivity |].
  change (String c a +:+ b) with (String c (a +:+ b)).
  cbn [slashes]. rewrite IH. lia.
Qed.

(** A slash of the pattern is no wildcard: each one takes a slash of the
    string. *)
Lemma sql_like_slashes pat :
  forall s, sql_like pat s = true -> (slashes pat <= slashes s)%nat.
Proof.
  induction pat as [| c pat IH]; intros s H.
  - cbn [slashes]. lia.
  - destruct (Ascii.eqb c "%"%char) eqn:Hc.
    + apply Ascii.eqb_eq in Hc. subst c. cbn [slashes].
      change (Ascii.eqb "%" "/") with false. cbn [Nat.add].
      induction s as [| c' s IHs].
      * rewrite sql_like_percent in H. rewrite orb_false_r in H.
        now apply IH in H.
      * rewrite sql_like_percent in H. apply orb_true_iff in H as [H | H].
        -- now apply IH in H.
        -- apply IHs in H. cbn [slashes]. lia.
    + rewrite (sql_like_other _ _ _ Hc) in H.
      destruct s as [| c' s]; [discriminate |].
      apply andb_true_iff in H as [Hch H]. apply IH in H.
      cbn [slashes]. destruct (Ascii.eqb c "/"%char) eqn:Hs; [| lia].
      apply Ascii.eqb_eq in Hs. subst c.
      change (Ascii.eqb "/" "_") with false in Hch. cbn [orb] in Hch.
      apply Ascii.eqb_eq in Hch. subst c'.
      change (Ascii.eqb "/" "/") with true. cbv iota. lia.
Qed.








(** ** What a delete removes *)



(** ** Insert, then look up *)

Lemma no_row_with_next_id w :
  table_ok w ->
  List.filter (fun r => id r =? next_id w) (datainfo w) = [].
Proof.
  intros (_ & _ & Hall). induction Hall as [| r t Hr Ht IH]; [reflexivity |].
  cbn [List.filter]. destruct (id r =? next_id w) eqn:E; [| exact IH].
  apply Z.eqb_eq in E. lia.
Qed.

(** X7: an insert into a well-formed table, when no row has the same name,
    parent path, owner and kind, appends one row that carries the requested
    fields and the next id; a lookup by that id then returns the row, and
    inserting the same fields once more raises [DataAlreadyExists]. *)
Theorem insert_then_lookup fmt w :
  table_ok w ->
  List.filter (fun d =>
     String.eqb (name d) (c_name fmt) && String.eqb (root d) (c_root fmt)
     && (user_id d =? c_user_id fmt) && Bool.eqb (is_dir d) (c_is_dir fmt))
    (datainfo w) = [] ->
  commit_succeeds w = true ->
  exists w',
    let d := mkDataInfo (next_id w) (c_root fmt) (c_name fmt) (c_is_dir fmt)
               (now w) false (c_size fmt) (c_user_id fmt) in
    DataDBQueryCreator fmt w = (Ok d, w')
    /\ datainfo w' = datainfo w ++ [d]
    /\ next_id w' = next_id w + 1
    /\ (forall u, DataDBQueryReader u None (Some (id d)) None w'
                  = (Ok (Some d), w'))
    /\ fst (DataDBQueryCreator fmt w') = Raise DataAlreadyExists.
Proof.
  intros Hok Hfree Hc.
  pose proof (no_row_with_next_id w Hok) as Hfresh.
  destruct Hok as (_ & Hpos & _).
  set (d := mkDataInfo (next_id w) (c_root fmt) (c_name fmt) (c_is_dir fmt)
              (now w) false (c_size fmt) (c_user_id fmt)).
  set (w' := set_faults (List.tl (faults w))
               (set_next_id (next_id w + 1)
                  (set_datainfo (datainfo w ++ [d]) w))).
  assert (Hfind : List.filter (fun r => id r =? next_id w) (datainfo w ++ [d])
                  = [d]).
  { rewrite List.filter_app, Hfresh. cbn. now rewrite Z.eqb_refl. }
  exists w'. cbv zeta. fold d. split; [| split; [| split; [| split]]].
  - rewrite DataDBQueryCreator_eq, Hfree. cbv zeta. fold d. unfold bind.
    rewrite session_commit_run by exact Hc. rewrite session_refresh_run.
    cbn [datainfo set_faults set_next_id set_datainfo].
    rewrite find_head_filter. change (id d) with (next_id w).
    now rewrite Hfind.
  - reflexivity.
  - reflexivity.
  - intros u. apply DataDBQueryReader_by_id; [cbn [id d]; lia | exact Hfind].
  - rewrite DataDBQueryCreator_eq. cbn [datainfo w' set_faults set_next_id set_datainfo].
    rewrite List.filter_app, Hfree. cbn [List.filter d name root user_id is_dir app].
    now rewrite !String.eqb_refl, Z.eqb_refl, Bool.eqb_reflx.
Qed.

Lemma insert_then_lookup_witness :
  exists w',
    let fmt := mkDataInfoCreate "mydir" "/" 1 true 0 in
    let d := mkDataInfo 1 "/" "mydir" true 0 false 0 1 in
    DataDBQueryCreator fmt empty_world = (Ok d, w')
    /\ datainfo w' = datainfo empty_world ++ [d]
    /\ next_id w' = 1 + 1
    /\ (forall u, DataDBQueryReader u None (Some (id d)) None w'
                  = (Ok (Some d), w'))
    /\ fst (DataDBQueryCreator fmt w') = Raise DataAlreadyExists.
Proof.
  apply (insert_then_lookup (mkDataInfoCreate "mydir" "/" 1 true 0) empty_world).
  - repeat split; [constructor | constructor].
  - reflexivity.
  - reflexivity.
Defined.

(** ** The primary key and the auto-increment are kept *)

Lemma table_ok_frame w w' :
  datainfo w' = datainfo w -> next_id w' = next_id w ->
  table_ok w -> table_ok w'.
Proof. unfold table_ok. intros -> ->. trivial. Qed.

Lemma NoDup_ids_filter f (t : list DataInfo) :
  List.NoDup (List.map id t) -> List.NoDup (List.map id (List.filter f t)).
Proof.
  induction t as [| r t IH]; [trivial |].
  cbn [List.map List.filter]. intros H.
  apply List.NoDup_cons_iff in H as [Hnotin Hnd].
  destruct (f r); [| now apply IH].
  cbn [List.map]. apply List.NoDup_cons_iff. split; [| now apply IH].
  intros Hin. apply Hnotin.
  apply List.in_map_iff in Hin as (x & Hx & Hxin).
  apply List.filter_In in Hxin as [Hxin _].
  apply List.in_map_iff. now exists x.
Qed.

Lemma Forall_filter_keep {A} (P : A -> Prop) f (t : list A) :
  Forall P t -> Forall P (List.filter f t).
Proof.
  induction 1 as [| r t Hr Ht IH]; [constructor |].
  cbn [List.filter]. destruct (f r); [constructor |]; assumption.
Qed.

Lemma table_ok_filter f w :
  table_ok w -> table_ok (set_datainfo (List.filter f (datainfo w)) w).
Proof.
  intros (Hnd & Hpos & Hall). repeat split; cbn [datainfo next_id set_datainfo].
  - now apply NoDup_ids_filter.
  - exact Hpos.
  - now apply Forall_filter_keep.
Qed.

Lemma table_ok_map g w :
  (forall r, id (g r) = id r) ->
  table_ok w -> table_ok (set_datainfo (List.map g (datainfo w)) w).
Proof.
  intros Hg (Hnd & Hpos & Hall). repeat split; cbn [datainfo next_id set_datainfo].
  - rewrite List.map_map.
    rewrite (List.map_ext (fun r => id (g r)) id) by exact Hg. exact Hnd.
  - exact Hpos.
  - apply List.Forall_forall. intros x Hx.
    apply List.in_map_iff in Hx as (r & <- & Hr). rewrite Hg.
    revert r Hr. now apply List.Forall_forall.
Qed.

Lemma table_ok_update_row i g w :
  (forall r, id (g r) = id r) ->
  table_ok w -> table_ok (set_datainfo (update_row i g (datainfo w)) w).
Proof.
  intros Hg. unfold update_row. apply table_ok_map.
  intros r. destruct (id r =? i); [apply Hg | reflexivity].
Qed.

Lemma table_ok_append d w :
  id d = next_id w ->
  table_ok w ->
  table_ok (set_next_id (next_id w + 1) (set_datainfo (datainfo w ++ [d]) w)).
Proof.
  intros Hid (Hnd & Hpos & Hall).
  repeat split; cbn [datainfo next_id set_datainfo set_next_id].
  - rewrite List.map_app. cbn [List.map].
    apply List.NoDup_rev in Hnd. rewrite <- (List.rev_involutive (_ ++ _)).
    apply List.NoDup_rev. rewrite List.rev_app_distr. cbn [List.rev app].
    apply List.NoDup_cons_iff. split; [| exact Hnd].
    rewrite <- List.in_rev. intros Hin.
    apply List.in_map_iff in Hin as (r & Hr & Hrin).
    pose proof (proj1 (List.Forall_forall _ _) Hall r Hrin) as Hb.
    cbn beta in Hb. lia.
  - lia.
  - apply List.Forall_app. split.
    + eapply List.Forall_impl; [| exact Hall]. intros r Hr. cbn beta in *. lia.
    + constructor; [lia | constructor].
Qed.

Lemma keeps_ret {A} (a : A) : keeps_table_ok (ret a).
Proof. intros w H. exact H. Qed.

Lemma keeps_raise {A} e : keeps_table_ok (@raise A e).
Proof. intros w H. exact H. Qed.

Lemma keeps_gets {A} (g : World -> A) : keeps_table_ok (gets g).
Proof. intros w H. exact H. Qed.

Lemma keeps_lift {A} (r : Result A) : keeps_table_ok (lift r).
Proof. intros w H. exact H. Qed.

Lemma keeps_modify_storage f :
  keeps_table_ok (modify (fun w => set_storage (f w) w)).
Proof. intros w H. exact H. Qed.

Lemma keeps_bind {A B} (m : M A) (k : A -> M B) :
  keeps_table_ok m -> (forall a, keeps_table_ok (k a)) ->
  keeps_table_ok (bind m k).
Proof.
  intros Hm Hk w H. unfold bind. specialize (Hm w H).
  destruct (m w) as [[a | e] w1]; [now apply Hk | exact Hm].
Qed.

Lemma keeps_try_except {A} (m : M A) h :
  keeps_table_ok m -> (forall e, keeps_table_ok (h e)) ->
  keeps_table_ok (try_except m h).
Proof.
  intros Hm Hh w H. unfold try_except. specialize (Hm w H).
  destruct (m w) as [[a | e] w1]; [exact Hm | now apply Hh].
Qed.

Lemma keeps_scalar {A} (rows : list A) : keeps_table_ok (scalar rows).
Proof. destruct rows as [| r [| r' rows]]; intros w H; exact H. Qed.

Lemma keeps_session_refresh row : keeps_table_ok (session_refresh row).
Proof. intros w H. exact H. Qed.

Lemma keeps_commit_then {A} upd (k : M A) w :
  table_ok w -> table_ok (upd w) -> keeps_table_ok k ->
  table_ok (snd ((session_commit upd ;;; k) w)).
Proof.
  intros H Hupd Hk. unfold bind, session_commit.
  destruct (List.head (faults w)) as [[msg |] |]; cbn [snd];
    first [ now apply (table_ok_frame w)
          | apply Hk; now apply (table_ok_frame (upd w)) ].
Qed.

Lemma keeps_DataDBQueryCreator fmt : keeps_table_ok (DataDBQueryCreator fmt).
Proof.
  intros w H. rewrite DataDBQueryCreator_eq.
  destruct (List.filter _ (datainfo w)) as [| r0 [| r1 l]]; try exact H.
  cbv zeta. apply keeps_commit_then;
    [exact H | now apply table_ok_append | apply keeps_session_refresh].
Qed.

Lemma keeps_DataDBQueryDestroyer i : keeps_table_ok (DataDBQueryDestroyer i).
Proof.
  intros w H. rewrite DataDBQueryDestroyer_eq.
  destruct (List.filter _ (datainfo w)) as [| r0 [| r1 l]]; try exact H.
  apply keeps_commit_then; [exact H | | apply keeps_ret].
  unfold table_without.
  destruct (is_dir r0).
  - apply (table_ok_filter _ (set_datainfo _ w)). now apply table_ok_filter.
  - now apply table_ok_filter.
Qed.

Lemma keeps_DataDBQueryUpdator n u i : keeps_table_ok (DataDBQueryUpdator n u i).
Proof.
  intros w H. rewrite DataDBQueryUpdator_eq.
  destruct (List.filter _ (datainfo w)) as [| d [| r1 l]]; try exact H.
  cbv zeta. apply keeps_commit_then; [exact H | | apply keeps_session_refresh].
  destruct (is_dir d).
  - apply (table_ok_map _ (set_datainfo _ w)).
    + intros r. destruct (_ && _); reflexivity.
    + now apply table_ok_update_row.
  - now apply table_ok_update_row.
Qed.

Lemma keeps_update_file_automatic i fmt :
  keeps_table_ok (update_file_automatic i fmt).
Proof.
  intros w H. rewrite update_file_automatic_eq.
  destruct (List.filter _ (datainfo w)) as [| d [| r1 l]]; try exact H.
  apply keeps_commit_then; [exact H | | apply keeps_session_refresh].
  now apply table_ok_update_row.
Qed.

Lemma keeps_sync_file_size i p : keeps_table_ok (sync_file_size i p).
Proof.
  intros w H. rewrite sync_file_size_eq.
  destruct (List.filter _ (datainfo w)) as [| d [| r1 l]]; try exact H.
  destruct (storage w !! p) as [o |]; [| exact H].
  cbv zeta. destruct (negb _); [| exact H].
  apply keeps_commit_then; [exact H | | apply keeps_session_refresh].
  now apply table_ok_update_row.
Qed.

Lemma keeps_DataStorageQuery_update p n :
  keeps_table_ok (DataStorageQuery_update p n).
Proof.
  intros w H. unfold DataStorageQuery_update, bind, gets, modify, ret, raise.
  destruct (_ && _); [exact H |].
  destruct (storage w !! p); exact H.
Qed.

Lemma keeps_DataStorageQuery_create p k f :
  keeps_table_ok (DataStorageQuery_create p k f).
Proof. intros w H. unfold DataStorageQuery_create. destruct k; exact H. Qed.

Lemma keeps_DataStorageQuery_destroy p :
  keeps_table_ok (DataStorageQuery_destroy p).
Proof. intros w H. exact H. Qed.

Lemma keeps_os_listdir_len p : keeps_table_ok (os_listdir_len p).
Proof.
  intros w H. unfold os_listdir_len, bind, gets, ret, raise.
  destruct (storage w !! p) as [[|] |]; exact H.
Qed.

Create HintDb keeps.

#[local] Hint Resolve keeps_ret keeps_raise keeps_gets keeps_lift keeps_scalar
  keeps_session_refresh keeps_DataDBQueryCreator keeps_DataDBQueryDestroyer
  keeps_DataDBQueryUpdator keeps_update_file_automatic keeps_sync_file_size
  keeps_DataStorageQuery_update keeps_DataStorageQuery_create
  keeps_DataStorageQuery_destroy keeps_os_listdir_len : keeps.

Ltac keeps_step :=
  first
    [ assumption
    | solve [auto with keeps]
    | apply keeps_bind; [| intros ?]
    | apply keeps_try_except; [| intros ?]
    | match goal with
      | |- keeps_table_ok (match ?x with _ => _ end) => destruct x
      | |- keeps_table_ok (if ?b then _ else _) => destruct b
      end ].

Ltac keeps_unfold H := unfold H; cbv zeta; repeat keeps_step.

Lemma keeps_DataDBQueryReader u k i fr : keeps_table_ok (DataDBQueryReader u k i fr).
Proof. keeps_unfold DataDBQueryReader. Qed.

Lemma keeps_DataStorageQuery_read p k : keeps_table_ok (DataStorageQuery_read p k).
Proof. keeps_unfold DataStorageQuery_read. Qed.

Lemma keeps_UserDBQuery_read_id u : keeps_table_ok (UserDBQuery_read_id u).
Proof. keeps_unfold UserDBQuery_read_id. Qed.

Lemma keeps_UserDBQuery_read_email e : keeps_table_ok (UserDBQuery_read_email e).
Proof. keeps_unfold UserDBQuery_read_email. Qed.

Lemma keeps_DataInfoCreate_new n u r k z : keeps_table_ok (DataInfoCreate_new n u r k z).
Proof. keeps_unfold DataInfoCreate_new. Qed.

Lemma keeps_DataInfoUpdate_new n r u : keeps_table_ok (DataInfoUpdate_new n r u).
Proof. keeps_unfold DataInfoUpdate_new. Qed.

#[local] Hint Resolve keeps_DataDBQueryReader keeps_DataStorageQuery_read
  keeps_UserDBQuery_read_id keeps_UserDBQuery_read_email
  keeps_DataInfoCreate_new keeps_DataInfoUpdate_new : keeps.

Lemma keeps_storage_occupied p : keeps_table_ok (storage_occupied p).
Proof. keeps_unfold storage_occupied. Qed.

Lemma keeps_parent_dir_root i u : keeps_table_ok (parent_dir_root i u).
Proof. keeps_unfold parent_dir_root. Qed.

Lemma keeps_check_permission dec lg t u : keeps_table_ok (check_permission dec lg t u).
Proof. keeps_unfold check_permission. Qed.

#[local] Hint Resolve keeps_storage_occupied keeps_parent_dir_root
  keeps_check_permission : keeps.

Lemma keeps_DataFileCRUDManager_create srv i u f :
  keeps_table_ok (DataFileCRUDManager_create srv i u f).
Proof. keeps_unfold DataFileCRUDManager_create. Qed.

Lemma keeps_DataDirectoryCRUDManager_create srv i u n :
  keeps_table_ok (DataDirectoryCRUDManager_create srv i u n).
Proof. keeps_unfold DataDirectoryCRUDManager_create. Qed.

Lemma keeps_DataFileCRUDManager_update srv u i n :
  keeps_table_ok (DataFileCRUDManager_update srv u i n).
Proof. keeps_unfold DataFileCRUDManager_update. Qed.

Lemma keeps_DataDirectoryCRUDManager_update srv u i n :
  keeps_table_ok (DataDirectoryCRUDManager_update srv u i n).
Proof. keeps_unfold DataDirectoryCRUDManager_update. Qed.

Lemma keeps_DataFileCRUDManager_destroy srv u i :
  keeps_table_ok (DataFileCRUDManager_destroy srv u i).
Proof. keeps_unfold DataFileCRUDManager_destroy. Qed.

Lemma keeps_DataDirectoryCRUDManager_destroy srv u i :
  keeps_table_ok (DataDirectoryCRUDManager_destroy srv u i).
Proof. keeps_unfold DataDirectoryCRUDManager_destroy. Qed.

Lemma keeps_DataFileCRUDManager_read p : keeps_table_ok (DataFileCRUDManager_read p).
Proof. keeps_unfold DataFileCRUDManager_read. Qed.

Lemma keeps_DataDirectoryCRUDManager_read p :
  keeps_table_ok (DataDirectoryCRUDManager_read p).
Proof. keeps_unfold DataDirectoryCRUDManager_read. Qed.

#[local] Hint Resolve keeps_DataFileCRUDManager_create
  keeps_DataDirectoryCRUDManager_create keeps_DataFileCRUDManager_update
  keeps_DataDirectoryCRUDManager_update keeps_DataFileCRUDManager_destroy
  keeps_DataDirectoryCRUDManager_destroy keeps_DataFileCRUDManager_read
  keeps_DataDirectoryCRUDManager_read : keeps.

(** X8: the four entry points keep the table well-formed, whatever the
    request and whatever the outcome, failed commits included: ids stay
    positive, pairwise different and below the next id. *)
Theorem entry_points_keep_the_primary_key
    (srv token : string) (uid data_id : Z)
    (decode_token : string -> Result (string * string))
    (is_login : string -> bool) (w : World) :
  table_ok w ->
  (forall req_file req_dirname,
     table_ok (snd (DataManager_create srv decode_token is_login token uid
                      data_id req_file req_dirname w)))
  /\ (forall mode,
        table_ok (snd (DataManager_read srv decode_token is_login token uid
                         data_id mode w)))
  /\ (forall new_name,
        table_ok (snd (DataManager_update srv decode_token is_login token uid
                         data_id new_name w)))
  /\ table_ok (snd (DataManager_destroy srv decode_token is_login token uid
                      data_id w)).
Proof.
  intros H. split; [| split; [| split]]; intros;
    match goal with |- table_ok (snd (?m w)) =>
      assert (Hk : keeps_table_ok m); [| now apply Hk]
    end.
  - keeps_unfold DataManager_create.
  - keeps_unfold DataManager_read.
  - keeps_unfold DataManager_update.
  - keeps_unfold DataManager_destroy.
Qed.

Lemma entry_points_keep_the_primary_key_witness :
  table_ok (snd (DataManager_destroy "/srv" login_tokens login_kind
                   "token-of-alice" 1 2
                   (world_of nested_tree 5 [alice] ∅ []))).
Proof.
  apply (entry_points_keep_the_primary_key "/srv" "token-of-alice" 1 2
           login_tokens login_kind (world_of nested_tree 5 [alice] ∅ [])).
  repeat split.
  - repeat constructor; cbn; intuition discriminate.
  - repeat constructor.
Defined.

(** ** Which paths an operation may change *)

Lemma ks_ret {A} (a : A) : keeps_storage (ret a).
Proof. intros w. reflexivity. Qed.

Lemma ks_raise {A} e : keeps_storage (@raise A e).
Proof. intros w. reflexivity. Qed.

Lemma ks_gets {A} (g : World -> A) : keeps_storage (gets g).
Proof. intros w. reflexivity. Qed.

Lemma ks_lift {A} (r : Result A) : keeps_storage (lift r).
Proof. intros w. reflexivity. Qed.

Lemma ks_bind {A B} (m : M A) (k : A -> M B) :
  keeps_storage m -> (forall a, keeps_storage (k a)) -> keeps_storage (bind m k).
Proof.
  intros Hm Hk w. unfold bind. specialize (Hm w).
  destruct (m w) as [[a | e] w1]; cbn [snd] in *; [| exact Hm].
  now rewrite Hk.
Qed.

Lemma ks_try_except {A} (m : M A) h :
  keeps_storage m -> (forall e, keeps_storage (h e)) ->
  keeps_storage (try_except m h).
Proof.
  intros Hm Hh w. unfold try_except. specialize (Hm w).
  destruct (m w) as [[a | e] w1]; cbn [snd] in *; [exact Hm |].
  now rewrite Hh.
Qed.

Lemma ks_scalar {A} (rows : list A) : keeps_storage (scalar rows).
Proof. destruct rows as [| r [| r' rows]]; intros w; reflexivity. Qed.

Lemma ks_session_commit upd :
  (forall w, storage (upd w) = storage w) -> keeps_storage (session_commit upd).
Proof.
  intros Hupd w. unfold session_commit.
  destruct (List.head (faults w)) as [[msg |] |]; cbn [snd storage set_faults];
    first [reflexivity | apply Hupd].
Qed.

Create HintDb ks.

#[local] Hint Resolve ks_ret ks_raise ks_gets ks_lift ks_scalar : ks.

Ltac ks_step :=
  first
    [ assumption
    | solve [auto with ks]
    | apply ks_session_commit; intros ?; reflexivity
    | apply ks_bind; [| intros ?]
    | apply ks_try_except; [| intros ?]
    | match goal with
      | |- keeps_storage (match ?x with _ => _ end) => destruct x
      | |- keeps_storage (if ?b then _ else _) => destruct b
      end ].

Ltac ks_unfold H := unfold H; cbv zeta; repeat ks_step.

Lemma ks_session_refresh row : keeps_storage (session_refresh row).
Proof. ks_unfold session_refresh. Qed.
#[local] Hint Resolve ks_session_refresh : ks.

Lemma ks_DataDBQueryCreator fmt : keeps_storage (DataDBQueryCreator fmt).
Proof. ks_unfold DataDBQueryCreator. Qed.

Lemma ks_DataDBQueryDestroyer i : keeps_storage (DataDBQueryDestroyer i).
Proof. ks_unfold DataDBQueryDestroyer. Qed.

Lemma ks_DataDBQueryReader u k i fr : keeps_storage (DataDBQueryReader u k i fr).
Proof. ks_unfold DataDBQueryReader. Qed.

Lemma ks_DataDBQueryUpdator n u i : keeps_storage (DataDBQueryUpdator n u i).
Proof. ks_unfold DataDBQueryUpdator. Qed.

Lemma ks_update_file_automatic i fmt : keeps_storage (update_file_automatic i fmt).
Proof. ks_unfold update_file_automatic. Qed.

Lemma ks_os_path_getsize p : keeps_storage (os_path_getsize p).
Proof. ks_unfold os_path_getsize. Qed.

Lemma ks_os_listdir_len p : keeps_storage (os_listdir_len p).
Proof. ks_unfold os_listdir_len. Qed.
#[local] Hint Resolve ks_os_path_getsize ks_os_listdir_len : ks.

Lemma ks_sync_file_size i p : keeps_storage (sync_file_size i p).
Proof. ks_unfold sync_file_size. Qed.

Lemma ks_DataStorageQuery_read p k : keeps_storage (DataStorageQuery_read p k).
Proof. ks_unfold DataStorageQuery_read. Qed.

Lemma ks_DataInfoCreate_new n u r k z : keeps_storage (DataInfoCreate_new n u r k z).
Proof. ks_unfold DataInfoCreate_new. Qed.

Lemma ks_UserDBQuery_read_id u : keeps_storage (UserDBQuery_read_id u).
Proof. ks_unfold UserDBQuery_read_id. Qed.

Lemma ks_UserDBQuery_read_email e : keeps_storage (UserDBQuery_read_email e).
Proof. ks_unfold UserDBQuery_read_email. Qed.

#[local] Hint Resolve ks_DataDBQueryCreator ks_DataDBQueryDestroyer
  ks_DataDBQueryReader ks_DataDBQueryUpdator ks_update_file_automatic
  ks_sync_file_size ks_DataStorageQuery_read ks_DataInfoCreate_new
  ks_UserDBQuery_read_id ks_UserDBQuery_read_email : ks.

Lemma ks_storage_occupied p : keeps_storage (storage_occupied p).
Proof. ks_unfold storage_occupied. Qed.

Lemma ks_parent_dir_root i u : keeps_storage (parent_dir_root i u).
Proof. ks_unfold parent_dir_root. Qed.

Lemma ks_check_permission dec lg t u : keeps_storage (check_permission dec lg t u).
Proof. ks_unfold check_permission. Qed.

Lemma ks_DataFileCRUDManager_read p : keeps_storage (DataFileCRUDManager_read p).
Proof. ks_unfold DataFileCRUDManager_read. Qed.

Lemma ks_DataDirectoryCRUDManager_read p :
  keeps_storage (DataDirectoryCRUDManager_read p).
Proof. ks_unfold DataDirectoryCRUDManager_read. Qed.

#[local] Hint Resolve ks_storage_occupied ks_parent_dir_root
  ks_check_permission ks_DataFileCRUDManager_read
  ks_DataDirectoryCRUDManager_read : ks.

(** X9: a read, in any mode and whatever its outcome, leaves the physical
    store exactly as it was; the self-healing delete and the size
    correction only write to the table. *)
Theorem read_never_writes_to_the_physical_store
    (srv token : string) (uid data_id : Z)
    (decode_token : string -> Result (string * string))
    (is_login : string -> bool) (mode : Mode) (w : World) :
  storage (snd (DataManager_read srv decode_token is_login token uid data_id
                  mode w))
  = storage w.
Proof.
  assert (Hk : keeps_storage
            (DataManager_read srv decode_token is_login token uid data_id mode))
    by ks_unfold DataManager_read.
  apply Hk.
Qed.

Lemma ks_run {A} (m : M A) w r w' :
  keeps_storage m -> m w = (r, w') -> storage w' = storage w.
Proof. intros Hk Hrun. specialize (Hk w). now rewrite Hrun in Hk. Qed.

Lemma to_of_ks {A} p (m : M A) : keeps_storage m -> touches_only p m.
Proof. intros H w k _ _. now rewrite H. Qed.

Lemma to_bind {A B} p (m : M A) (k : A -> M B) :
  touches_only p m -> (forall a, touches_only p (k a)) ->
  touches_only p (bind m k).
Proof.
  intros Hm Hk w x Hne Hout. unfold bind. specialize (Hm w x Hne Hout).
  destruct (m w) as [[a | e] w1]; cbn [snd] in *; [| exact Hm].
  now rewrite Hk.
Qed.

Lemma to_try_except {A} p (m : M A) h :
  touches_only p m -> (forall e, touches_only p (h e)) ->
  touches_only p (try_except m h).
Proof.
  intros Hm Hh w x Hne Hout. unfold try_except. specialize (Hm w x Hne Hout).
  destruct (m w) as [[a | e] w1]; cbn [snd] in *; [exact Hm |].
  now rewrite Hh.
Qed.

Lemma to_DataStorageQuery_destroy p : touches_only p (DataStorageQuery_destroy p).
Proof.
  intros w k Hne Hout. cbn [DataStorageQuery_destroy modify snd storage set_storage].
  apply option_eq. intros o. rewrite map_lookup_filter_Some. cbn [fst].
  apply String.eqb_neq in Hne. rewrite Hne, Hout. tauto.
Qed.

Lemma to_DataStorageQuery_create p k f :
  touches_only p (DataStorageQuery_create p k f).
Proof.
  intros w x Hne Hout. unfold DataStorageQuery_create.
  destruct k; cbn [bind modify ret snd storage set_storage];
    now rewrite lookup_insert_ne.
Qed.

Ltac to_step :=
  first
    [ assumption
    | apply to_DataStorageQuery_destroy
    | apply to_DataStorageQuery_create
    | solve [apply to_of_ks; auto with ks]
    | apply to_bind; [| intros ?]
    | apply to_try_except; [| intros ?]
    | match goal with
      | |- touches_only _ (match ?x with _ => _ end) => destruct x
      | |- touches_only _ (if ?b then _ else _) => destruct b
      end ].

Ltac to_solve := cbv beta zeta; repeat to_step.

Lemma create_file_touches_only_its_target srv root_id uid file w dir_root :
  parent_dir_root root_id uid w = (Ok dir_root, w) ->
  forall k,
    k <> raw_path srv uid dir_root (last_piece (split_slash (filename file))) ->
    is_under (raw_path srv uid dir_root
                (last_piece (split_slash (filename file)))) k = false ->
    storage (snd (DataFileCRUDManager_create srv root_id uid file w)) !! k
    = storage w !! k.
Proof.
  intros Hp k Hne Hout. unfold DataFileCRUDManager_create.
  rewrite (bind_ok _ _ w (List.find (fun u => u_id u =? uid) (users w)) w)
    by reflexivity.
  destruct (List.find _ (users w)); [| reflexivity].
  rewrite (bind_ok _ _ _ _ _ Hp). cbv beta zeta.
  match goal with |- storage (snd (?m w)) !! _ = _ =>
    assert (Hto : touches_only
              (raw_path srv uid dir_root
                 (last_piece (split_slash (filename file)))) m)
      by to_solve
  end.
  now apply Hto.
Qed.

Lemma create_directory_touches_only_its_target srv root_id uid dirname w dir_root :
  parent_dir_root root_id uid w = (Ok dir_root, w) ->
  forall k,
    k <> raw_path srv uid dir_root dirname ->
    is_under (raw_path srv uid dir_root dirname) k = false ->
    storage (snd (DataDirectoryCRUDManager_create srv root_id uid dirname w)) !! k
    = storage w !! k.
Proof.
  intros Hp k Hne Hout. unfold DataDirectoryCRUDManager_create.
  rewrite (bind_ok _ _ w (List.find (fun u => u_id u =? uid) (users w)) w)
    by reflexivity.
  destruct (List.find _ (users w)); [| reflexivity].
  rewrite (bind_ok _ _ _ _ _ Hp). cbv beta zeta.
  match goal with |- storage (snd (?m w)) !! _ = _ =>
    assert (Hto : touches_only (raw_path srv uid dir_root dirname) m)
      by to_solve
  end.
  now apply Hto.
Qed.

(** X10: a create, of a file or of a directory and whatever its outcome,
    whose target path is in normal form (the target name is not empty, [.]
    or [..], nor is any component of the parent path) changes the physical
    store at most at the target path and below it: the cleaning of a stale
    object, the write and the compensation all act there, and every other
    path in normal form keeps what it held.  A target name that is empty,
    as for a filename ending in a slash, or [..] makes the path name a
    directory above the target; such a create is outside this statement. *)
Theorem create_touches_only_its_target
    (srv token : string) (uid data_id : Z)
    (decode_token : string -> Result (string * string))
    (is_login : string -> bool)
    (req_file : option UploadFile) (req_dirname : option string)
    (w : World) (dir_root : string) (k : string) :
  parent_dir_root data_id uid w = (Ok dir_root, w) ->
  proper_path (raw_path srv uid dir_root
                 (create_target_name req_file req_dirname)) = true ->
  proper_path k = true ->
  k <> raw_path srv uid dir_root (create_target_name req_file req_dirname) ->
  is_under (raw_path srv uid dir_root
              (create_target_name req_file req_dirname)) k = false ->
  storage (snd (DataManager_create srv decode_token is_login token uid data_id
                  req_file req_dirname w)) !! k
  = storage w !! k.
Proof.
  intros Hp _ _ Hne Hout. unfold DataManager_create. unfold bind at 1.
  destruct (check_permission decode_token is_login token uid w)
    as [[[] | e] w1] eqn:Hchk;
    pose proof (check_permission_world _ _ _ _ _ _ _ Hchk) as ->;
    [| reflexivity].
  destruct req_file as [file |]; cbn [create_target_name] in *.
  - unfold bind.
    pose proof (create_file_touches_only_its_target srv data_id uid file w
                  dir_root Hp k Hne Hout) as Hframe.
    destruct (DataFileCRUDManager_create srv data_id uid file w)
      as [[d | e] w1]; exact Hframe.
  - destruct (truthy_str req_dirname); [| reflexivity].
    unfold bind.
    pose proof (create_directory_touches_only_its_target srv data_id uid
                  (default EmptyString req_dirname) w dir_root Hp k Hne Hout)
      as Hframe.
    destruct (DataDirectoryCRUDManager_create srv data_id uid _ w)
      as [[d | e] w1]; exact Hframe.
Qed.

Lemma create_touches_only_its_target_witness :
  storage (snd (DataManager_create "/srv" login_tokens login_kind
                  "token-of-alice" 1 0 (Some a_txt) None two_files_world))
    !! "/srv/storage/1/root/keep.txt"
  = storage two_files_world !! "/srv/storage/1/root/keep.txt".
Proof.
  apply (create_touches_only_its_target "/srv" "token-of-alice" 1 0
           login_tokens login_kind (Some a_txt) None two_files_world "/");
    [reflexivity | reflexivity | reflexivity | discriminate | reflexivity].
Defined.

(** ** What a successful create leaves in the physical store *)

Lemma prefix_length a b :
  String.prefix a b = true -> (String.length a <= String.length b)%nat.
Proof.
  revert b. induction a as [| c a IH]; intros b H; [cbn; lia |].
  destruct b as [| c' b]; [discriminate |].
  cbn in H. destruct (ascii_dec c c'); [| discriminate].
  cbn. apply IH in H. lia.
Qed.

Lemma length_append a b :
  String.length (a +:+ b) = (String.length a + String.length b)%nat.
Proof.
  induction a as [| c a IH]; [reflexivity |].
  change (String c a +:+ b) with (String c (a +:+ b)).
  cbn [String.length]. now rewrite IH.
Qed.

Lemma is_under_ne p k : is_under p k = true -> k <> p.
Proof.
  unfold is_under. intros H ->. apply prefix_length in H.
  rewrite length_append in H. cbn in H. lia.
Qed.

Lemma storage_occupied_run p w :
  storage_occupied p w
  = (Ok (match storage w !! p with Some _ => true | None => false end), w).
Proof.
  unfold storage_occupied, DataStorageQuery_read, bind, gets, ret. cbv beta.
  destruct (storage w !! p) as [[bytes |] |] eqn:Hlook; cbn [negb]; cbv beta;
    rewrite ?Hlook; reflexivity.
Qed.

(** The store after the cleaning of the target and the write of [o]. *)
Lemma written_over_cleaned_target p o (st : gmap string PhysObj) :
  let cleaned := filter (fun kv : string * PhysObj =>
                   String.eqb kv.1 p || is_under p kv.1 = false) st in
  <[p := o]> cleaned !! p = Some o
  /\ forall k, is_under p k = true -> <[p := o]> cleaned !! k = None.
Proof.
  cbv zeta. split; [apply lookup_insert_eq |].
  intros k Hk. rewrite lookup_insert_ne by (apply not_eq_sym, is_under_ne, Hk).
  apply map_lookup_filter_None. right. intros x _. cbn [fst].
  rewrite Hk, orb_true_r. discriminate.
Qed.

Lemma create_file_leaves_the_file srv root_id uid file w d w' dir_root :
  parent_dir_root root_id uid w = (Ok dir_root, w) ->
  DataFileCRUDManager_create srv root_id uid file w = (Ok d, w') ->
  let p := raw_path srv uid dir_root
             (last_piece (split_slash (filename file))) in
  storage w' !! p = Some (PFile (content file))
  /\ (is_Some (storage w !! p) ->
      forall k, is_under p k = true -> storage w' !! k = None).
Proof.
  intros Hp H p. unfold DataFileCRUDManager_create in H.
  rewrite (bind_ok _ _ w (List.find (fun u => u_id u =? uid) (users w)) w) in H
    by reflexivity.
  destruct (List.find _ (users w)); [| discriminate].
  rewrite (bind_ok _ _ _ _ _ Hp) in H. cbv beta zeta in H. fold p in H.
  destruct (DataDBQueryReader (Some uid) None None
              (Some (dir_root, last_piece (split_slash (filename file)))) w)
    as [[info | e] w1] eqn:Hr;
    pose proof (DataDBQueryReader_world _ _ _ _ _ _ _ Hr) as ->;
    [rewrite (bind_ok _ _ _ _ _ Hr) in H
    | rewrite (bind_raise _ _ _ _ _ Hr) in H; discriminate].
  unfold bind at 1 in H.
  destruct (negb _ && _); [discriminate |].
  rewrite (bind_ok _ _ _ _ _ (storage_occupied_run p w)) in H.
  unfold bind at 1 in H. unfold DataInfoCreate_new at 1 in H.
  destruct (storage w !! p) as [o |] eqn:Hlook.
  - rewrite DataStorageQuery_destroy_run in H.
    destruct (valid_name _); [| discriminate].
    unfold ret at 1 in H. unfold bind at 1 in H.
    unfold DataStorageQuery_create at 1 in H.
    unfold bind at 1, modify, ret at 1 in H.
    apply try_except_reraise_ok in H.
    assert (Hst : storage w'
                  = <[p := PFile (content file)]>
                      (filter (fun kv : string * PhysObj =>
                         String.eqb kv.1 p || is_under p kv.1 = false)
                         (storage w))).
    { destruct (negb _) in H;
        [ apply (ks_run _ _ _ _ (ks_update_file_automatic _ _)) in H
        | apply (ks_run _ _ _ _ (ks_DataDBQueryCreator _)) in H ];
        exact H. }
    rewrite Hst.
    destruct (written_over_cleaned_target p (PFile (content file)) (storage w))
      as [Hat Hbelow].
    split; [exact Hat | intros _; exact Hbelow].
  - unfold ret at 1 in H.
    destruct (valid_name _); [| discriminate].
    unfold ret at 1 in H. unfold bind at 1 in H.
    unfold DataStorageQuery_create at 1 in H.
    unfold bind at 1, modify, ret at 1 in H.
    apply try_except_reraise_ok in H.
    assert (Hst : storage w' = <[p := PFile (content file)]> (storage w)).
    { destruct (negb _) in H;
        [ apply (ks_run _ _ _ _ (ks_update_file_automatic _ _)) in H
        | apply (ks_run _ _ _ _ (ks_DataDBQueryCreator _)) in H ];
        exact H. }
    rewrite Hst. split; [apply lookup_insert_eq |].
    intros [x Hx]. discriminate.
Qed.

Lemma create_directory_leaves_the_directory srv root_id uid dirname w d w'
    dir_root :
  parent_dir_root root_id uid w = (Ok dir_root, w) ->
  DataDirectoryCRUDManager_create srv root_id uid dirname w = (Ok d, w') ->
  let p := raw_path srv uid dir_root dirname in
  storage w' !! p = Some PDir
  /\ (is_Some (storage w !! p) ->
      forall k, is_under p k = true -> storage w' !! k = None).
Proof.
  intros Hp H p. unfold DataDirectoryCRUDManager_create in H.
  rewrite (bind_ok _ _ w (List.find (fun u => u_id u =? uid) (users w)) w) in H
    by reflexivity.
  destruct (List.find _ (users w)); [| discriminate].
  rewrite (bind_ok _ _ _ _ _ Hp) in H. cbv beta zeta in H. fold p in H.
  destruct (DataDBQueryReader (Some uid) None None (Some (dir_root, dirname)) w)
    as [[info | e] w1] eqn:Hr;
    pose proof (DataDBQueryReader_world _ _ _ _ _ _ _ Hr) as ->;
    [rewrite (bind_ok _ _ _ _ _ Hr) in H
    | rewrite (bind_raise _ _ _ _ _ Hr) in H; discriminate].
  destruct (negb _); [discriminate |].
  rewrite (bind_ok _ _ _ _ _ (storage_occupied_run p w)) in H.
  unfold bind at 1 in H.
  destruct (storage w !! p) as [o |] eqn:Hlook.
  - rewrite DataStorageQuery_destroy_run in H.
    unfold bind at 1 in H. unfold DataInfoCreate_new at 1 in H.
    destruct (valid_name _); [| discriminate].
    unfold ret at 1 in H. unfold bind at 1 in H.
    unfold DataStorageQuery_create at 1 in H.
    unfold bind at 1, modify, ret at 1 in H.
    apply try_except_reraise_ok in H.
    apply (ks_run _ _ _ _ (ks_DataDBQueryCreator _)) in H.
    cbn [storage set_storage] in H. rewrite H.
    destruct (written_over_cleaned_target p PDir (storage w)) as [Hat Hbelow].
    split; [exact Hat | intros _; exact Hbelow].
  - unfold ret at 1 in H.
    unfold bind at 1 in H. unfold DataInfoCreate_new at 1 in H.
    destruct (valid_name _); [| discriminate].
    unfold ret at 1 in H. unfold bind at 1 in H.
    unfold DataStorageQuery_create at 1 in H.
    unfold bind at 1, modify, ret at 1 in H.
    apply try_except_reraise_ok in H.
    apply (ks_run _ _ _ _ (ks_DataDBQueryCreator _)) in H.
    cbn [storage set_storage] in H. rewrite H.
    split; [apply lookup_insert_eq |]. intros [x Hx]. discriminate.
Qed.

(** X11: after a create that returns a record, the target path holds what
    was asked for, the uploaded bytes or a directory; and when something
    already lay at the target, a stale object or the previous upload,
    nothing of what was below it is left. *)
Theorem successful_create_leaves_the_requested_object
    (srv token : string) (uid data_id : Z)
    (decode_token : string -> Result (string * string))
    (is_login : string -> bool)
    (req_file : option UploadFile) (req_dirname : option string)
    (w : World) (dir_root : string) (d : DataInfo) (w' : World) :
  parent_dir_root data_id uid w = (Ok dir_root, w) ->
  DataManager_create srv decode_token is_login token uid data_id req_file
    req_dirname w = (Ok (Some d), w') ->
  let p := raw_path srv uid dir_root
             (create_target_name req_file req_dirname) in
  storage w' !! p = Some (create_target_object req_file)
  /\ (is_Some (storage w !! p) ->
      forall k, is_under p k = true -> storage w' !! k = None).
Proof.
  intros Hp H. unfold DataManager_create in H.
  apply bind_inv_ok in H as ([] & w1 & Hchk & H).
  pose proof (check_permission_world _ _ _ _ _ _ _ Hchk) as ->.
  destruct req_file as [file |]; cbn [create_target_name create_target_object].
  - apply bind_inv_ok in H as (d1 & w2 & H & Hret).
    unfold ret in Hret. injection Hret as _ <-.
    exact (create_file_leaves_the_file _ _ _ _ _ _ _ _ Hp H).
  - destruct (truthy_str req_dirname); [| discriminate].
    apply bind_inv_ok in H as (d1 & w2 & H & Hret).
    unfold ret in Hret. injection Hret as _ <-.
    exact (create_directory_leaves_the_directory _ _ _ _ _ _ _ _ Hp H).
Qed.

Lemma successful_create_leaves_the_requested_object_witness :
  let w' := snd (DataManager_create "/srv" login_tokens login_kind
                   "token-of-alice" 1 0 None (Some "mydir") orphan_world) in
  storage w' !! "/srv/storage/1/root/mydir" = Some PDir
  /\ storage w' !! "/srv/storage/1/root/mydir/old.txt" = None.
Proof.
  intros w'.
  destruct (successful_create_leaves_the_requested_object "/srv"
              "token-of-alice" 1 0 login_tokens login_kind None (Some "mydir")
              orphan_world "/" (mkDataInfo 1 "/" "mydir" true 0 false 0 1) w')
    as [Hat Hbelow].
  - reflexivity.
  - vm_compute. reflexivity.
  - split; [exact Hat |].
    apply Hbelow; [eexists; reflexivity | reflexivity].
Defined.

(** ** Creates that are refused *)

Lemma UserDBQuery_read_id_run uid w :
  UserDBQuery_read_id uid w
  = (Ok (List.find (fun u => u_id u =? uid) (users w)), w).
Proof. reflexivity. Qed.

(** X12: a create is refused with [DataAlreadyExists], and changes nothing
    in either store, when the one row of the table at the target parent
    path and name is a directory and a file is uploaded, or is of any kind
    and a directory is asked for. *)
Theorem create_over_an_occupied_slot_is_refused
    (srv token email issue : string) (operator target : User)
    (uid data_id : Z)
    (decode_token : string -> Result (string * string))
    (is_login : string -> bool)
    (req_file : option UploadFile) (req_dirname : option string)
    (w : World) (dir_root : string) (d : DataInfo) :
  decode_token token = Ok (email, issue) ->
  List.find (fun u => String.eqb (u_email u) email) (users w) = Some operator ->
  identity_permitted is_login issue operator uid = true ->
  List.find (fun u => u_id u =? uid) (users w) = Some target ->
  parent_dir_root data_id uid w = (Ok dir_root, w) ->
  List.filter (fun x => String.eqb (root x) dir_root
                        && String.eqb (name x)
                             (create_target_name req_file req_dirname))
    (datainfo w) = [d] ->
  id d <> 0 ->
  match req_file with
  | Some _ => is_dir d = true
  | None => truthy_str req_dirname = true
  end ->
  DataManager_create srv decode_token is_login token uid data_id req_file
    req_dirname w = (Raise DataAlreadyExists, w).
Proof.
  intros Hdec Hop Hp Hu Hparent Hslot Hid Hreq. unfold DataManager_create.
  rewrite (bind_ok _ _ _ _ _
             (check_permission_granted _ _ _ _ _ _ _ Hdec _ Hop Hp)).
  apply Z.eqb_neq in Hid.
  destruct req_file as [file |]; cbn [create_target_name] in Hslot.
  - apply bind_raise. unfold DataFileCRUDManager_create.
    rewrite (bind_ok _ _ _ _ _ (UserDBQuery_read_id_run uid w)), Hu.
    rewrite (bind_ok _ _ _ _ _ Hparent). cbv beta zeta.
    rewrite (bind_ok _ _ _ _ _
               (DataDBQueryReader_full_root_run _ _ _ _ _ Hslot)).
    rewrite Hid, Hreq. reflexivity.
  - rewrite Hreq. apply bind_raise. unfold DataDirectoryCRUDManager_create.
    rewrite (bind_ok _ _ _ _ _ (UserDBQuery_read_id_run uid w)), Hu.
    rewrite (bind_ok _ _ _ _ _ Hparent). cbv beta zeta.
    rewrite (bind_ok _ _ _ _ _
               (DataDBQueryReader_full_root_run _ _ _ _ _ Hslot)).
    rewrite Hid. reflexivity.
Qed.

Lemma create_over_an_occupied_slot_is_refused_witness :
  DataManager_create "/srv" login_tokens login_kind "token-of-alice" 1 0
    None (Some "a.txt") two_files_world
  = (Raise DataAlreadyExists, two_files_world).
Proof.
  apply (create_over_an_occupied_slot_is_refused "/srv" "token-of-alice"
           "alice@example.com" "login" alice alice 1 0 login_tokens login_kind
           None (Some "a.txt") two_files_world "/" alices_file);
    first [reflexivity | discriminate].
Defined.

(** X13: a create under a parent id that names no row, or names a file,
    raises [DataNotFound] and changes nothing in either store, whatever is
    to be created. *)
Theorem create_under_a_missing_or_file_parent
    (srv token email issue : string) (operator target : User)
    (uid data_id : Z)
    (decode_token : string -> Result (string * string))
    (is_login : string -> bool)
    (req_file : option UploadFile) (req_dirname : option string)
    (w : World) :
  decode_token token = Ok (email, issue) ->
  List.find (fun u => String.eqb (u_email u) email) (users w) = Some operator ->
  identity_permitted is_login issue operator uid = true ->
  List.find (fun u => u_id u =? uid) (users w) = Some target ->
  data_id <> 0 ->
  (List.filter (fun r => id r =? data_id) (datainfo w) = []
   \/ exists d, List.filter (fun r => id r =? data_id) (datainfo w) = [d]
                /\ is_dir d = false) ->
  (req_file <> None \/ truthy_str req_dirname = true) ->
  DataManager_create srv decode_token is_login token uid data_id req_file
    req_dirname w = (Raise DataNotFound, w).
Proof.
  intros Hdec Hop Hp Hu Hid Hrows Hreq. unfold DataManager_create.
  rewrite (bind_ok _ _ _ _ _
             (check_permission_granted _ _ _ _ _ _ _ Hdec _ Hop Hp)).
  assert (Hparent : parent_dir_root data_id uid w = (Raise DataNotFound, w)).
  { destruct Hrows as [Hnone | (d & Hone & Hkind)].
    - unfold parent_dir_root. apply Z.eqb_neq in Hid. rewrite Hid. cbn [negb].
      now rewrite (bind_ok _ _ _ _ _
                     (DataDBQueryReader_by_id_absent _ _ _ _ Hnone)).
    - now apply (parent_dir_root_rejects_file _ _ d). }
  destruct req_file as [file |].
  - apply bind_raise. unfold DataFileCRUDManager_create.
    rewrite (bind_ok _ _ _ _ _ (UserDBQuery_read_id_run uid w)), Hu.
    now rewrite (bind_raise _ _ _ _ _ Hparent).
  - destruct Hreq as [Hreq | Hreq]; [congruence |]. rewrite Hreq.
    apply bind_raise. unfold DataDirectoryCRUDManager_create.
    rewrite (bind_ok _ _ _ _ _ (UserDBQuery_read_id_run uid w)), Hu.
    now rewrite (bind_raise _ _ _ _ _ Hparent).
Qed.

Lemma create_under_a_missing_or_file_parent_witness :
  DataManager_create "/srv" login_tokens login_kind "token-of-alice" 1 1
    (Some hi_txt) None two_files_world
  = (Raise DataNotFound, two_files_world).
Proof.
  apply (create_under_a_missing_or_file_parent "/srv" "token-of-alice"
           "alice@example.com" "login" alice alice 1 1 login_tokens login_kind
           (Some hi_txt) None two_files_world);
    first [reflexivity | discriminate | idtac].
  - right. exists alices_file. split; reflexivity.
  - left. discriminate.
Defined.

(** ** Entry points on a target that is not there *)

(** X14: for a caller who passes the permission check, a read for a user
    id that names no user raises [UserNotFound]; a read for an existing
    user, a rename and a delete of a data id that names no row raise
    [DataNotFound]; none of these changes anything in either store. *)
Theorem entry_points_on_a_missing_target
    (srv token email issue : string) (operator : User) (uid data_id : Z)
    (decode_token : string -> Result (string * string))
    (is_login : string -> bool) (w : World) :
  decode_token token = Ok (email, issue) ->
  List.find (fun u => String.eqb (u_email u) email) (users w) = Some operator ->
  identity_permitted is_login issue operator uid = true ->
  (List.find (fun u => u_id u =? uid) (users w) = None ->
   forall mode,
     DataManager_read srv decode_token is_login token uid data_id mode w
     = (Raise UserNotFound, w))
  /\ (List.filter (fun r => id r =? data_id) (datainfo w) = [] ->
      (List.find (fun u => u_id u =? uid) (users w) <> None ->
       forall mode,
         DataManager_read srv decode_token is_login token uid data_id mode w
         = (Raise DataNotFound, w))
      /\ (forall new_name,
            DataManager_update srv decode_token is_login token uid data_id
              new_name w = (Raise DataNotFound, w))
      /\ DataManager_destroy srv decode_token is_login token uid data_id w
         = (Raise DataNotFound, w)).
Proof.
  intros Hdec Hop Hp.
  pose proof (check_permission_granted _ _ _ _ _ _ _ Hdec _ Hop Hp) as Hchk.
  split; [| intros Hnone; split; [| split]].
  - intros Hu mode. unfold DataManager_read.
    rewrite (bind_ok _ _ _ _ _ Hchk).
    now rewrite (bind_ok _ _ _ _ _ (UserDBQuery_read_id_run uid w)), Hu.
  - intros Hu mode. unfold DataManager_read.
    rewrite (bind_ok _ _ _ _ _ Hchk).
    rewrite (bind_ok _ _ _ _ _ (UserDBQuery_read_id_run uid w)).
    destruct (List.find (fun u => u_id u =? uid) (users w));
      [| contradiction].
    now rewrite (bind_ok _ _ _ _ _
                   (DataDBQueryReader_by_id_absent _ _ _ _ Hnone)).
  - intros new_name. unfold DataManager_update.
    rewrite (bind_ok _ _ _ _ _ Hchk).
    now rewrite (bind_ok _ _ _ _ _
                   (DataDBQueryReader_by_id_absent _ _ _ _ Hnone)).
  - unfold DataManager_destroy.
    rewrite (bind_ok _ _ _ _ _ Hchk).
    now rewrite (bind_ok _ _ _ _ _
                   (DataDBQueryReader_by_id_absent _ _ _ _ Hnone)).
Qed.

Lemma entry_points_on_a_missing_target_witness :
  DataManager_destroy "/srv" login_tokens login_kind "token-of-alice" 1 9
    two_files_world
  = (Raise DataNotFound, two_files_world).
Proof.
  destruct (entry_points_on_a_missing_target "/srv" "token-of-alice"
              "alice@example.com" "login" alice 1 9 login_tokens login_kind
              two_files_world eq_refl eq_refl eq_refl) as [_ Hmissing].
  destruct (Hmissing eq_refl) as (_ & _ & Hdestroy). exact Hdestroy.
Defined.

(** ** Renames *)

Lemma DataStorageQuery_update_collision p n w :
  dirname p +:+ n <> p ->
  is_Some (storage w !! (dirname p +:+ n)) ->
  DataStorageQuery_update p n w = (Raise CollisionError, w).
Proof.
  intros Hne Hocc. unfold DataStorageQuery_update, bind, gets. cbv beta zeta.
  apply String.eqb_neq in Hne. rewrite Hne.
  now rewrite (bool_decide_eq_true_2 _ Hocc).
Qed.

Lemma DataStorageQuery_update_absent p n w :
  storage w !! (dirname p +:+ n) = None ->
  storage w !! p = None ->
  DataStorageQuery_update p n w = (Ok None, w).
Proof.
  intros Hfree Habsent. unfold DataStorageQuery_update, bind, gets. cbv beta zeta.
  rewrite bool_decide_eq_false_2
    by (rewrite Hfree; intros [x Hx]; discriminate).
  rewrite andb_false_r. now rewrite Habsent.
Qed.

Lemma DataStorageQuery_update_present p n w o :
  storage w !! (dirname p +:+ n) = None ->
  storage w !! p = Some o ->
  exists s,
    DataStorageQuery_update p n w = (Ok (Some (dirname p +:+ n)), set_storage s w).
Proof.
  intros Hfree Hthere. unfold DataStorageQuery_update, bind, gets. cbv beta zeta.
  rewrite bool_decide_eq_false_2
    by (rewrite Hfree; intros [x Hx]; discriminate).
  rewrite andb_false_r, Hthere. eexists. reflexivity.
Qed.

Lemma DataDBQueryReader_by_id_false u i w d :
  i <> 0 ->
  List.filter (fun r => id r =? i) (datainfo w) = [d] ->
  DataDBQueryReader u (Some false) (Some i) None w = (Ok (Some d), w).
Proof.
  intros Hi Hrows. rewrite DataDBQueryReader_false_is_no_filter.
  now apply DataDBQueryReader_by_id.
Qed.

(** The rename of the row found, once the managers have loaded it: both
    [update] methods run the same statements from there on. *)
Lemma DataManager_update_loaded
    (srv token email issue : string) (operator target : User)
    (uid data_id : Z)
    (decode_token : string -> Result (string * string))
    (is_login : string -> bool) (new_name : string) (w : World)
    (d : DataInfo) :
  decode_token token = Ok (email, issue) ->
  List.find (fun u => String.eqb (u_email u) email) (users w) = Some operator ->
  identity_permitted is_login issue operator uid = true ->
  List.find (fun u => u_id u =? uid) (users w) = Some target ->
  data_id <> 0 ->
  List.filter (fun r => id r =? data_id) (datainfo w) = [d] ->
  DataManager_update srv decode_token is_login token uid data_id new_name w
  = (res <-
       (DataInfoUpdate_new new_name (root d) uid ;;;
        new_root <-
          try_except
            (DataStorageQuery_update (rename_source srv uid d) new_name)
            (fun _ => raise DataAlreadyExists) ;;
        match new_root with
        | None => DataDBQueryDestroyer data_id ;;; raise DataNotFound
        | Some _ =>
            try_except
              (DataDBQueryUpdator new_name uid (id d))
              (fun e =>
                 DataStorageQuery_update
                   (raw_path srv uid (root d) "" +:+ new_name) (name d) ;;;
                 raise e)
        end) ;;
     ret (mkUpdateResult (created res) (id res) (root res) (name res)
            (is_dir res))) w.
Proof.
  intros Hdec Hop Hp Hu Hid Hrows. unfold DataManager_update.
  rewrite (bind_ok _ _ _ _ _
             (check_permission_granted _ _ _ _ _ _ _ Hdec _ Hop Hp)).
  rewrite (bind_ok _ _ _ _ _ (DataDBQueryReader_by_id _ _ _ _ Hid Hrows)).
  unfold bind at 1. unfold bind at 2. unfold rename_source.
  destruct (is_dir d).
  - unfold DataDirectoryCRUDManager_update.
    rewrite (bind_ok _ _ _ _ _ (UserDBQuery_read_id_run uid w)), Hu.
    rewrite (bind_ok _ _ _ _ _ (DataDBQueryReader_by_id _ _ _ _ Hid Hrows)).
    reflexivity.
  - unfold DataFileCRUDManager_update.
    rewrite (bind_ok _ _ _ _ _ (UserDBQuery_read_id_run uid w)), Hu.
    rewrite (bind_ok _ _ _ _ _
               (DataDBQueryReader_by_id_false _ _ _ _ Hid Hrows)).
    reflexivity.
Qed.

(** X15: a rename to an invalid name raises [ValidationError], and a rename
    onto a name that another physical object already holds raises
    [DataAlreadyExists]; in both cases neither store changes. *)
Theorem refused_rename_changes_nothing
    (srv token email issue : string) (operator target : User)
    (uid data_id : Z)
    (decode_token : string -> Result (string * string))
    (is_login : string -> bool) (new_name : string) (w : World)
    (d : DataInfo) :
  decode_token token = Ok (email, issue) ->
  List.find (fun u => String.eqb (u_email u) email) (users w) = Some operator ->
  identity_permitted is_login issue operator uid = true ->
  List.find (fun u => u_id u =? uid) (users w) = Some target ->
  data_id <> 0 ->
  List.filter (fun r => id r =? data_id) (datainfo w) = [d] ->
  (valid_name new_name = false ->
   DataManager_update srv decode_token is_login token uid data_id new_name w
   = (Raise ValidationError, w))
  /\ (valid_name new_name = true ->
      rename_target srv uid d new_name <> rename_source srv uid d ->
      is_Some (storage w !! rename_target srv uid d new_name) ->
      DataManager_update srv decode_token is_login token uid data_id new_name w
      = (Raise DataAlreadyExists, w)).
Proof.
  intros Hdec Hop Hp Hu Hid Hrows.
  rewrite (DataManager_update_loaded _ _ _ _ _ _ _ _ _ _ _ _ _
             Hdec Hop Hp Hu Hid Hrows).
  split.
  - intros Hbad. apply bind_raise. apply bind_raise.
    unfold DataInfoUpdate_new. now rewrite Hbad.
  - intros Hgood Hne Hocc. apply bind_raise.
    unfold bind at 1. unfold DataInfoUpdate_new. rewrite Hgood. unfold ret at 1.
    apply bind_raise.
    rewrite (try_except_raise _ _ _ _ _
               (DataStorageQuery_update_collision _ _ _ Hne Hocc)).
    reflexivity.
Qed.

Lemma refused_rename_changes_nothing_witness :
  DataManager_update "/srv" login_tokens login_kind "token-of-alice" 1 1
    "keep.txt" two_files_world
  = (Raise DataAlreadyExists, two_files_world).
Proof.
  destruct (refused_rename_changes_nothing "/srv" "token-of-alice"
              "alice@example.com" "login" alice alice 1 1 login_tokens
              login_kind "keep.txt" two_files_world alices_file
              eq_refl eq_refl eq_refl eq_refl) as [_ Hcollide];
    [discriminate | reflexivity |].
  apply Hcollide; [reflexivity | discriminate | eexists; reflexivity].
Defined.

(** X16: a rename of a row whose physical object is gone, the new name
    being free, deletes the row from the table and raises [DataNotFound];
    the physical store is left as it was. *)
Theorem rename_of_a_stale_row_purges_it
    (srv token email issue : string) (operator target : User)
    (uid data_id : Z)
    (decode_token : string -> Result (string * string))
    (is_login : string -> bool) (new_name : string) (w : World)
    (d : DataInfo) :
  decode_token token = Ok (email, issue) ->
  List.find (fun u => String.eqb (u_email u) email) (users w) = Some operator ->
  identity_permitted is_login issue operator uid = true ->
  List.find (fun u => u_id u =? uid) (users w) = Some target ->
  data_id <> 0 ->
  List.filter (fun r => id r =? data_id) (datainfo w) = [d] ->
  valid_name new_name = true ->
  storage w !! rename_target srv uid d new_name = None ->
  storage w !! rename_source srv uid d = None ->
  commit_succeeds w = true ->
  exists w1,
    DataManager_update srv decode_token is_login token uid data_id new_name w
    = (Raise DataNotFound, w1)
    /\ List.filter (fun r => id r =? data_id) (datainfo w1) = []
    /\ storage w1 = storage w.
Proof.
  intros Hdec Hop Hp Hu Hid Hrows Hgood Hfree Hgone Hc.
  rewrite (DataManager_update_loaded _ _ _ _ _ _ _ _ _ _ _ _ _
             Hdec Hop Hp Hu Hid Hrows).
  destruct (filter_singleton_In _ _ _ Hrows) as [_ Hd]. apply Z.eqb_eq in Hd.
  eexists. split; [| split].
  - apply bind_raise.
    unfold bind at 1. unfold DataInfoUpdate_new. rewrite Hgood. unfold ret at 1.
    rewrite (bind_ok _ _ _ _ _
               (try_except_ok _ _ _ _ _
                  (DataStorageQuery_update_absent _ _ _ Hfree Hgone))).
    rewrite (bind_ok _ _ _ _ _ (DataDBQueryDestroyer_run _ _ _ Hrows Hc)).
    reflexivity.
  - cbn [datainfo set_faults set_datainfo]. rewrite <- Hd.
    apply table_without_no_row.
  - reflexivity.
Qed.

Lemma rename_of_a_stale_row_purges_it_witness :
  exists w1,
    DataManager_update "/srv" login_tokens login_kind "token-of-alice" 1 1
      "b.txt" half_stale_world = (Raise DataNotFound, w1)
    /\ List.filter (fun r => id r =? 1) (datainfo w1) = []
    /\ storage w1 = storage half_stale_world.
Proof.
  apply (rename_of_a_stale_row_purges_it "/srv" "token-of-alice"
           "alice@example.com" "login" alice alice 1 1 login_tokens login_kind
           "b.txt" half_stale_world alices_file);
    first [reflexivity | discriminate].
Defined.

Lemma filter_id_map g t j :
  (forall r, id (g r) = id r) ->
  List.filter (fun r => id r =? j) (List.map g t)
  = List.map g (List.filter (fun r => id r =? j) t).
Proof.
  intros Hg. induction t as [| r t IH]; [reflexivity |].
  cbn [List.map List.filter]. rewrite Hg.
  destruct (id r =? j); cbn [List.map]; now rewrite IH.
Qed.

Lemma startswith_longer s x : startswith s (s +:+ x +:+ "/") = false.
Proof.
  unfold startswith. destruct (sql_like _ s) eqn:H; [| reflexivity].
  apply sql_like_slashes in H. rewrite !slashes_append in H.
  cbn [slashes] in H. change (Ascii.eqb "/" "/") with true in H.
  change (Ascii.eqb "%" "/") with false in H. cbv iota in H. lia.
Qed.

Lemma owner_and_id_filter uid i t d :
  List.filter (fun r => id r =? i) t = [d] ->
  user_id d = uid ->
  List.filter (fun r => (user_id r =? uid) && (id r =? i)) t = [d].
Proof.
  intros Hrows Hown.
  rewrite (filter_andb (fun r => user_id r =? uid) (fun r => id r =? i)).
  rewrite Hrows. cbn [List.filter]. apply Z.eqb_eq in Hown. now rewrite Hown.
Qed.

(** X17: a rename of a row of the user whose physical object exists, to a
    valid and free name, returns the row under its new name, with the same
    id, parent path and kind; afterwards the row of that id is the old row
    with the new name, and for a file no other row has changed. *)
Theorem successful_rename_renames_the_row
    (srv token email issue : string) (operator target : User)
    (uid data_id : Z)
    (decode_token : string -> Result (string * string))
    (is_login : string -> bool) (new_name : string) (w : World)
    (d : DataInfo) (o : PhysObj) :
  decode_token token = Ok (email, issue) ->
  List.find (fun u => String.eqb (u_email u) email) (users w) = Some operator ->
  identity_permitted is_login issue operator uid = true ->
  List.find (fun u => u_id u =? uid) (users w) = Some target ->
  data_id <> 0 ->
  List.filter (fun r => id r =? data_id) (datainfo w) = [d] ->
  user_id d = uid ->
  valid_name new_name = true ->
  storage w !! rename_target srv uid d new_name = None ->
  storage w !! rename_source srv uid d = Some o ->
  commit_succeeds w = true ->
  exists w1,
    DataManager_update srv decode_token is_login token uid data_id new_name w
    = (Ok (mkUpdateResult (created d) (id d) (root d) new_name (is_dir d)), w1)
    /\ List.filter (fun r => id r =? data_id) (datainfo w1)
       = [with_name new_name d]
    /\ (is_dir d = false ->
        datainfo w1 = update_row (id d) (with_name new_name) (datainfo w)).
Proof.
  intros Hdec Hop Hp Hu Hid Hrows Hown Hgood Hfree Hthere Hc.
  rewrite (DataManager_update_loaded _ _ _ _ _ _ _ _ _ _ _ _ _
             Hdec Hop Hp Hu Hid Hrows).
  destruct (filter_singleton_In _ _ _ Hrows) as [_ Hd]. apply Z.eqb_eq in Hd.
  destruct (DataStorageQuery_update_present _ new_name _ _ Hfree Hthere)
    as [s Hmove].
  set (t' := if is_dir d then
               List.map (fun r =>
                 if (user_id r =? uid)
                    && startswith (root r) (root d +:+ name d +:+ "/")
                 then with_root (sql_replace (root r)
                                   (root d +:+ name d +:+ "/")
                                   (root d +:+ new_name +:+ "/")) r
                 else r)
                 (update_row (id d) (with_name new_name) (datainfo w))
             else update_row (id d) (with_name new_name) (datainfo w)).
  assert (Hnew : List.filter (fun r => id r =? id d) t' = [with_name new_name d]).
  { assert (Hrow : List.filter (fun r => id r =? id d)
                     (update_row (id d) (with_name new_name) (datainfo w))
                   = [with_name new_name d]).
    { rewrite filter_update_row by reflexivity. rewrite Hd, Hrows.
      cbn [List.map]. now rewrite Hd, Z.eqb_refl. }
    subst t'. destruct (is_dir d); [| exact Hrow].
    rewrite filter_id_map by (intros r; destruct (_ && _); reflexivity).
    rewrite Hrow. cbn [List.map with_name root].
    now rewrite startswith_longer, andb_false_r. }
  exists (set_faults (List.tl (faults w)) (set_datainfo t' (set_storage s w))).
  split; [| split].
  - unfold bind at 1. unfold bind at 1.
    unfold DataInfoUpdate_new. rewrite Hgood. unfold ret at 1.
    rewrite (bind_ok _ _ _ _ _ (try_except_ok _ _ _ _ _ Hmove)).
    assert (Hrun : DataDBQueryUpdator new_name uid (id d) (set_storage s w)
                   = (Ok (with_name new_name d),
                      set_faults (List.tl (faults w))
                        (set_datainfo t' (set_storage s w)))).
    { rewrite DataDBQueryUpdator_eq. cbn [datainfo set_storage].
      rewrite Hd, (owner_and_id_filter _ _ _ _ Hrows Hown). cbv zeta.
      fold t'. unfold bind. rewrite session_commit_run by exact Hc.
      rewrite session_refresh_run. cbn [datainfo set_faults set_datainfo].
      rewrite find_head_filter. cbn [with_name id]. now rewrite Hnew. }
    rewrite (try_except_ok _ _ _ _ _ Hrun). reflexivity.
  - cbn [datainfo set_faults set_datainfo]. now rewrite <- Hd.
  - intros Hkind. cbn [datainfo set_faults set_datainfo]. subst t'.
    now rewrite Hkind.
Qed.

Lemma successful_rename_renames_the_row_witness :
  exists w1,
    DataManager_update "/srv" login_tokens login_kind "token-of-alice" 1 1
      "b.txt" two_files_world
    = (Ok (mkUpdateResult 0 1 "/" "b.txt" false), w1)
    /\ List.filter (fun r => id r =? 1) (datainfo w1)
       = [with_name "b.txt" alices_file]
    /\ (is_dir alices_file = false ->
        datainfo w1
        = update_row 1 (with_name "b.txt") (datainfo two_files_world)).
Proof.
  apply (successful_rename_renames_the_row "/srv" "token-of-alice"
           "alice@example.com" "login" alice alice 1 1 login_tokens login_kind
           "b.txt" two_files_world alices_file
           (PFile [Byte.x6f; Byte.x6c; Byte.x64]));
    first [reflexivity | discriminate].
Defined.

Lemma DataStorageQuery_update_table p n w :
  datainfo (snd (DataStorageQuery_update p n w)) = datainfo w.
Proof.
  unfold DataStorageQuery_update, bind, gets, modify, ret, raise. cbv beta zeta.
  destruct (_ && _); [reflexivity |].
  destruct (storage w !! p); reflexivity.
Qed.

(** X18: when the metadata commit of a rename fails after the physical
    rename, the rename is not reported as done: an error is raised, the
    commit error or the error of the compensating rename, and the table is
    what it was before the call. *)
Theorem rename_with_a_failing_commit
    (srv token email issue : string) (operator target : User)
    (uid data_id : Z)
    (decode_token : string -> Result (string * string))
    (is_login : string -> bool) (new_name : string) (w : World)
    (d : DataInfo) (o : PhysObj) (msg : string) (rest : list (option string)) :
  decode_token token = Ok (email, issue) ->
  List.find (fun u => String.eqb (u_email u) email) (users w) = Some operator ->
  identity_permitted is_login issue operator uid = true ->
  List.find (fun u => u_id u =? uid) (users w) = Some target ->
  data_id <> 0 ->
  List.filter (fun r => id r =? data_id) (datainfo w) = [d] ->
  user_id d = uid ->
  valid_name new_name = true ->
  storage w !! rename_target srv uid d new_name = None ->
  storage w !! rename_source srv uid d = Some o ->
  faults w = Some msg :: rest ->
  exists e w1,
    DataManager_update srv decode_token is_login token uid data_id new_name w
    = (Raise e, w1)
    /\ (e = DBError msg \/ e = CollisionError)
    /\ datainfo w1 = datainfo w.
Proof.
  intros Hdec Hop Hp Hu Hid Hrows Hown Hgood Hfree Hthere Hf.
  rewrite (DataManager_update_loaded _ _ _ _ _ _ _ _ _ _ _ _ _
             Hdec Hop Hp Hu Hid Hrows).
  destruct (filter_singleton_In _ _ _ Hrows) as [_ Hd]. apply Z.eqb_eq in Hd.
  destruct (DataStorageQuery_update_present _ new_name _ _ Hfree Hthere)
    as [s Hmove].
  assert (Hrun : DataDBQueryUpdator new_name uid (id d) (set_storage s w)
                 = (Raise (DBError msg), set_faults rest (set_storage s w))).
  { rewrite DataDBQueryUpdator_eq. cbn [datainfo set_storage].
    rewrite Hd, (owner_and_id_filter _ _ _ _ Hrows Hown). cbv zeta.
    now apply commit_then_fault. }
  pose proof (DataStorageQuery_update_table
                (raw_path srv uid (root d) "" +:+ new_name) (name d)
                (set_faults rest (set_storage s w))) as Htable.
  destruct (DataStorageQuery_update
              (raw_path srv uid (root d) "" +:+ new_name) (name d)
              (set_faults rest (set_storage s w)))
    as [[back | e2] w2] eqn:Hback; cbn [snd] in Htable.
  - exists (DBError msg), w2. split; [| split; [now left | exact Htable]].
    apply bind_raise. unfold bind at 1.
    unfold DataInfoUpdate_new. rewrite Hgood. unfold ret at 1.
    rewrite (bind_ok _ _ _ _ _ (try_except_ok _ _ _ _ _ Hmove)).
    rewrite (try_except_raise _ _ _ _ _ Hrun).
    now rewrite (bind_ok _ _ _ _ _ Hback).
  - assert (He2 : e2 = CollisionError).
    { revert Hback. unfold DataStorageQuery_update, bind, gets, modify, ret, raise.
      cbv beta zeta. destruct (_ && _); [congruence |].
      cbn [storage set_faults set_storage].
      destruct (s !! _); intros Hno; discriminate Hno. }
    exists e2, w2. split; [| split; [now right | exact Htable]].
    apply bind_raise. unfold bind at 1.
    unfold DataInfoUpdate_new. rewrite Hgood. unfold ret at 1.
    rewrite (bind_ok _ _ _ _ _ (try_except_ok _ _ _ _ _ Hmove)).
    rewrite (try_except_raise _ _ _ _ _ Hrun).
    now rewrite (bind_raise _ _ _ _ _ Hback).
Qed.

Lemma rename_with_a_failing_commit_witness :
  exists e w1,
    DataManager_update "/srv" login_tokens login_kind "token-of-alice" 1 1
      "b.txt" reupload_world
    = (Raise e, w1)
    /\ (e = DBError "commit failed" \/ e = CollisionError)
    /\ datainfo w1 = datainfo reupload_world.
Proof.
  apply (rename_with_a_failing_commit "/srv" "token-of-alice"
           "alice@example.com" "login" alice alice 1 1 login_tokens login_kind
           "b.txt" reupload_world alices_file
           (PFile [Byte.x6f; Byte.x6c; Byte.x64]) "commit failed" []);
    first [reflexivity | discriminate].
Defined.





(** X20: the delete removes the row before it touches the physical store, so
    when the commit of the delete fails the error of the commit is raised
    and the row, the rows below it and every physical object are still
    there. *)
Theorem delete_with_a_failing_commit_removes_nothing
    (srv token email issue : string) (operator : User) (uid data_id : Z)
    (decode_token : string -> Result (string * string))
    (is_login : string -> bool) (w : World) (d : DataInfo)
    (msg : string) (rest : list (option string)) :
  decode_token token = Ok (email, issue) ->
  List.find (fun u => String.eqb (u_email u) email) (users w) = Some operator ->
  identity_permitted is_login issue operator uid = true ->
  data_id <> 0 ->
  List.filter (fun r => id r =? data_id) (datainfo w) = [d] ->
  faults w = Some msg :: rest ->
  exists w1,
    DataManager_destroy srv decode_token is_login token uid data_id w
    = (Raise (DBError msg), w1)
    /\ same_stores w w1.
Proof.
  intros Hdec Hop Hp Hid Hrows Hf.
  pose proof (check_permission_granted _ _ _ _ _ _ _ Hdec _ Hop Hp) as Hchk.
  exists (set_faults rest w). split; [| apply same_stores_set_faults].
  unfold DataManager_destroy. rewrite (bind_ok _ _ _ _ _ Hchk).
  rewrite (bind_ok _ _ _ _ _ (DataDBQueryReader_by_id _ _ _ _ Hid Hrows)).
  assert (Hrun : DataDBQueryDestroyer data_id w
                 = (Raise (DBError msg), set_faults rest w)).
  { rewrite DataDBQueryDestroyer_eq, Hrows. now apply commit_then_fault. }
  cbv beta. destruct (is_dir d).
  all: unfold DataDirectoryCRUDManager_destroy, DataFileCRUDManager_destroy;
    now rewrite (bind_raise _ _ _ _ _ Hrun).
Qed.

Lemma delete_with_a_failing_commit_removes_nothing_witness :
  exists w1,
    DataManager_destroy "/srv" login_tokens login_kind "token-of-alice" 1 1
      reupload_world
    = (Raise (DBError "commit failed"), w1)
    /\ same_stores reupload_world w1.
Proof.
  apply (delete_with_a_failing_commit_removes_nothing "/srv" "token-of-alice"
           "alice@example.com" "login" alice 1 1 login_tokens login_kind
           reupload_world alices_file "commit failed" []);
    first [reflexivity | discriminate].
Defined.

(** ** An upload, then a read *)

Lemma check_permission_same_users dec lg token uid w w' :
  users w' = users w ->
  check_permission dec lg token uid w = (Ok tt, w) ->
  check_permission dec lg token uid w' = (Ok tt, w').
Proof.
  intros Hu.
  unfold check_permission, UserDBQuery_read_email, bind, lift, gets, ret, raise.
  rewrite Hu.
  destruct (dec token) as [[e i] | e]; cbn [fst snd]; [| discriminate].
  destruct (List.find _ (users w)) as [op |]; [| discriminate].
  destruct (negb _); [discriminate | reflexivity].
Qed.

Lemma DataDBQueryCreator_users fmt w :
  users (snd (DataDBQueryCreator fmt w)) = users w.
Proof.
  rewrite DataDBQueryCreator_eq.
  destruct (List.filter _ (datainfo w)) as [| r0 [| r1 l]]; try reflexivity.
  unfold bind, session_commit.
  destruct (List.head (faults w)) as [[msg |] |]; reflexivity.
Qed.

Lemma update_file_automatic_users i fmt w :
  users (snd (update_file_automatic i fmt w)) = users w.
Proof.
  rewrite update_file_automatic_eq.
  destruct (List.filter _ (datainfo w)) as [| r0 [| r1 l]]; try reflexivity.
  unfold bind, session_commit.
  destruct (List.head (faults w)) as [[msg |] |]; reflexivity.
Qed.

Lemma the_row_of_an_id (t : list DataInfo) d :
  List.NoDup (List.map id t) -> In d t ->
  List.filter (fun r => id r =? id d) t = [d].
Proof.
  induction t as [| r t IH]; intros Hnd Hin; [contradiction |].
  cbn [List.map] in Hnd. apply List.NoDup_cons_iff in Hnd as [Hr Hnd].
  cbn [List.filter]. destruct Hin as [-> | Hin].
  - rewrite Z.eqb_refl. f_equal.
    assert (Hnone : forall l, ~ In (id d) (List.map id l) ->
              List.filter (fun r => id r =? id d) l = []).
    { induction l as [| x l IHl]; intros Hx; [reflexivity |].
      cbn [List.filter]. destruct (id x =? id d) eqn:E.
      - apply Z.eqb_eq in E. exfalso. apply Hx. left. exact E.
      - apply IHl. intros Hl. apply Hx. now right. }
    now apply Hnone.
  - destruct (id r =? id d) eqn:E; [| now apply IH].
    apply Z.eqb_eq in E. exfalso. apply Hr. rewrite E.
    now apply List.in_map.
Qed.

(** The row a file upload stores, by insert or by update in place. *)
Lemma stored_file_row fmt (info : option DataInfo) w d w' :
  table_ok w ->
  match info with
  | Some d0 =>
      List.filter (fun x => String.eqb (root x) (c_root fmt)
                            && String.eqb (name x) (c_name fmt))
        (datainfo w) = [d0]
  | None => True
  end ->
  negb (match info with Some d0 => id d0 | None => 0 end =? 0)
  && match info with Some d0 => is_dir d0 | None => false end = false ->
  c_is_dir fmt = false ->
  (if negb (match info with Some d0 => id d0 | None => 0 end =? 0)
   then update_file_automatic
          (match info with Some d0 => id d0 | None => 0 end) fmt
   else DataDBQueryCreator fmt) w = (Ok d, w') ->
  users w' = users w /\ In d (datainfo w')
  /\ root d = c_root fmt /\ name d = c_name fmt
  /\ is_dir d = false /\ size d = c_size fmt.
Proof.
  intros Hok Hfound Hguard Hfile H.
  destruct (negb _) eqn:Hid in H.
  - destruct info as [d0 |]; [| discriminate].
    rewrite Hid in Hguard. cbn [andb] in Hguard.
    pose proof (update_file_automatic_users (id d0) fmt w) as Hu.
    rewrite H in Hu. cbn [snd] in Hu.
    apply update_file_automatic_ok in H as (r0 & Hrows & -> & Hin).
    destruct (filter_singleton_In _ _ _ Hfound) as [Hin0 Hslot].
    apply andb_true_iff in Hslot as [Hroot Hname].
    apply String.eqb_eq in Hroot, Hname.
    assert (d0 = r0) as <-
      by (apply (filter_singleton_unique _ _ _ _ Hrows Hin0), Z.eqb_refl).
    cbn [with_size root name is_dir size].
    repeat split; first [assumption | reflexivity].
  - pose proof (DataDBQueryCreator_users fmt w) as Hu.
    rewrite H in Hu. cbn [snd] in Hu.
    apply DataDBQueryCreator_ok in H as [-> Hin].
    + cbn [root name is_dir size].
      repeat split; first [assumption | reflexivity].
    + destruct Hok as (_ & _ & Hall). eapply List.Forall_impl; [| exact Hall].
      intros r Hr. cbn beta in Hr. lia.
Qed.

Lemma create_file_result srv root_id uid file w d w' dir_root :
  table_ok w ->
  parent_dir_root root_id uid w = (Ok dir_root, w) ->
  DataFileCRUDManager_create srv root_id uid file w = (Ok d, w') ->
  users w' = users w
  /\ List.find (fun u => u_id u =? uid) (users w) <> None
  /\ In d (datainfo w')
  /\ root d = dir_root
  /\ name d = last_piece (split_slash (filename file))
  /\ is_dir d = false
  /\ size d = Z.of_nat (List.length (content file)).
Proof.
  intros Hok Hp H. unfold DataFileCRUDManager_create in H.
  rewrite (bind_ok _ _ w (List.find (fun u => u_id u =? uid) (users w)) w) in H
    by reflexivity.
  destruct (List.find (fun u => u_id u =? uid) (users w)) as [u |];
    [| discriminate].
  rewrite (bind_ok _ _ _ _ _ Hp) in H. cbv beta zeta in H.
  set (fname := last_piece (split_slash (filename file))) in *.
  set (p := raw_path srv uid dir_root fname) in *.
  destruct (DataDBQueryReader (Some uid) None None (Some (dir_root, fname)) w)
    as [[info | e] w1] eqn:Hr;
    pose proof (DataDBQueryReader_world _ _ _ _ _ _ _ Hr) as ->;
    [rewrite (bind_ok _ _ _ _ _ Hr) in H
    | rewrite (bind_raise _ _ _ _ _ Hr) in H; discriminate].
  assert (Hfound : match info with
                   | Some d0 =>
                       List.filter (fun x => String.eqb (root x) dir_root
                                             && String.eqb (name x) fname)
                         (datainfo w) = [d0]
                   | None => True
                   end).
  { destruct info as [d0 |]; [| exact I].
    exact (DataDBQueryReader_full_root_found _ _ _ _ _ _ Hr). }
  unfold bind at 1 in H.
  destruct (negb _ && _) eqn:Hguard; [discriminate |].
  rewrite (bind_ok _ _ _ _ _ (storage_occupied_run p w)) in H.
  unfold bind at 1 in H. unfold DataInfoCreate_new at 1 in H.
  assert (Hend : forall w2,
            datainfo w2 = datainfo w -> next_id w2 = next_id w ->
            users w2 = users w ->
            (if negb (match info with Some d0 => id d0 | None => 0 end =? 0)
             then update_file_automatic
                    (match info with Some d0 => id d0 | None => 0 end)
                    (with_c_size (Z.of_nat (List.length (content file)))
                       (mkDataInfoCreate fname dir_root uid false 0))
             else DataDBQueryCreator
                    (with_c_size (Z.of_nat (List.length (content file)))
                       (mkDataInfoCreate fname dir_root uid false 0))) w2
            = (Ok d, w') ->
            users w' = users w
            /\ Some u <> None
            /\ In d (datainfo w')
            /\ root d = dir_root /\ name d = fname
            /\ is_dir d = false
            /\ size d = Z.of_nat (List.length (content file))).
  { intros w2 Ht Hn Hu2 Hrun.
    destruct (stored_file_row
                (with_c_size (Z.of_nat (List.length (content file)))
                   (mkDataInfoCreate fname dir_root uid false 0))
                info w2 d w') as (Hu & Hin & Hrt & Hnm & Hdir & Hsz).
    - exact (table_ok_frame _ _ Ht Hn Hok).
    - rewrite Ht. exact Hfound.
    - exact Hguard.
    - reflexivity.
    - exact Hrun.
    - rewrite Hu, Hu2. repeat split; try assumption. discriminate. }
  destruct (storage w !! p) as [o |] eqn:Hlook.
  - rewrite DataStorageQuery_destroy_run in H.
    destruct (valid_name _); [| discriminate].
    unfold ret at 1 in H. unfold bind at 1 in H.
    unfold DataStorageQuery_create at 1 in H.
    unfold bind at 1, modify, ret at 1 in H.
    apply try_except_reraise_ok in H.
    match type of H with
    | _ ?w2 = _ => exact (Hend w2 eq_refl eq_refl eq_refl H)
    end.
  - unfold ret at 1 in H.
    destruct (valid_name _); [| discriminate].
    unfold ret at 1 in H. unfold bind at 1 in H.
    unfold DataStorageQuery_create at 1 in H.
    unfold bind at 1, modify, ret at 1 in H.
    apply try_except_reraise_ok in H.
    match type of H with
    | _ ?w2 = _ => exact (Hend w2 eq_refl eq_refl eq_refl H)
    end.
Qed.

(** X21: an upload that returns a record can be read back: from a
    well-formed table, a read by the same caller of the id returned gives
    the parent path, the last component of the uploaded file name as name,
    the kind file and the byte length of the upload as size, in download
    mode with the path of the stored file, and changes nothing, whether the
    upload inserted a row or updated one in place. *)
Theorem upload_then_read
    (srv token : string) (uid data_id : Z)
    (decode_token : string -> Result (string * string))
    (is_login : string -> bool)
    (file : UploadFile) (req_dirname : option string)
    (w : World) (dir_root : string) (d : DataInfo) (w' : World) :
  table_ok w ->
  parent_dir_root data_id uid w = (Ok dir_root, w) ->
  DataManager_create srv decode_token is_login token uid data_id (Some file)
    req_dirname w = (Ok (Some d), w') ->
  forall mode,
    DataManager_read srv decode_token is_login token uid (id d) mode w'
    = (Ok (mkReadResult
             (mkReadInfo (created d) dir_root false
                (last_piece (split_slash (filename file)))
                (Z.of_nat (List.length (content file))))
             (match mode with
              | ModeDownload =>
                  Some (raw_path srv uid dir_root
                          (last_piece (split_slash (filename file))))
              | _ => None
              end)), w').
Proof.
  intros Hok Hp H mode.
  assert (Hok' : table_ok w').
  { pose proof (keeps_DataFileCRUDManager_create srv data_id uid file) as Hk.
    unfold DataManager_create in H.
    apply bind_inv_ok in H as ([] & w1 & Hchk & H).
    pose proof (check_permission_world _ _ _ _ _ _ _ Hchk) as ->.
    apply bind_inv_ok in H as (d1 & w2 & H & Hret).
    unfold ret in Hret. injection Hret as _ <-.
    specialize (Hk w Hok). now rewrite H in Hk. }
  unfold DataManager_create in H.
  apply bind_inv_ok in H as ([] & w1 & Hchk & H).
  pose proof (check_permission_world _ _ _ _ _ _ _ Hchk) as ->.
  apply bind_inv_ok in H as (d1 & w2 & H & Hret).
  unfold ret in Hret. injection Hret as -> ->.
  pose proof (create_file_leaves_the_file _ _ _ _ _ _ _ _ Hp H) as [Hat _].
  destruct (create_file_result _ _ _ _ _ _ _ _ Hok Hp H)
    as (Hu & Huser & Hin & Hroot & Hname & Hdir & Hsize).
  destruct Hok' as (Hnd & Hpos & Hall).
  pose proof (the_row_of_an_id _ _ Hnd Hin) as Hrows.
  assert (Hid : id d <> 0).
  { rewrite List.Forall_forall in Hall. pose proof (Hall _ Hin) as Hb.
    cbn beta in Hb. lia. }
  unfold DataManager_read.
  rewrite (bind_ok _ _ _ _ _ (check_permission_same_users _ _ _ _ _ _ Hu Hchk)).
  rewrite (bind_ok _ _ _ _ _ (UserDBQuery_read_id_run uid w')). rewrite Hu.
  destruct (List.find (fun u => u_id u =? uid) (users w)) as [u |];
    [| congruence].
  rewrite (bind_ok _ _ _ _ _ (DataDBQueryReader_by_id _ _ _ _ Hid Hrows)).
  cbv zeta. rewrite Hroot, Hname, Hdir.
  assert (Hprobe : DataStorageQuery_read
                     (raw_path srv uid dir_root
                        (last_piece (split_slash (filename file)))) false w'
                   = (Ok true, w')).
  { unfold DataStorageQuery_read, bind, gets, ret. now rewrite Hat. }
  rewrite (bind_ok _ _ _ _ _ Hprobe). cbn [negb].
  assert (Hsync : sync_file_size (id d)
                    (raw_path srv uid dir_root
                       (last_piece (split_slash (filename file)))) w'
                  = (Ok d, w')).
  { rewrite sync_file_size_eq, Hrows, Hat. cbv zeta.
    now rewrite Hsize, Z.eqb_refl. }
  rewrite (bind_ok _ _ _ _ _ Hsync). rewrite Hdir.
  unfold bind at 1. unfold ret at 1. rewrite Hroot, Hname, Hsize.
  destruct mode; reflexivity.
Qed.

Lemma upload_then_read_witness :
  DataManager_read "/srv" login_tokens3 login_kind "token-of-alice" 1 1
    ModeDownload
    (snd (DataManager_create "/srv" login_tokens3 login_kind "token-of-alice"
            1 0 (Some hi_txt) None empty_world))
  = (Ok (mkReadResult (mkReadInfo 0 "/" false "hi.txt" 2)
           (Some "/srv/storage/1/root/hi.txt")),
     snd (DataManager_create "/srv" login_tokens3 login_kind "token-of-alice"
            1 0 (Some hi_txt) None empty_world)).
Proof.
  apply (upload_then_read "/srv" "token-of-alice" 1 0 login_tokens3 login_kind
           hi_txt None empty_world "/"
           (mkDataInfo 1 "/" "hi.txt" false 0 false 2 1)
           (snd (DataManager_create "/srv" login_tokens3 login_kind
                   "token-of-alice" 1 0 (Some hi_txt) None empty_world))
           ltac:(repeat split; repeat constructor)
           eq_refl
           ltac:(vm_compute; reflexivity)
           ModeDownload).
Defined.

(** X22: a read of a row whose physical object is there and agrees with it,
    a directory for a directory row, a file of the recorded size for a file
    row, returns the fields of the row, in download mode with a path and in
    any other mode without one, and changes nothing: no commit is attempted,
    so the read succeeds whatever the commit schedule. *)
Theorem read_of_a_consistent_record_changes_nothing
    (srv token email issue : string) (operator target : User)
    (uid data_id : Z)
    (decode_token : string -> Result (string * string))
    (is_login : string -> bool) (w : World) (d : DataInfo) (o : PhysObj) :
  decode_token token = Ok (email, issue) ->
  List.find (fun u => String.eqb (u_email u) email) (users w) = Some operator ->
  identity_permitted is_login issue operator uid = true ->
  List.find (fun u => u_id u =? uid) (users w) = Some target ->
  data_id <> 0 ->
  List.filter (fun r => id r =? data_id) (datainfo w) = [d] ->
  storage w !! raw_path srv uid (root d) (name d) = Some o ->
  agrees_with d o = true ->
  forall mode, exists res,
    DataManager_read srv decode_token is_login token uid data_id mode w
    = (Ok res, w)
    /\ ri_created (rr_info res) = created d
    /\ ri_root (rr_info res) = root d
    /\ ri_is_dir (rr_info res) = is_dir d
    /\ ri_name (rr_info res) = name d
    /\ (is_dir d = false -> ri_size (rr_info res) = size d)
    /\ (rr_file res = None <-> mode <> ModeDownload)
    /\ (is_dir d = false -> mode = ModeDownload ->
        rr_file res = Some (raw_path srv uid (root d) (name d))).
Proof.
  intros Hdec Hop Hp Hu Hid Hrows Hat Hagree mode.
  pose proof (check_permission_granted _ _ _ _ _ _ _ Hdec _ Hop Hp) as Hchk.
  unfold DataManager_read.
  rewrite (bind_ok _ _ _ _ _ Hchk).
  rewrite (bind_ok _ _ _ _ _ (UserDBQuery_read_id_run uid w)), Hu.
  rewrite (bind_ok _ _ _ _ _ (DataDBQueryReader_by_id _ _ _ _ Hid Hrows)).
  cbv zeta.
  assert (Hprobe : DataStorageQuery_read (raw_path srv uid (root d) (name d))
                     (is_dir d) w = (Ok true, w)).
  { unfold DataStorageQuery_read, bind, gets, ret. rewrite Hat.
    destruct o as [bytes |]; cbn [agrees_with] in Hagree.
    - apply andb_true_iff in Hagree as [Hagree _]. now rewrite Hagree.
    - now rewrite Hagree. }
  rewrite (bind_ok _ _ _ _ _ Hprobe). cbn [negb].
  destruct o as [bytes |]; cbn [agrees_with] in Hagree.
  - apply andb_true_iff in Hagree as [Hfile Hsize].
    apply negb_true_iff in Hfile. apply Z.eqb_eq in Hsize.
    assert (Hsync : sync_file_size data_id
                      (raw_path srv uid (root d) (name d)) w = (Ok d, w)).
    { rewrite sync_file_size_eq, Hrows, Hat. cbv zeta.
      now rewrite Hsize, Z.eqb_refl. }
    rewrite Hfile. cbn [negb]. rewrite (bind_ok _ _ _ _ _ Hsync).
    rewrite Hfile. unfold bind at 1. unfold ret at 1.
    destruct mode; eexists; (split; [reflexivity |]);
      cbn [rr_info rr_file ri_created ri_root ri_is_dir ri_name ri_size];
      repeat split; intros; congruence.
  - rewrite Hagree. cbn [negb]. unfold bind at 1. unfold ret at 1.
    rewrite Hagree.
    assert (Hlist : exists n,
              os_listdir_len (raw_path srv uid (root d) (name d)) w
              = (Ok n, w)).
    { unfold os_listdir_len, bind, gets. rewrite Hat. eexists. reflexivity. }
    destruct Hlist as [n Hlist]. rewrite (bind_ok _ _ _ _ _ Hlist).
    destruct mode; eexists; (split; [reflexivity |]);
      cbn [rr_info rr_file ri_created ri_root ri_is_dir ri_name ri_size];
      repeat split; intros; congruence.
Qed.

Lemma read_of_a_consistent_record_changes_nothing_witness :
  exists res,
    DataManager_read "/srv" login_tokens login_kind "token-of-alice" 1 1
      ModeDownload reupload_world
    = (Ok res, reupload_world)
    /\ ri_created (rr_info res) = created alices_file
    /\ ri_root (rr_info res) = root alices_file
    /\ ri_is_dir (rr_info res) = is_dir alices_file
    /\ ri_name (rr_info res) = name alices_file
    /\ (is_dir alices_file = false ->
        ri_size (rr_info res) = size alices_file)
    /\ (rr_file res = None <-> ModeDownload <> ModeDownload)
    /\ (is_dir alices_file = false -> ModeDownload = ModeDownload ->
        rr_file res
        = Some (raw_path "/srv" 1 (root alices_file) (name alices_file))).
Proof.
  apply (read_of_a_consistent_record_changes_nothing "/srv" "token-of-alice"
           "alice@example.com" "login" alice alice 1 1 login_tokens login_kind
           reupload_world alices_file (PFile [Byte.x6f; Byte.x6c; Byte.x64]));
    first [reflexivity | discriminate].
Defined.

(** ** An upload over a file of the same slot *)

(** X23: an upload to a slot whose one row is a file, with a valid name and
    a commit that succeeds, adds no row: the row keeps its id and every
    other field and takes the byte length of the upload as size, every other
    row and the next id are as before, and the target path holds the new
    bytes. *)
Theorem upload_over_a_file_updates_its_row
    (srv token email issue : string) (operator target : User)
    (uid data_id : Z)
    (decode_token : string -> Result (string * string))
    (is_login : string -> bool)
    (file : UploadFile) (req_dirname : option string)
    (w : World) (dir_root : string) (d : DataInfo) :
  decode_token token = Ok (email, issue) ->
  List.find (fun u => String.eqb (u_email u) email) (users w) = Some operator ->
  identity_permitted is_login issue operator uid = true ->
  List.find (fun u => u_id u =? uid) (users w) = Some target ->
  parent_dir_root data_id uid w = (Ok dir_root, w) ->
  List.filter (fun x => String.eqb (root x) dir_root
                        && String.eqb (name x)
                             (last_piece (split_slash (filename file))))
    (datainfo w) = [d] ->
  is_dir d = false ->
  id d <> 0 ->
  List.filter (fun r => id r =? id d) (datainfo w) = [d] ->
  valid_name (last_piece (split_slash (filename file))) = true ->
  commit_succeeds w = true ->
  exists w',
    DataManager_create srv decode_token is_login token uid data_id (Some file)
      req_dirname w
    = (Ok (Some (with_size (Z.of_nat (List.length (content file))) d)), w')
    /\ datainfo w'
       = update_row (id d)
           (with_size (Z.of_nat (List.length (content file)))) (datainfo w)
    /\ List.length (datainfo w') = List.length (datainfo w)
    /\ next_id w' = next_id w
    /\ storage w' !! raw_path srv uid dir_root
                       (last_piece (split_slash (filename file)))
       = Some (PFile (content file)).
Proof.
  intros Hdec Hop Hp Hu Hparent Hslot Hkind Hid Hpk Hvalid Hc.
  pose proof (check_permission_granted _ _ _ _ _ _ _ Hdec _ Hop Hp) as Hchk.
  destruct (reupload_updates_in_place srv _ _ _ _ _ _ _ Hu Hparent Hslot Hkind
              Hid Hpk Hvalid Hc) as (w' & Hrun & Htable & Hat).
  assert (Hnext : next_id w' = next_id w).
  { revert Hrun. unfold DataFileCRUDManager_create.
    rewrite (bind_ok _ _ w (List.find (fun u => u_id u =? uid) (users w)) w)
      by reflexivity.
    rewrite Hu, (bind_ok _ _ _ _ _ Hparent). cbv beta zeta.
    rewrite (bind_ok _ _ _ _ _
               (DataDBQueryReader_full_root_run _ _ _ _ _ Hslot)).
    apply Z.eqb_neq in Hid. rewrite Hid, Hkind. cbn [negb andb].
    destruct (clear_target_run
                (raw_path srv uid dir_root
                   (last_piece (split_slash (filename file)))) w)
      as [s Hclear].
    rewrite (bind_ok _ _ _ _ _ Hclear).
    unfold bind at 1. unfold DataInfoCreate_new at 1. rewrite Hvalid.
    unfold ret at 1. unfold bind at 1. unfold DataStorageQuery_create at 1.
    unfold bind at 1, modify, ret at 1.
    intros Hrun. apply try_except_reraise_ok in Hrun.
    rewrite update_file_automatic_eq in Hrun.
    cbn [datainfo set_storage] in Hrun. rewrite Hpk in Hrun.
    unfold bind in Hrun. rewrite session_commit_run in Hrun by exact Hc.
    rewrite session_refresh_run in Hrun.
    injection Hrun as _ <-. reflexivity. }
  exists w'. split; [| split; [| split; [| split]]].
  - unfold DataManager_create. rewrite (bind_ok _ _ _ _ _ Hchk).
    now rewrite (bind_ok _ _ _ _ _ Hrun).
  - exact Htable.
  - rewrite Htable. unfold update_row. apply List.length_map.
  - exact Hnext.
  - exact Hat.
Qed.

Lemma upload_over_a_file_updates_its_row_witness :
  exists w',
    DataManager_create "/srv" login_tokens login_kind "token-of-alice" 1 0
      (Some a_txt) None two_files_world
    = (Ok (Some (with_size 4 alices_file)), w')
    /\ datainfo w' = update_row 1 (with_size 4) (datainfo two_files_world)
    /\ List.length (datainfo w') = List.length (datainfo two_files_world)
    /\ next_id w' = next_id two_files_world
    /\ storage w' !! "/srv/storage/1/root/a.txt" = Some (PFile (content a_txt)).
Proof.
  apply (upload_over_a_file_updates_its_row "/srv" "token-of-alice"
           "alice@example.com" "login" alice alice 1 0 login_tokens login_kind
           a_txt None two_files_world "/" alices_file);
    first [reflexivity | discriminate].
Defined.

(** ** The name an upload stores *)

Lemma DataDBQueryReader_full_root_free u r n w :
  List.filter (fun x => String.eqb (root x) r && String.eqb (name x) n)
    (datainfo w) = [] ->
  DataDBQueryReader u None None (Some (r, n)) w = (Ok None, w).
Proof.
  intros Hrows. unfold DataDBQueryReader. cbv zeta. unfold bind, gets.
  cbn [truthy_int]. rewrite scalar_run, Hrows. reflexivity.
Qed.

Lemma filter_nil_stronger {A} (f g : A -> bool) l :
  (forall x, g x = true -> f x = true) ->
  List.filter f l = [] -> List.filter g l = [].
Proof.
  intros Hfg. induction l as [| x l IH]; [reflexivity |].
  cbn [List.filter]. destruct (f x) eqn:Hf; [discriminate |].
  intros Hl. destruct (g x) eqn:Hg; [| now apply IH].
  apply Hfg in Hg. congruence.
Qed.

(** The insert of a row into a free slot, run forward. *)
Lemma DataDBQueryCreator_run fmt w :
  Forall (fun r => id r <> next_id w) (datainfo w) ->
  List.filter (fun d =>
     String.eqb (name d) (c_name fmt) && String.eqb (root d) (c_root fmt)
     && (user_id d =? c_user_id fmt) && Bool.eqb (is_dir d) (c_is_dir fmt))
    (datainfo w) = [] ->
  commit_succeeds w = true ->
  DataDBQueryCreator fmt w
  = (Ok (mkDataInfo (next_id w) (c_root fmt) (c_name fmt) (c_is_dir fmt)
           (now w) false (c_size fmt) (c_user_id fmt)),
     set_faults (List.tl (faults w))
       (set_next_id (next_id w + 1)
          (set_datainfo
             (datainfo w
              ++ [mkDataInfo (next_id w) (c_root fmt) (c_name fmt)
                    (c_is_dir fmt) (now w) false (c_size fmt)
                    (c_user_id fmt)]) w))).
Proof.
  intros Hfresh Hfree Hc.
  assert (Hnone : List.filter (fun r => id r =? next_id w) (datainfo w) = []).
  { revert Hfresh. generalize (datainfo w) as t.
    induction t as [| r t IH]; intros Hall; [reflexivity |].
    apply List.Forall_cons_iff in Hall as [Hr Ht].
    cbn [List.filter]. apply Z.eqb_neq in Hr. rewrite Hr. now apply IH. }
  rewrite DataDBQueryCreator_eq, Hfree. cbv zeta. unfold bind.
  rewrite session_commit_run by exact Hc. rewrite session_refresh_run.
  cbn [datainfo set_faults set_next_id set_datainfo].
  rewrite find_head_filter. cbn [id].
  rewrite List.filter_app, Hnone. cbn [List.filter app id].
  now rewrite Z.eqb_refl.
Qed.

(** An upload to a slot that no row holds, run forward. *)
Lemma upload_to_a_free_slot srv root_id uid file w u dir_root :
  Forall (fun r => id r <> next_id w) (datainfo w) ->
  List.find (fun x => u_id x =? uid) (users w) = Some u ->
  parent_dir_root root_id uid w = (Ok dir_root, w) ->
  List.filter (fun x => String.eqb (root x) dir_root
                        && String.eqb (name x)
                             (last_piece (split_slash (filename file))))
    (datainfo w) = [] ->
  valid_name (last_piece (split_slash (filename file))) = true ->
  commit_succeeds w = true ->
  exists w',
    DataFileCRUDManager_create srv root_id uid file w
    = (Ok (mkDataInfo (next_id w) dir_root
             (last_piece (split_slash (filename file))) false (now w) false
             (Z.of_nat (List.length (content file))) uid), w')
    /\ In (mkDataInfo (next_id w) dir_root
             (last_piece (split_slash (filename file))) false (now w) false
             (Z.of_nat (List.length (content file))) uid) (datainfo w')
    /\ storage w' !! raw_path srv uid dir_root
                       (last_piece (split_slash (filename file)))
       = Some (PFile (content file)).
Proof.
  intros Hfresh Hu Hp Hslot Hvalid Hc.
  unfold DataFileCRUDManager_create.
  unfold bind at 1. unfold UserDBQuery_read_id at 1. unfold bind at 1, gets, ret.
  rewrite Hu. rewrite (bind_ok _ _ _ _ _ Hp). cbv zeta.
  rewrite (bind_ok _ _ _ _ _ (DataDBQueryReader_full_root_free _ _ _ _ Hslot)).
  cbn [negb andb Z.eqb].
  destruct (clear_target_run
              (raw_path srv uid dir_root
                 (last_piece (split_slash (filename file)))) w) as [s Hclear].
  rewrite (bind_ok _ _ _ _ _ Hclear).
  unfold bind at 1. unfold DataInfoCreate_new at 1. rewrite Hvalid. unfold ret at 1.
  unfold bind at 1. unfold DataStorageQuery_create at 1.
  unfold bind at 1, modify, ret at 1.
  cbn [set_storage storage datainfo next_id now users faults with_c_size
       c_name c_root c_user_id c_is_dir c_size content].
  eexists. split; [| split].
  - apply try_except_ok. rewrite DataDBQueryCreator_run; [reflexivity | | |].
    + cbn [datainfo next_id set_storage]. exact Hfresh.
    + cbn [datainfo set_storage with_c_size c_name c_root c_user_id c_is_dir].
      revert Hslot. apply filter_nil_stronger. intros x Hx.
      apply andb_true_iff in Hx as [Hx _]. apply andb_true_iff in Hx as [Hx _].
      apply andb_true_iff in Hx as [Hn Hr]. now rewrite Hn, Hr.
    + exact Hc.
  - cbn [datainfo set_faults set_next_id set_datainfo set_storage next_id now
         c_name c_root c_user_id c_is_dir c_size].
    apply List.in_or_app. right. now left.
  - cbn [storage set_faults set_next_id set_datainfo set_storage].
    apply lookup_insert_eq.
Qed.

(** C9: the name a file upload stores is the part of the client-supplied
    filename after its last slash.  Whenever an upload returns a record,
    the record is in the table under that name: the filename is the
    directory part followed by the name, the name holds no slash, and the
    directory part ends with a slash when the filename has one.  And a
    filename with slashes is accepted, not rejected: for an existing user, a
    parent that resolves, a last component that is a valid name other than
    [.] and [..], a slot that no row holds or that one file row holds, and
    a commit that succeeds, the upload returns a record with that name and
    the parent path, and the bytes are stored at the parent path followed
    by the last component alone.  The table is assumed to respect the
    auto-increment, and for the second part to be well-formed. *)
Theorem C9_upload_name_is_last_component srv root_id uid file w :
  Forall (fun r => id r <> next_id w) (datainfo w) ->
  (forall d w',
     DataFileCRUDManager_create srv root_id uid file w = (Ok d, w') ->
     name d = after_last_slash (filename file)
     /\ In d (datainfo w')
     /\ has_slash (name d) = false
     /\ dirname (filename file) +:+ name d = filename file
     /\ (has_slash (filename file) = true ->
         exists p, dirname (filename file) = p +:+ "/"))
  /\ (forall u dir_root,
        table_ok w ->
        List.find (fun x => u_id x =? uid) (users w) = Some u ->
        parent_dir_root root_id uid w = (Ok dir_root, w) ->
        valid_name (after_last_slash (filename file)) = true ->
        proper_component (after_last_slash (filename file)) = true ->
        (List.filter (fun x => String.eqb (root x) dir_root
                               && String.eqb (name x)
                                    (after_last_slash (filename file)))
           (datainfo w) = []
         \/ exists d0,
              List.filter (fun x => String.eqb (root x) dir_root
                                    && String.eqb (name x)
                                         (after_last_slash (filename file)))
                (datainfo w) = [d0]
              /\ is_dir d0 = false) ->
        commit_succeeds w = true ->
        exists d w',
          DataFileCRUDManager_create srv root_id uid file w = (Ok d, w')
          /\ name d = after_last_slash (filename file)
          /\ root d = dir_root
          /\ is_dir d = false
          /\ size d = Z.of_nat (List.length (content file))
          /\ In d (datainfo w')
          /\ storage w' !! raw_path srv uid dir_root
                             (after_last_slash (filename file))
             = Some (PFile (content file))).
Proof.
  intros Hfresh. split.
  - intros d w' H. exact (upload_result_name _ _ _ _ _ _ _ Hfresh H).
  - intros u dir_root Hok Hu Hp Hvalid _ Hslot Hc.
    rewrite <- last_piece_split_slash in *.
    destruct Hslot as [Hslot | (d0 & Hslot & Hkind)].
    + destruct (upload_to_a_free_slot srv _ _ _ _ _ _ Hfresh Hu Hp Hslot
                  Hvalid Hc) as (w' & Hrun & Hin & Hat).
      eexists. exists w'. split; [exact Hrun |].
      cbn [name root is_dir size]. repeat split; assumption.
    + destruct (filter_singleton_In _ _ _ Hslot) as [Hin0 Hmatch].
      apply andb_true_iff in Hmatch as [Hr Hn].
      apply String.eqb_eq in Hr, Hn.
      destruct Hok as (Hnd & Hpos & Hall).
      pose proof (the_row_of_an_id _ _ Hnd Hin0) as Hpk.
      assert (Hid : id d0 <> 0).
      { rewrite List.Forall_forall in Hall. pose proof (Hall _ Hin0) as Hb.
        cbn beta in Hb. lia. }
      destruct (reupload_updates_in_place srv _ _ _ _ _ _ _ Hu Hp Hslot Hkind
                  Hid Hpk Hvalid Hc) as (w' & Hrun & Htable & Hat).
      eexists. exists w'. split; [exact Hrun |].
      cbn [with_size name root is_dir size].
      repeat split; try assumption.
      rewrite Htable. unfold update_row. apply List.in_map_iff.
      exists d0. split; [now rewrite Z.eqb_refl | exact Hin0].
Qed.

Lemma C9_upload_name_is_last_component_witness :
  exists d w',
    DataFileCRUDManager_create "/srv" 0 1 hi_txt empty_world = (Ok d, w')
    /\ name d = "hi.txt"
    /\ root d = "/"
    /\ In d (datainfo w')
    /\ storage w' !! "/srv/storage/1/root/hi.txt"
       = Some (PFile [Byte.x68; Byte.x69])
    /\ has_slash (name d) = false.
Proof.
  destruct (C9_upload_name_is_last_component "/srv" 0 1 hi_txt empty_world
              (List.Forall_nil _)) as [Hany Hlive].
  destruct (Hlive alice "/"
              ltac:(repeat split; repeat constructor)
              eq_refl eq_refl eq_refl eq_refl (or_introl eq_refl) eq_refl)
    as (d & w' & Hrun & Hname & Hroot & _ & _ & Hin & Hat).
  exists d, w'. split; [exact Hrun |].
  split; [exact Hname |]. split; [exact Hroot |]. split; [exact Hin |].
  split; [exact Hat |].
  destruct (Hany d w' Hrun) as (_ & _ & Hflat & _). exact Hflat.
Defined.

(** ** Reads whose repair cannot be committed *)

(** X24: when the physical object of a row is missing, of the other kind, or
    a file of another size than recorded, the read has a repair to commit,
    the delete of the row or the size correction; if that commit fails the
    read raises the commit error, in any mode, and the table, the next id
    and the physical store are as before. *)
Theorem read_with_a_failing_repair
    (srv token email issue : string) (operator target : User)
    (uid data_id : Z)
    (decode_token : string -> Result (string * string))
    (is_login : string -> bool) (w : World) (d : DataInfo)
    (msg : string) (rest : list (option string)) :
  decode_token token = Ok (email, issue) ->
  List.find (fun u => String.eqb (u_email u) email) (users w) = Some operator ->
  identity_permitted is_login issue operator uid = true ->
  List.find (fun u => u_id u =? uid) (users w) = Some target ->
  data_id <> 0 ->
  List.filter (fun r => id r =? data_id) (datainfo w) = [d] ->
  (forall o, storage w !! raw_path srv uid (root d) (name d) = Some o ->
             agrees_with d o = false) ->
  faults w = Some msg :: rest ->
  forall mode, exists w1,
    DataManager_read srv decode_token is_login token uid data_id mode w
    = (Raise (DBError msg), w1)
    /\ same_stores w w1.
Proof.
  intros Hdec Hop Hp Hu Hid Hrows Hoff Hf mode.
  pose proof (check_permission_granted _ _ _ _ _ _ _ Hdec _ Hop Hp) as Hchk.
  destruct (filter_singleton_In _ _ _ Hrows) as [_ Hd]. apply Z.eqb_eq in Hd.
  exists (set_faults rest w). split; [| apply same_stores_set_faults].
  unfold DataManager_read.
  rewrite (bind_ok _ _ _ _ _ Hchk).
  rewrite (bind_ok _ _ _ _ _ (UserDBQuery_read_id_run uid w)), Hu.
  rewrite (bind_ok _ _ _ _ _ (DataDBQueryReader_by_id _ _ _ _ Hid Hrows)).
  cbv zeta.
  assert (Hpurge : DataDBQueryDestroyer (id d) w
                   = (Raise (DBError msg), set_faults rest w)).
  { rewrite DataDBQueryDestroyer_eq, Hd, Hrows. now apply commit_then_fault. }
  assert (Hprobe : forall b,
            DataStorageQuery_read (raw_path srv uid (root d) (name d))
              (is_dir d) w = (Ok b, w) ->
            b = false ->
            (storage_info <-
               DataStorageQuery_read (raw_path srv uid (root d) (name d))
                 (is_dir d) ;;
             if negb storage_info
             then DataDBQueryDestroyer (id d) ;;; raise DataNotFound
             else
               data_info <-
                 (if negb (is_dir d)
                  then sync_file_size data_id
                         (raw_path srv uid (root d) (name d))
                  else ret d) ;;
               sz <- (if is_dir data_info
                      then os_listdir_len (raw_path srv uid (root d) (name d))
                      else ret (size data_info)) ;;
               match mode with
               | ModeDownload =>
                   file <-
                     (if negb (is_dir data_info)
                      then DataFileCRUDManager_read
                             (raw_path srv uid (root d) (name d))
                      else DataDirectoryCRUDManager_read
                             (raw_path srv uid (root d) (name d))) ;;
                   ret (mkReadResult
                          (mkReadInfo (created data_info) (root data_info)
                             (is_dir data_info) (name data_info) sz)
                          (Some file))
               | _ =>
                   ret (mkReadResult
                          (mkReadInfo (created data_info) (root data_info)
                             (is_dir data_info) (name data_info) sz) None)
               end) w
            = (Raise (DBError msg), set_faults rest w)).
  { intros b Hb ->. rewrite (bind_ok _ _ _ _ _ Hb). cbn [negb].
    now rewrite (bind_raise _ _ _ _ _ Hpurge). }
  destruct (storage w !! raw_path srv uid (root d) (name d)) as [o |] eqn:Hat.
  - specialize (Hoff o eq_refl). destruct o as [bytes |];
      cbn [agrees_with] in Hoff.
    + destruct (is_dir d) eqn:Hkind.
      * apply (Hprobe false); [| reflexivity].
        unfold DataStorageQuery_read, bind, gets, ret. now rewrite Hat.
      * cbn [negb andb] in Hoff.
        assert (Hthere : DataStorageQuery_read
                           (raw_path srv uid (root d) (name d)) false w
                         = (Ok true, w)).
        { unfold DataStorageQuery_read, bind, gets, ret. now rewrite Hat. }
        rewrite (bind_ok _ _ _ _ _ Hthere). cbn [negb].
        assert (Hsync : sync_file_size data_id
                          (raw_path srv uid (root d) (name d)) w
                        = (Raise (DBError msg), set_faults rest w)).
        { rewrite sync_file_size_eq, Hrows, Hat. cbv zeta.
          rewrite Z.eqb_sym, Hoff. cbn [negb]. now apply commit_then_fault. }
        now rewrite (bind_raise _ _ _ _ _ Hsync).
    + apply (Hprobe false); [| reflexivity].
      unfold DataStorageQuery_read, bind, gets, ret. now rewrite Hat, Hoff.
  - apply (Hprobe false); [| reflexivity].
    unfold DataStorageQuery_read, bind, gets, ret. now rewrite Hat.
Qed.

Lemma read_with_a_failing_repair_witness :
  exists w1,
    DataManager_read "/srv" login_tokens login_kind "token-of-alice" 1 1
      ModeInfo failing_repair_world
    = (Raise (DBError "commit failed"), w1)
    /\ same_stores failing_repair_world w1.
Proof.
  apply (read_with_a_failing_repair "/srv" "token-of-alice"
           "alice@example.com" "login" alice alice 1 1 login_tokens login_kind
           failing_repair_world alices_file "commit failed" []);
    first [reflexivity | discriminate].
Defined.

(** ** A new directory, then a read *)

Lemma no_children_below p (s : gmap string PhysObj) :
  (forall k, is_under p k = true -> s !! k = None) ->
  base.size (filter (fun kv : string * PhysObj =>
               is_under p kv.1
               && negb (has_slash (string_drop (String.length p + 1) kv.1))
               = true) s) = 0%nat.
Proof.
  intros Hnone. apply map_size_empty_iff, map_empty_filter_2.
  intros k x Hk Hcond. cbn [fst] in Hcond.
  apply andb_true_iff in Hcond as [Hunder _].
  rewrite (Hnone k Hunder) in Hk. discriminate.
Qed.

Lemma create_directory_result srv root_id uid dirname w d w' dir_root :
  table_ok w ->
  parent_dir_root root_id uid w = (Ok dir_root, w) ->
  DataDirectoryCRUDManager_create srv root_id uid dirname w = (Ok d, w') ->
  users w' = users w
  /\ List.find (fun u => u_id u =? uid) (users w) <> None
  /\ In d (datainfo w')
  /\ root d = dir_root
  /\ name d = dirname
  /\ is_dir d = true
  /\ now w' = now w
  /\ (forall k, is_under (raw_path srv uid dir_root dirname) k = true ->
                storage w !! k = None -> storage w' !! k = None).
Proof.
  intros Hok Hp H.
  pose proof (create_directory_leaves_the_directory _ _ _ _ _ _ _ _ Hp H)
    as [_ Hcleaned].
  unfold DataDirectoryCRUDManager_create in H.
  rewrite (bind_ok _ _ w (List.find (fun u => u_id u =? uid) (users w)) w) in H
    by reflexivity.
  destruct (List.find (fun u => u_id u =? uid) (users w)) as [u |];
    [| discriminate].
  rewrite (bind_ok _ _ _ _ _ Hp) in H. cbv beta zeta in H.
  set (p := raw_path srv uid dir_root dirname) in *.
  destruct (DataDBQueryReader (Some uid) None None (Some (dir_root, dirname)) w)
    as [[info | e] w1] eqn:Hr;
    pose proof (DataDBQueryReader_world _ _ _ _ _ _ _ Hr) as ->;
    [rewrite (bind_ok _ _ _ _ _ Hr) in H
    | rewrite (bind_raise _ _ _ _ _ Hr) in H; discriminate].
  destruct (negb _); [discriminate |].
  rewrite (bind_ok _ _ _ _ _ (storage_occupied_run p w)) in H.
  unfold bind at 1 in H.
  assert (Hfresh : Forall (fun r => id r <> next_id w) (datainfo w)).
  { destruct Hok as (_ & _ & Hall). eapply List.Forall_impl; [| exact Hall].
    intros r Hr0. cbn beta in Hr0. lia. }
  assert (Hend : forall w2,
            datainfo w2 = datainfo w -> next_id w2 = next_id w ->
            users w2 = users w -> now w2 = now w ->
            DataDBQueryCreator (mkDataInfoCreate dirname dir_root uid true 0) w2
            = (Ok d, w') ->
            users w' = users w /\ In d (datainfo w')
            /\ root d = dir_root /\ name d = dirname /\ is_dir d = true
            /\ now w' = now w
            /\ storage w' = storage w2).
  { intros w2 Ht Hn Hu2 Hnow Hrun.
    pose proof (DataDBQueryCreator_users
                  (mkDataInfoCreate dirname dir_root uid true 0) w2) as Hu.
    rewrite Hrun in Hu. cbn [snd] in Hu.
    pose proof (ks_run _ _ _ _ (ks_DataDBQueryCreator _) Hrun) as Hst.
    assert (Hnow' : now w' = now w2).
    { revert Hrun. rewrite DataDBQueryCreator_eq.
      destruct (List.filter _ (datainfo w2)) as [| r0 [| r1 l]];
        try discriminate.
      unfold bind, session_commit.
      destruct (List.head (faults w2)) as [[m |] |]; try discriminate;
        intros Hrun; injection Hrun as _ <-; reflexivity. }
    rewrite <- Ht, <- Hn in Hfresh.
    destruct (DataDBQueryCreator_ok _ _ _ _ Hfresh Hrun) as [Hd Hin].
    rewrite Hu, Hu2, Hnow', Hnow. subst d.
    cbn [root name is_dir]. repeat split; first [assumption | reflexivity]. }
  destruct (storage w !! p) as [o |] eqn:Hlook.
  - rewrite DataStorageQuery_destroy_run in H.
    unfold bind at 1 in H. unfold DataInfoCreate_new at 1 in H.
    destruct (valid_name _); [| discriminate].
    unfold ret at 1 in H. unfold bind at 1 in H.
    unfold DataStorageQuery_create at 1 in H.
    unfold bind at 1, modify, ret at 1 in H.
    apply try_except_reraise_ok in H.
    match type of H with
    | _ _ ?w2 = _ =>
        destruct (Hend w2 eq_refl eq_refl eq_refl eq_refl H)
          as (Hu & Hin & Hrt & Hnm & Hdir & Hnow & _)
    end.
    repeat split; try assumption; [discriminate |].
    intros k Hk _. apply Hcleaned; [eexists; reflexivity | exact Hk].
  - unfold ret at 1 in H.
    unfold bind at 1 in H. unfold DataInfoCreate_new at 1 in H.
    destruct (valid_name _); [| discriminate].
    unfold ret at 1 in H. unfold bind at 1 in H.
    unfold DataStorageQuery_create at 1 in H.
    unfold bind at 1, modify, ret at 1 in H.
    apply try_except_reraise_ok in H.
    match type of H with
    | _ _ ?w2 = _ =>
        destruct (Hend w2 eq_refl eq_refl eq_refl eq_refl H)
          as (Hu & Hin & Hrt & Hnm & Hdir & Hnow & Hst)
    end.
    repeat split; try assumption; [discriminate |].
    intros k Hk Hnone. rewrite Hst. cbn [storage set_storage].
    rewrite lookup_insert_ne by (apply not_eq_sym, is_under_ne, Hk).
    exact Hnone.
Qed.

(** X25: a directory create that returns a record can be read back: from a
    well-formed table, a read by the same caller of the id returned gives
    the parent path, the requested name and the kind directory, with the
    path of an archive in download mode and with no path in any other mode,
    and changes neither the table nor the physical store; the size reported
    is 0 when nothing lay below the target path before the create, or when
    a stale object at the target was cleaned away.  Which path the archive
    gets is not stated. *)
Theorem new_directory_then_read
    (srv token : string) (uid data_id : Z)
    (decode_token : string -> Result (string * string))
    (is_login : string -> bool)
    (dirname : string) (w : World) (dir_root : string) (d : DataInfo)
    (w' : World) :
  table_ok w ->
  parent_dir_root data_id uid w = (Ok dir_root, w) ->
  DataManager_create srv decode_token is_login token uid data_id None
    (Some dirname) w = (Ok (Some d), w') ->
  forall mode, exists sz archive,
    DataManager_read srv decode_token is_login token uid (id d) mode w'
    = (Ok (mkReadResult
             (mkReadInfo (created d) dir_root true dirname sz)
             (match mode with
              | ModeDownload => Some archive
              | _ => None
              end)), w')
    /\ (is_Some (storage w !! raw_path srv uid dir_root dirname)
        \/ (forall k, is_under (raw_path srv uid dir_root dirname) k = true ->
                      storage w !! k = None) ->
        sz = 0).
Proof.
  intros Hok Hp H mode.
  unfold DataManager_create in H.
  apply bind_inv_ok in H as ([] & w1 & Hchk & H).
  pose proof (check_permission_world _ _ _ _ _ _ _ Hchk) as ->.
  destruct (truthy_str (Some dirname)); [| discriminate].
  apply bind_inv_ok in H as (d1 & w2 & H & Hret).
  unfold ret in Hret. injection Hret as -> ->.
  change (default EmptyString (Some dirname)) with dirname in H.
  assert (Hok' : table_ok w').
  { pose proof (keeps_DataDirectoryCRUDManager_create srv data_id uid dirname w
                  Hok) as Hk.
    now rewrite H in Hk. }
  pose proof (create_directory_leaves_the_directory _ _ _ _ _ _ _ _ Hp H)
    as [Hat Hcleaned].
  destruct (create_directory_result _ _ _ _ _ _ _ _ Hok Hp H)
    as (Hu & Huser & Hin & Hroot & Hname & Hdir & Hnow & Hbelow).
  destruct Hok' as (Hnd & Hpos & Hall).
  pose proof (the_row_of_an_id _ _ Hnd Hin) as Hrows.
  assert (Hid : id d <> 0).
  { rewrite List.Forall_forall in Hall. pose proof (Hall _ Hin) as Hb.
    cbn beta in Hb. lia. }
  exists (Z.of_nat (base.size (filter (fun kv : string * PhysObj =>
            is_under (raw_path srv uid dir_root dirname) kv.1
            && negb (has_slash
                       (string_drop
                          (String.length (raw_path srv uid dir_root dirname)
                           + 1) kv.1))
            = true) (storage w')))).
  exists ("download-" +:+ str_of_int (now w) +:+ ".zip").
  split.
  - unfold DataManager_read.
    rewrite (bind_ok _ _ _ _ _
               (check_permission_same_users _ _ _ _ _ _ Hu Hchk)).
    rewrite (bind_ok _ _ _ _ _ (UserDBQuery_read_id_run uid w')). rewrite Hu.
    destruct (List.find (fun u => u_id u =? uid) (users w)) as [u |];
      [| congruence].
    rewrite (bind_ok _ _ _ _ _ (DataDBQueryReader_by_id _ _ _ _ Hid Hrows)).
    cbv zeta. rewrite Hroot, Hname, Hdir.
    assert (Hprobe : DataStorageQuery_read
                       (raw_path srv uid dir_root dirname) true w'
                     = (Ok true, w')).
    { unfold DataStorageQuery_read, bind, gets, ret. now rewrite Hat. }
    rewrite (bind_ok _ _ _ _ _ Hprobe). cbn [negb].
    unfold bind at 1. unfold ret at 1. rewrite Hdir.
    assert (Hlist : os_listdir_len (raw_path srv uid dir_root dirname) w'
                    = (Ok (Z.of_nat (base.size (filter
                         (fun kv : string * PhysObj =>
                            is_under (raw_path srv uid dir_root dirname) kv.1
                            && negb (has_slash
                                 (string_drop
                                    (String.length
                                       (raw_path srv uid dir_root dirname) + 1)
                                    kv.1))
                            = true) (storage w')))), w')).
    { unfold os_listdir_len, bind, gets. now rewrite Hat. }
    rewrite (bind_ok _ _ _ _ _ Hlist). rewrite Hroot, Hname.
    destruct mode; try reflexivity.
    cbn [negb]. unfold DataDirectoryCRUDManager_read, bind, gets, ret.
    now rewrite Hnow.
  - intros Hempty. rewrite no_children_below; [reflexivity |].
    intros k Hk. destruct Hempty as [Hocc | Hnone].
    + now apply Hcleaned.
    + apply Hbelow; [exact Hk | now apply Hnone].
Qed.

Lemma new_directory_then_read_witness :
  exists sz archive,
    DataManager_read "/srv" login_tokens3 login_kind "token-of-alice" 1 1
      ModeDownload after_mydir
    = (Ok (mkReadResult (mkReadInfo 0 "/" true "mydir" sz) (Some archive)),
       after_mydir)
    /\ (is_Some (storage empty_world !! raw_path "/srv" 1 "/" "mydir")
        \/ (forall k, is_under (raw_path "/srv" 1 "/" "mydir") k = true ->
                      storage empty_world !! k = None) ->
        sz = 0).
Proof.
  apply (new_directory_then_read "/srv" "token-of-alice" 1 0 login_tokens3
           login_kind "mydir" empty_world "/"
           (mkDataInfo 1 "/" "mydir" true 0 false 0 1) after_mydir
           ltac:(repeat split; repeat constructor)
           eq_refl
           ltac:(vm_compute; reflexivity)
           ModeDownload).
Defined.
